(** * Tutoring-Invoice-Automation: billing computation and record selection

    A shallow embedding of the invoice script ([invoice.py]) and of its
    earlier variant ([sketch.py]): the record parser, the session selector,
    the billing calculator, the initials derivation and the post-send sheet
    updates, followed by the properties proved about them.

    Conventions of the embedding.
    - Python [str] is [string] and the text of the sheet is taken to be
      ASCII; where a statement depends on it, it says so. The derivation of
      the initials is also given over any alphabet ([PyText]), with the
      tables of the Unicode character database as parameters.
    - Python [float] is IEEE-754 binary64, modelled by the executable
      specification [spec_float] with [prec = 53] and [emax = 1024].
    - Python [int] is [Z].
    - A [datetime] is a whole number of microseconds counted from
      1899-12-30T00:00:00, the epoch of [parse_date].
    - An exception is a value of [exn]; code that may raise returns a
      [result]; code that also touches the sheet, the disk or the mail
      transport runs in the state-and-error monad [M].
    - Services of the host (environment variables, the version of the
      spreadsheet library, [float()] on text, [timedelta], [pdflatex],
      SMTP) are the fields of the class [Host]. *)

From Stdlib Require Import ZArith List String Ascii Bool Lia.
From Stdlib Require Import Floats.SpecFloat DecimalString DecimalZ.
From stdpp Require Import gmap strings list.

Open Scope string_scope.
Open Scope Z_scope.

#[local] Arguments String.append : simpl nomatch.

(** ** Exceptions and results *)

Inductive exn : Type :=
  | StopIteration
  | IndexError
  | ValueError
  | OverflowError
  | AttributeError
  | IncorrectCellLabel
  | CalledProcessError
  | FileNotFoundError
  | SMTPException.

Inductive result (A : Type) : Type :=
  | Ok (a : A)
  | Raise (e : exn).

Arguments Ok {A} a.
Arguments Raise {A} e.

Definition rbind {A B} (r : result A) (k : A -> result B) : result B :=
  match r with
  | Ok a => k a
  | Raise e => Raise e
  end.

Declare Scope result_scope.
Delimit Scope result_scope with res.
Notation "'let?' x ':=' r 'in' k" := (rbind r (fun x => k))
  (at level 10, x name, r at level 100, k at level 200) : result_scope.
Notation "'let?' ' p ':=' r 'in' k" := (rbind r (fun x => match x with p => k end))
  (at level 10, p pattern, r at level 100, k at level 200) : result_scope.
Open Scope result_scope.

(** [[f(x) for x in xs]] where [f] may raise: the first exception wins. *)
Fixpoint rmap {A B} (f : A -> result B) (xs : list A) : result (list B) :=
  match xs with
  | [] => Ok []
  | x :: xs' =>
      let? y := f x in
      let? ys := rmap f xs' in
      Ok (y :: ys)
  end.

(** [[x for x in xs if p(x)]] where [p] may raise. *)
Fixpoint rfilter {A} (p : A -> result bool) (xs : list A) : result (list A) :=
  match xs with
  | [] => Ok []
  | x :: xs' =>
      let? b := p x in
      let? ys := rfilter p xs' in
      Ok (if b then x :: ys else ys)
  end.

(** [xs[i]] for a non-negative literal index [i]. *)
Definition index {A} (xs : list A) (i : nat) : result A :=
  match nth_error xs i with
  | Some x => Ok x
  | None => Raise IndexError
  end.

(** ** Python strings *)

Module PyStr.

Definition code (c : ascii) : N := N_of_ascii c.

(** [str.isspace] on the ASCII range: TAB, LF, VT, FF, CR, the four
    separators FS, GS, RS, US, and the space. *)
Definition isspace (c : ascii) : bool :=
  let n := code c in
  ((9 <=? n) && (n <=? 13) || (28 <=? n) && (n <=? 32))%N.

Definition islower (c : ascii) : bool :=
  let n := code c in ((97 <=? n) && (n <=? 122))%N.

Definition isdigit (c : ascii) : bool :=
  let n := code c in ((48 <=? n) && (n <=? 57))%N.

Definition upper_char (c : ascii) : ascii :=
  if islower c then ascii_of_N (code c - 32) else c.

(** [s.upper()] *)
Fixpoint upper (s : string) : string :=
  match s with
  | EmptyString => EmptyString
  | String c s' => String (upper_char c) (upper s')
  end.

(** [''.join(parts)] *)
Fixpoint join (parts : list string) : string :=
  match parts with
  | [] => EmptyString
  | p :: ps => p +:+ join ps
  end.

(** [s.split()]: the maximal runs of non-whitespace characters, in order.
    [tok] is the run read so far. *)
Fixpoint split_from (tok : string) (s : string) : list string :=
  match s with
  | EmptyString =>
      match tok with EmptyString => [] | _ => [tok] end
  | String c s' =>
      if isspace c then
        match tok with
        | EmptyString => split_from EmptyString s'
        | _ => tok :: split_from EmptyString s'
        end
      else split_from (tok +:+ String c EmptyString) s'
  end.

Definition split (s : string) : list string := split_from EmptyString s.

(** [s[0]] as a one-character string. *)
Definition first (s : string) : result string :=
  match s with
  | EmptyString => Raise IndexError
  | String c _ => Ok (String c EmptyString)
  end.

(** [s[-1]] as a character. *)
Fixpoint last (s : string) : result ascii :=
  match s with
  | EmptyString => Raise IndexError
  | String c EmptyString => Ok c
  | String _ s' => last s'
  end.

(** [s[:-1]] *)
Fixpoint drop_last (s : string) : string :=
  match s with
  | EmptyString => EmptyString
  | String _ EmptyString => EmptyString
  | String c s' => String c (drop_last s')
  end.

(** [s.split(' ')[0]]: the text before the first space. *)
Fixpoint first_word (s : string) : string :=
  match s with
  | EmptyString => EmptyString
  | String c s' => if Ascii.eqb c " " then EmptyString else String c (first_word s')
  end.

Fixpoint zeros (n : nat) : string :=
  match n with
  | O => EmptyString
  | S n' => String "0" (zeros n')
  end.

(** [s.zfill(width)]: pads with zeros on the left up to [width]
    characters; a leading sign stays in front of the padding. *)
Definition zfill (width : nat) (s : string) : string :=
  let pad := zeros (width - String.length s) in
  match s with
  | String c s' =>
      if (Ascii.eqb c "+" || Ascii.eqb c "-")%bool
      then String c (pad +:+ s')
      else pad +:+ s
  | EmptyString => pad
  end.

(** The blanks [int] passes over around a literal in ASCII text: those of
    C's [isspace], TAB, LF, VT, FF, CR and the space. The separators FS,
    GS, RS and US are not among them. *)
Definition isspace_c (c : ascii) : bool :=
  let n := code c in
  ((9 <=? n) && (n <=? 13) || (n =? 32))%N.

Fixpoint lstrip (s : string) : string :=
  match s with
  | String c s' => if isspace_c c then lstrip s' else s
  | EmptyString => EmptyString
  end.

Fixpoint rstrip (s : string) : string :=
  match s with
  | EmptyString => EmptyString
  | String c s' =>
      match rstrip s' with
      | EmptyString => if isspace_c c then EmptyString else String c EmptyString
      | t => String c t
      end
  end.

Definition strip (s : string) : string := rstrip (lstrip s).

(** Digits of a decimal literal: a single underscore is allowed between
    two digits and is dropped. [prev] tells whether the previous character
    was a digit. *)
Fixpoint digits_of (prev : bool) (s : string) : option string :=
  match s with
  | EmptyString => if prev then Some EmptyString else None
  | String c s' =>
      if isdigit c then
        match digits_of true s' with
        | Some d => Some (String c d)
        | None => None
        end
      else if (Ascii.eqb c "_" && prev)%bool then
        match s' with
        | EmptyString => None
        | _ => digits_of false s'
        end
      else None
  end.

(** [sys.get_int_max_str_digits()], at its default: the largest number of
    digits [int] reads and [str] writes. *)
Definition max_str_digits : nat := 4300.

(** A literal of more than [max_str_digits] digits, leading zeros
    included, is refused. *)
Definition nat_literal (s : string) : option Z :=
  match digits_of false s with
  | Some d =>
      if (max_str_digits <? String.length d)%nat then None
      else
        match NilEmpty.uint_of_string d with
        | Some u => Some (Z.of_uint u)
        | None => None
        end
  | None => None
  end.

(** [int(s)] for a string [s], base ten: a literal with an optional sign,
    blanks around it; everything else is a [ValueError]. *)
Definition int (s : string) : result Z :=
  let t := strip s in
  let parsed :=
    match t with
    | String c t' =>
        if Ascii.eqb c "-" then option_map Z.opp (nat_literal t')
        else if Ascii.eqb c "+" then nat_literal t'
        else nat_literal t
    | EmptyString => None
    end in
  match parsed with
  | Some z => Ok z
  | None => Raise ValueError
  end.

(** The decimal text of an integer [z]. *)
Definition str (z : Z) : string := NilZero.string_of_int (Z.to_int z).

(** [str(z)] for an integer [z]: its decimal text, refused when it has
    more than [max_str_digits] digits. *)
Definition to_str (z : Z) : result string :=
  if (max_str_digits <? String.length (str (Z.abs z)))%nat then Raise ValueError
  else Ok (str z).

(** [chr(ord(c) + k)] *)
Definition shift_char (c : ascii) (k : N) : ascii := ascii_of_N (code c + k).

End PyStr.

(** ** Initials (invoice.py, [extract_initials]) *)

(** [''.join(word[0] for word in name.split()).upper()] *)
Definition extract_initials (name : string) : result string :=
  let? firsts := rmap PyStr.first (PyStr.split name) in
  Ok (PyStr.upper (PyStr.join firsts)).

(** ** Initials over the characters of Unicode *)

(** Python text is a sequence of Unicode code points, and [split] and
    [upper] consult the Unicode character database. [PyText] has the string
    operations of [extract_initials] over any alphabet, the two tables of
    the database being parameters: which characters are whitespace, and the
    full uppercase mapping, which sends a character to one, two or three
    characters. [PyStr] is their restriction to ASCII text. *)

Module PyText.
Section Over.
Context {char : Type}.
Variable isspace : char -> bool.
Variable toupper : char -> list char.

(** [s.split()]; [tok] is the run read so far. *)
Fixpoint split_from (tok s : list char) : list (list char) :=
  match s with
  | [] =>
      match tok with [] => [] | _ => [tok] end
  | c :: s' =>
      if isspace c then
        match tok with
        | [] => split_from [] s'
        | _ => tok :: split_from [] s'
        end
      else split_from (tok ++ [c])%list s'
  end.

Definition split (s : list char) : list (list char) := split_from [] s.

(** [s[0]] as a one-character text. *)
Definition first (s : list char) : result (list char) :=
  match s with
  | [] => Raise IndexError
  | c :: _ => Ok [c]
  end.

(** [''.join(parts)] *)
Definition join (parts : list (list char)) : list char := List.concat parts.

(** [s.upper()]: every character is replaced by its uppercase mapping,
    whatever stands around it. *)
Definition upper (s : list char) : list char := List.flat_map toupper s.

(** [''.join(word[0] for word in name.split()).upper()] *)
Definition extract_initials (name : list char) : result (list char) :=
  let? firsts := rmap first (split name) in
  Ok (upper (join firsts)).

End Over.
End PyText.

(** The uppercase mapping of ASCII text. *)
Definition ascii_toupper (c : ascii) : list ascii := [PyStr.upper_char c].

(** ** Python numbers *)

Module PyFloat.

Definition prec : Z := 53.
Definition emax : Z := 1024.

(** Binary64 values. *)
Definition float64 : Type := spec_float.

Definition add : float64 -> float64 -> float64 := SFadd prec emax.
Definition sub : float64 -> float64 -> float64 := SFsub prec emax.
Definition mul : float64 -> float64 -> float64 := SFmul prec emax.
Definition div : float64 -> float64 -> float64 := SFdiv prec emax.
Definition fabs : float64 -> float64 := SFabs.
Definition leb : float64 -> float64 -> bool := SFleb.
Definition eqb : float64 -> float64 -> bool := SFeqb.

Definition pzero : float64 := S754_zero false.
Definition nzero : float64 := S754_zero true.

(** The integer [z] rounded to the nearest binary64, ties to even. *)
Definition of_Z (z : Z) : float64 := binary_normalize prec emax z 0 false.

(** [float(z)] for an integer [z]: an integer beyond the binary64 range
    is an [OverflowError]. *)
Definition of_int (z : Z) : result float64 :=
  match of_Z z with
  | S754_infinity _ => Raise OverflowError
  | f => Ok f
  end.

(** The loop of the built-in [sum] over floats (CPython 3.12 and later,
    which the nested quotes of invoice.py line 103 require): Neumaier's
    compensated summation. [f] is the running sum and [c] the running
    compensation; the compensation is added at the end when it is finite
    and not zero. *)
Fixpoint neumaier (f c : float64) (xs : list float64) : float64 :=
  match xs with
  | [] =>
      match c with
      | S754_finite _ _ _ => add f c
      | _ => f
      end
  | x :: xs' =>
      let t := add f x in
      let c' :=
        if leb (fabs x) (fabs f)
        then add c (add (sub f t) x)
        else add c (add (sub x t) f) in
      neumaier t c' xs'
  end.

End PyFloat.

Abbreviation float64 := PyFloat.float64.

(** A Python number: an [int] or a [float]. *)
Inductive number : Type :=
  | Int (z : Z)
  | Float (f : float64).

(** The binary64 operand a number contributes to a mixed [+]. CPython raises
    [OverflowError] for an integer beyond the binary64 range; the script
    only ever converts the integer [0], the value of an empty [sum]. *)
Definition as_float (n : number) : float64 :=
  match n with
  | Int z => PyFloat.of_Z z
  | Float f => f
  end.

(** [a + b] on numbers. *)
Definition num_add (a b : number) : number :=
  match a, b with
  | Int x, Int y => Int (x + y)
  | _, _ => Float (PyFloat.add (as_float a) (as_float b))
  end.

(** [sum(xs)] for a list of floats: the start value is the integer [0]; the
    first item is added to it with [+] and the rest by the float loop. *)
Definition py_sum (xs : list float64) : number :=
  match xs with
  | [] => Int 0
  | x :: xs' => Float (PyFloat.neumaier (PyFloat.add (PyFloat.of_Z 0) x) PyFloat.pzero xs')
  end.

(** ** Records *)

(** A value of a cell as the spreadsheet API hands it over: text, or a
    number when the value is fetched unformatted. *)
Inductive cell : Type :=
  | CStr (s : string)
  | CNum (n : number).

(** Microseconds since 1899-12-30T00:00:00. *)
Definition datetime : Type := Z.

Definition us_per_day : Z := 86400000000.

(** [datetime.min] and [datetime.max], as offsets from the epoch: the
    proleptic ordinal of 1899-12-30 is 693594 and that of 9999-12-31 is
    3652059. *)
Definition datetime_min : Z := (1 - 693594) * us_per_day.
Definition datetime_max : Z := (3652059 - 693594 + 1) * us_per_day - 1.

(** A parsed session: [[name, date, hours, fee]]. *)
Record Session : Type := {
  s_client : cell;
  s_date : datetime;
  s_hours : float64;
  s_fee : float64
}.

(** A parsed client: the nine columns of the client range. *)
Record Client : Type := {
  c_name : string;
  c_seq : Z;
  c_field_a : string;
  c_field_b : float64;
  c_subjects : string;
  c_hourly_rate : float64;
  c_running_tab : float64;
  c_payer_name : string;
  c_payer_email : string
}.

(** The fields the invoice template interpolates. Numbers are kept as
    computed; the template prints them with two decimals. *)
Record Invoice : Type := {
  invoiceNumber : string;
  clientName : string;
  subjectsList : string;
  hourlyRate : float64;
  sessionCount : nat;
  totalHours : number;
  sessionTotal : number;
  currentTab : float64;
  totalAmount : number;
  sessionRows : list (datetime * float64 * float64);
  paymentTermDays : Z;
  feeHeading : string
}.

Inductive variant : Type := Welcome | Standard.

(** What a file holds: a document written by the script, or the bytes an
    external tool left. *)
Inductive file : Type :=
  | Tex (doc : Invoice)
  | Binary (bytes : string).

(** The files of the machine, by path. *)
Definition Disk : Type := gmap string file.

(** The message handed to the SMTP transport. *)
Record Email : Type := {
  e_to : string;
  e_subject : string;
  e_variant : variant;
  e_greeting : string;
  e_student : string;
  e_period : datetime * datetime;
  (** the path the attachment was read from; its base name is the file
      name of the attachment *)
  e_attachment : string;
  (** what was read there *)
  e_attached : file
}.

(** ** Host services *)

Class Host : Type := {
  SESSION_RANGE : string;
  CLIENT_RANGE : string;
  CUTOFF_RANGE : string;
  INVOICE_NUMBER_RANGE : string;
  (** whether [sheet.get] returns one empty row for a range without values
      (gspread 6 and later) rather than no row (gspread 5) *)
  empty_range_as_row : bool;
  (** [float(s)] for a string [s] *)
  float_of_str : string -> result float64;
  (** [timedelta(days=x)] for a float [x], in microseconds *)
  timedelta_days : float64 -> result Z;
  (** [pdflatex -output-directory dir path] on a disk: the disk it leaves
      and whether it exits with status 0 *)
  pdflatex : string -> string -> Disk -> Disk * bool;
  (** whether the SMTP server accepts a message *)
  smtp_ok : Email -> bool
}.

(** ** Record parser *)

Section Parser.
Context `{Host}.

(** [float(x)] for a cell value. *)
Definition float_of (x : cell) : result float64 :=
  match x with
  | CStr s => float_of_str s
  | CNum (Int z) => PyFloat.of_int z
  | CNum (Float f) => Ok f
  end.

(** [datetime(1899, 12, 30) + timedelta(days=float(serial_number))] *)
Definition parse_date (serial_number : cell) : result datetime :=
  let? days := float_of serial_number in
  let? delta := timedelta_days days in
  let d := 0 + delta in
  if ((datetime_min <=? d) && (d <=? datetime_max))%bool then Ok d
  else Raise OverflowError.

(** [[row[0], parse_date(row[1]), float(row[2]), float(row[3])]] *)
Definition parse_session (row : list cell) : result Session :=
  let? r0 := index row 0 in
  let? r1 := index row 1 in
  let? d := parse_date r1 in
  let? r2 := index row 2 in
  let? h := float_of r2 in
  let? r3 := index row 3 in
  let? f := float_of r3 in
  Ok {| s_client := r0; s_date := d; s_hours := h; s_fee := f |}.

(** [[row[0], int(row[1]), row[2], float(row[3]), row[4], float(row[5]),
    float(row[6]), row[7], row[8]]] on a row of formatted values. *)
Definition parse_client (row : list string) : result Client :=
  let? r0 := index row 0 in
  let? r1 := index row 1 in
  let? n := PyStr.int r1 in
  let? r2 := index row 2 in
  let? r3 := index row 3 in
  let? b := float_of_str r3 in
  let? r4 := index row 4 in
  let? r5 := index row 5 in
  let? rate := float_of_str r5 in
  let? r6 := index row 6 in
  let? tab := float_of_str r6 in
  let? r7 := index row 7 in
  let? r8 := index row 8 in
  Ok {| c_name := r0; c_seq := n; c_field_a := r2; c_field_b := b;
        c_subjects := r4; c_hourly_rate := rate; c_running_tab := tab;
        c_payer_name := r7; c_payer_email := r8 |}.

End Parser.

(** ** Selector *)

(** [x == name] for a cell value [x] and a string [name]. *)
Definition cell_is (x : cell) (name : string) : bool :=
  match x with
  | CStr s => String.eqb s name
  | CNum _ => false
  end.

(** [cutoff_dates[0] <= s[1] < cutoff_dates[1]]: a chained comparison, the
    second bound is only looked up when the first comparison holds. *)
Definition in_window (cutoff_dates : list datetime) (s : Session) : result bool :=
  let? lo := index cutoff_dates 0 in
  if lo <=? s_date s then
    let? hi := index cutoff_dates 1 in
    Ok (s_date s <? hi)
  else Ok false.

(** [[s for s in client_sessions if cutoff_dates[0] <= s[1] < cutoff_dates[1]]] *)
Definition current_sessions (cutoff_dates : list datetime) (client_sessions : list Session)
  : result (list Session) :=
  rfilter (in_window cutoff_dates) client_sessions.

(** [[s for s in client_sessions if s[1] < cutoff_dates[0]]] (sketch.py) *)
Definition past_sessions (cutoff_dates : list datetime) (client_sessions : list Session)
  : result (list Session) :=
  rfilter (fun s => let? lo := index cutoff_dates 0 in Ok (s_date s <? lo)) client_sessions.

Section Selector.
Context `{Host}.

(** [[parse_session(row) for row in all_sessions if row[0] == name]] *)
Fixpoint client_sessions (name : string) (all_sessions : list (list cell))
  : result (list Session) :=
  match all_sessions with
  | [] => Ok []
  | row :: rest =>
      let? r0 := index row 0 in
      if cell_is r0 name then
        let? s := parse_session row in
        let? ss := client_sessions name rest in
        Ok (s :: ss)
      else client_sessions name rest
  end.

End Selector.

(** [next(row for row in all_clients if row[0] == name)] *)
Fixpoint find_client (name : string) (all_clients : list Client) : result Client :=
  match all_clients with
  | [] => Raise StopIteration
  | row :: rest => if String.eqb (c_name row) name then Ok row else find_client name rest
  end.

(** ** Billing calculator and document fields *)

Definition session_row (s : Session) : datetime * float64 * float64 :=
  (s_date s, s_hours s, s_fee s).

(** invoice.py, [get_invoice_template]. *)
Definition get_invoice_template (client_data : Client) (invoice_number : string)
    (current_sessions : list Session) : Invoice :=
  let session_rows := map session_row current_sessions in
  let session_total := py_sum (map s_fee current_sessions) in
  let current_tab := c_running_tab client_data in
  let total_due := num_add session_total (Float current_tab) in
  {| invoiceNumber := invoice_number;
     clientName := c_name client_data;
     subjectsList := c_subjects client_data;
     hourlyRate := c_hourly_rate client_data;
     sessionCount := length current_sessions;
     totalHours := py_sum (map s_hours current_sessions);
     sessionTotal := session_total;
     currentTab := current_tab;
     totalAmount := total_due;
     sessionRows := session_rows;
     paymentTermDays := 10;
     feeHeading := "Fee ($)" |}.

(** sketch.py, [get_latex_template]: the past sessions are received and,
    with [included_sessions = current_sessions], left out. *)
Definition get_latex_template (client_data : Client) (invoice_number : string)
    (past_sessions current_sessions : list Session) : Invoice :=
  let included_sessions := current_sessions in
  let session_rows := map session_row included_sessions in
  let session_total := py_sum (map s_fee included_sessions) in
  let current_tab := c_running_tab client_data in
  let total_due := num_add session_total (Float current_tab) in
  {| invoiceNumber := invoice_number;
     clientName := c_name client_data;
     subjectsList := c_subjects client_data;
     hourlyRate := c_hourly_rate client_data;
     sessionCount := length included_sessions;
     totalHours := py_sum (map s_hours included_sessions);
     sessionTotal := session_total;
     currentTab := current_tab;
     totalAmount := total_due;
     sessionRows := session_rows;
     paymentTermDays := 30;
     feeHeading := "Total" |}.

(** ** The spreadsheet *)

(** What a cell of the sheet holds: text, or a number together with the
    text the sheet shows for it. *)
Inductive stored : Type :=
  | Text (s : string)
  | Number (v : number) (shown : string).

(** A worksheet: its title and its cells, keyed by (row, column), both
    counted from 1. A key without a value is an empty cell. *)
Record Sheet : Type := {
  title : string;
  grid : gmap (nat * nat) stored
}.

Module A1.

Definition isalpha (c : ascii) : bool :=
  let n := PyStr.code c in
  ((65 <=? n) && (n <=? 90) || (97 <=? n) && (n <=? 122))%N.

(** The leading letters of a label and what follows them. *)
Fixpoint letters (s : string) : string * string :=
  match s with
  | String c s' =>
      if isalpha c then let '(l, r) := letters s' in (String c l, r)
      else (EmptyString, s)
  | EmptyString => (EmptyString, EmptyString)
  end.

(** The leading digits of a string and what follows them. *)
Fixpoint digits (s : string) : string * string :=
  match s with
  | String c s' =>
      if PyStr.isdigit c then let '(d, r) := digits s' in (String c d, r)
      else (EmptyString, s)
  | EmptyString => (EmptyString, EmptyString)
  end.

(** Column letters to a column number, [A] being 1 and [AA] 27. *)
Fixpoint column (acc : N) (s : string) : N :=
  match s with
  | EmptyString => acc
  | String c s' => column (acc * 26 + (PyStr.code (PyStr.upper_char c) - 64))%N s'
  end.

Definition row_number (d : string) : option nat :=
  match d with
  | String c _ =>
      if Ascii.eqb c "0" then None
      else
        match NilEmpty.uint_of_string d with
        | Some u => Some (Nat.of_uint u)
        | None => None
        end
  | EmptyString => None
  end.

(** A label split into (row, column) and the text left after it: the
    pattern [[A-Za-z]+[1-9][0-9]*] matched at the start of the label. *)
Definition parse (label : string) : option (nat * nat * string) :=
  let '(l, r) := letters label in
  match l with
  | EmptyString => None
  | _ =>
      let '(d, rest) := digits r in
      match row_number d with
      | Some n => Some (n, N.to_nat (column 0 l), rest)
      | None => None
      end
  end.

(** gspread's [a1_to_rowcol]: what follows the match is ignored. *)
Definition a1_to_rowcol (label : string) : result (nat * nat) :=
  match parse label with
  | Some (r, c, _) => Ok (r, c)
  | None => Raise IncorrectCellLabel
  end.

(** A range [<label>:<label>] as its two corners. *)
Definition corners (range : string) : result (nat * nat * (nat * nat)) :=
  match parse range with
  | Some (r0, c0, String ":" rest) =>
      match parse rest with
      | Some (r1, c1, EmptyString) => Ok (r0, c0, (r1, c1))
      | _ => Raise ValueError
      end
  | _ => Raise ValueError
  end.

End A1.

(** Trailing blanks are left out of what the API returns. *)
Fixpoint rtrim {X} (blank : X -> bool) (l : list X) : list X :=
  match l with
  | [] => []
  | x :: l' =>
      match rtrim blank l' with
      | [] => if blank x then [] else [x]
      | t => x :: t
      end
  end.

Definition formatted (o : option stored) : string :=
  match o with
  | None => EmptyString
  | Some (Text s) => s
  | Some (Number _ shown) => shown
  end.

Definition unformatted (o : option stored) : cell :=
  match o with
  | None => CStr EmptyString
  | Some (Text s) => CStr s
  | Some (Number v _) => CNum v
  end.

Definition blank_str (s : string) : bool := String.eqb s EmptyString.
Definition blank_cell (x : cell) : bool :=
  match x with CStr s => blank_str s | CNum _ => false end.
Definition blank_row {X} (row : list X) : bool :=
  match row with [] => true | _ => false end.

(** [sheet.get(range)] with a view of the cells: the rows of the range, each
    without its trailing empty cells, and without the trailing empty rows.
    For a range without values the library returns no row or one empty
    row, depending on its version. *)
Definition get_with `{Host} {X} (view : option stored -> X) (blank : X -> bool)
    (sh : Sheet) (range : string) : result (list (list X)) :=
  let? '(r0, c0, (r1, c1)) := A1.corners range in
  let fetch_row (r : nat) :=
    rtrim blank (map (fun c => view (grid sh !! (r, c))) (seq c0 (S c1 - c0))) in
  match rtrim blank_row (map fetch_row (seq r0 (S r1 - r0))) with
  | [] => Ok (if empty_range_as_row then [[]] else [])
  | rows => Ok rows
  end.

(** [sheet.get(range)] *)
Definition sheet_get `{Host} (sh : Sheet) (range : string) : result (list (list string)) :=
  get_with formatted blank_str sh range.

(** [sheet.get(range, value_render_option='UNFORMATTED_VALUE')] *)
Definition sheet_get_unformatted `{Host} (sh : Sheet) (range : string)
  : result (list (list cell)) :=
  get_with unformatted blank_cell sh range.

(** [sheet.acell(label).value]: [None] for an empty cell. *)
Definition acell_value (sh : Sheet) (label : string) : result (option string) :=
  let? rc := A1.a1_to_rowcol label in
  match grid sh !! rc with
  | None => Ok None
  | Some x => Ok (Some (formatted (Some x)))
  end.

(** [sheet.update_acell(label, value)]: the text entered is what the cell
    holds afterwards; how the spreadsheet engine reinterprets entered text
    is outside the model. *)
Definition sheet_update_acell (sh : Sheet) (label value : string) : result Sheet :=
  let? rc := A1.a1_to_rowcol label in
  Ok {| title := title sh; grid := <[ rc := Text value ]> (grid sh) |}.

(** ** The world of a run and its monad *)

Record World : Type := {
  sheet : Sheet;
  (** the .tex files written, latest first *)
  files : list (string * Invoice);
  (** the messages sent, latest first *)
  outbox : list Email;
  (** the files of the machine as they are now *)
  disk : Disk
}.

Definition M (A : Type) : Type := World -> World * result A.

Definition ret {A} (a : A) : M A := fun w => (w, Ok a).

Definition bind {A B} (m : M A) (k : A -> M B) : M B :=
  fun w =>
    match m w with
    | (w', Ok a) => k a w'
    | (w', Raise e) => (w', Raise e)
    end.

Definition lift {A} (r : result A) : M A := fun w => (w, r).

Notation "'let!' x ':=' m 'in' k" := (bind m (fun x => k))
  (at level 10, x name, m at level 100, k at level 200) : result_scope.
Notation "'let!' ' p ':=' m 'in' k" := (bind m (fun x => match x with p => k end))
  (at level 10, p pattern, m at level 100, k at level 200) : result_scope.

Definition the_sheet : M Sheet := fun w => (w, Ok (sheet w)).

Definition update_acell (label value : string) : M unit :=
  fun w =>
    match sheet_update_acell (sheet w) label value with
    | Ok sh =>
        ({| sheet := sh; files := files w; outbox := outbox w; disk := disk w |}, Ok tt)
    | Raise e => (w, Raise e)
    end.

(** [with open(path, "w") as f: f.write(content)] *)
Definition write_file (path : string) (content : Invoice) : M unit :=
  fun w =>
    ({| sheet := sheet w; files := (path, content) :: files w; outbox := outbox w;
        disk := <[ path := Tex content ]> (disk w) |}, Ok tt).

(** [with open(path, 'rb') as f: f.read()] *)
Definition read_file (path : string) : M file :=
  fun w =>
    match disk w !! path with
    | Some f => (w, Ok f)
    | None => (w, Raise FileNotFoundError)
    end.

(** [smtp.send_message(msg)] *)
Definition send_message `{Host} (msg : Email) : M unit :=
  fun w =>
    if smtp_ok msg
    then ({| sheet := sheet w; files := files w; outbox := msg :: outbox w;
             disk := disk w |}, Ok tt)
    else (w, Raise SMTPException).

(** [for x in xs: body(x)] *)
Fixpoint for_each {A} (xs : list A) (body : A -> M unit) : M unit :=
  match xs with
  | [] => ret tt
  | x :: xs' => let! _ := body x in for_each xs' body
  end.

(** [s.replace(old, new)]; [skip] counts the characters of a match still to
    be passed over. *)
Fixpoint replace_from (skip : nat) (old new s : string) : string :=
  match s with
  | EmptyString => EmptyString
  | String c s' =>
      match skip with
      | S k => replace_from k old new s'
      | O =>
          if (String.prefix old s && negb (String.eqb old EmptyString))%bool
          then new +:+ replace_from (String.length old - 1) old new s'
          else String c (replace_from O old new s')
      end
  end.

(** ** The invoice pipeline (invoice.py) *)

(** What the first block of [create_and_send_invoice] reads from the sheet. *)
Record Pulled : Type := {
  all_sessions : list (list cell);
  all_clients : list Client;
  cutoff_dates : list datetime;
  invoice_number : string
}.

Section Pipeline.
Context `{Host}.

(** Lines 55-58: the four reads. *)
Definition pull_info (sh : Sheet) : result Pulled :=
  let? sessions := sheet_get_unformatted sh SESSION_RANGE in
  let? client_rows := sheet_get sh CLIENT_RANGE in
  let? clients := rmap parse_client client_rows in
  let? cutoff_rows := sheet_get_unformatted sh CUTOFF_RANGE in
  let? cutoffs := rmap (fun row => let? r0 := index row 0 in parse_date r0) cutoff_rows in
  let? value := acell_value sh INVOICE_NUMBER_RANGE in
  match value with
  | None => Raise AttributeError
  | Some v =>
      Ok {| all_sessions := sessions; all_clients := clients;
            cutoff_dates := cutoffs; invoice_number := PyStr.zfill 4 v |}
  end.

(** Lines 62-64: the client's sessions of the window and the client's
    record. *)
Definition select (name : string) (p : Pulled) : result (list Session * Client) :=
  let? mine := client_sessions name (all_sessions p) in
  let? current := current_sessions (cutoff_dates p) mine in
  let? client_data := find_client name (all_clients p) in
  Ok (current, client_data).

(** [fill_content]: the variant of the message and what it interpolates. *)
Definition fill_content (name payer : string) (cutoffs : list datetime)
  : result (variant * string * string * (datetime * datetime)) :=
  let? mark := PyStr.last payer in
  if Ascii.eqb mark "!" then
    let greeting := PyStr.first_word payer in
    let student := PyStr.first_word name in
    let? lo := index cutoffs 0 in
    let? hi := index cutoffs 1 in
    Ok (Welcome, greeting, student, (lo, hi))
  else
    let greeting := PyStr.first_word payer in
    let? lo := index cutoffs 0 in
    let? hi := index cutoffs 1 in
    Ok (Standard, greeting, EmptyString, (lo, hi)).

(** [send_invoice_email] *)
Definition send_invoice_email (name payer email pdf_path : string)
    (cutoffs : list datetime) : M unit :=
  let! '(v, greeting, student, period) := lift (fill_content name payer cutoffs) in
  let! pdf := read_file pdf_path in
  send_message {| e_to := email;
                  e_subject := name +:+ " Tutoring Invoice";
                  e_variant := v;
                  e_greeting := greeting;
                  e_student := student;
                  e_period := period;
                  e_attachment := pdf_path;
                  e_attached := pdf |}.

(** [subprocess.run(["pdflatex", "-output-directory", folder, tex_path],
    check=True)] *)
Definition run_pdflatex (folder tex_path : string) : M unit :=
  fun w =>
    let '(d, ok) := pdflatex folder tex_path (disk w) in
    let w' := {| sheet := sheet w; files := files w; outbox := outbox w; disk := d |} in
    if ok then (w', Ok tt) else (w', Raise CalledProcessError).

(** The address built on line 103:
    [chr(ord(CLIENT_RANGE[0]) + 7)] followed by [i + int(CLIENT_RANGE[1])].
    The number printed is a row of the client range. *)
Definition payer_label (i : nat) : result string :=
  let? col :=
    match String.get 0 CLIENT_RANGE with
    | Some c => Ok c
    | None => Raise IndexError
    end in
  let? digit :=
    match String.get 1 CLIENT_RANGE with
    | Some c => Ok c
    | None => Raise IndexError
    end in
  let? first_row := PyStr.int (String digit EmptyString) in
  Ok (String (PyStr.shift_char col 7) (PyStr.str (Z.of_nat i + first_row))).

(** Lines 101-105: the first row whose payer name is the client's payer
    name gets the name without its last character; then [break]. *)
Fixpoint clear_marker (i : nat) (rows : list Client) (payer : string) : M unit :=
  match rows with
  | [] => ret tt
  | row :: rest =>
      if String.eqb (c_payer_name row) payer then
        let! label := lift (payer_label i) in
        update_acell label (PyStr.drop_last payer)
      else clear_marker (S i) rest payer
  end.

(** Lines 98-105. *)
Definition update_payer (p : Pulled) (client_data : Client) : M unit :=
  let! mark := lift (PyStr.last (c_payer_name client_data)) in
  if Ascii.eqb mark "!"
  then clear_marker 0 (all_clients p) (c_payer_name client_data)
  else ret tt.

(** Line 108. *)
Definition update_invoice_number (p : Pulled) : M unit :=
  let! n := lift (PyStr.int (invoice_number p)) in
  let! text := lift (PyStr.to_str (n + 1)) in
  update_acell INVOICE_NUMBER_RANGE text.

(** [create_and_send_invoice] *)
Definition create_and_send_invoice (name : string) : M unit :=
  let! sh := the_sheet in
  let! p := lift (pull_info sh) in
  let! '(current, client_data) := lift (select name p) in
  let! initials := lift (extract_initials name) in
  let filename := "INV-" +:+ invoice_number p +:+ "_" +:+ initials +:+ ".tex" in
  let latex_content := get_invoice_template client_data (invoice_number p) current in
  let invoice_folder := "invoices/" +:+ title sh +:+ "/" in
  let tex_path := invoice_folder +:+ filename in
  let! _ := write_file tex_path latex_content in
  let! _ := run_pdflatex invoice_folder tex_path in
  let pdf_path := replace_from 0 ".tex" ".pdf" tex_path in
  let! _ := send_invoice_email name (c_payer_name client_data)
              (c_payer_email client_data) pdf_path (cutoff_dates p) in
  let! _ := update_payer p client_data in
  update_invoice_number p.

(** The loop of [__main__] over the names to process. *)
Definition main (names : list string) : M unit :=
  for_each names create_and_send_invoice.

End Pipeline.

(** ** A host and a sheet for the examples *)

Module Demo.

(** [n / 10^k] rounded to the nearest binary64; exact operands make the
    quotient correctly rounded. *)
Definition decimal (n : Z) (k : nat) : float64 :=
  match k with
  | O => PyFloat.of_Z n
  | _ => PyFloat.div (PyFloat.of_Z n) (PyFloat.of_Z (10 ^ Z.of_nat k))
  end.

(** The text before the first ['.'] and the text after it. *)
Fixpoint cut_at_dot (s : string) : string * option string :=
  match s with
  | EmptyString => (EmptyString, None)
  | String c s' =>
      if Ascii.eqb c "." then (EmptyString, Some s')
      else let '(a, b) := cut_at_dot s' in (String c a, b)
  end.

Definition unsigned_decimal (s : string) : result float64 :=
  let '(whole, frac) := cut_at_dot s in
  let frac := match frac with Some f => f | None => EmptyString end in
  match NilEmpty.uint_of_string (whole +:+ frac) with
  | Some u =>
      if ((String.length (whole +:+ frac) =? 0)%nat
          || (15 <? String.length (whole +:+ frac))%nat)%bool
      then Raise ValueError
      else Ok (decimal (Z.of_uint u) (String.length frac))
  | None => Raise ValueError
  end.

(** [float(s)] on plain decimal literals of at most 15 digits, with an
    optional sign; everything else is refused. *)
Definition read_decimal (s : string) : result float64 :=
  match PyStr.strip s with
  | String "-" t => let? f := unsigned_decimal t in Ok (SFopp f)
  | String "+" t => unsigned_decimal t
  | t => unsigned_decimal t
  end.

(** [timedelta(days=x)] on whole numbers of days. *)
Definition whole_days (x : float64) : result Z :=
  match x with
  | S754_zero _ => Ok 0
  | S754_finite s m e =>
      if (0 <=? e) && (Z.pos m * 2 ^ e <=? 999999999)
      then Ok (cond_Zopp s (Z.pos m * 2 ^ e) * us_per_day)
      else if (e <? 0) && (Z.pos m mod 2 ^ (- e) =? 0) && (Z.pos m / 2 ^ (- e) <=? 999999999)
      then Ok (cond_Zopp s (Z.pos m / 2 ^ (- e)) * us_per_day)
      else Raise OverflowError
  | S754_infinity _ => Raise OverflowError
  | S754_nan => Raise ValueError
  end.

(** The text after the last ['/'] of a path; [cur] is the text read since
    the last one. *)
Fixpoint basename_from (cur s : string) : string :=
  match s with
  | EmptyString => cur
  | String c s' =>
      if Ascii.eqb c "/" then basename_from EmptyString s'
      else basename_from (cur +:+ String c EmptyString) s'
  end.

(** A file name without its extension [.tex]. *)
Fixpoint stem (s : string) : string :=
  match s with
  | EmptyString => EmptyString
  | String c s' => if String.eqb s ".tex" then EmptyString else String c (stem s')
  end.

(** A [pdflatex] that compiles every document the script wrote: the output
    is named after the input file and placed in the output directory. *)
Definition compile (folder path : string) (d : Disk) : Disk * bool :=
  match d !! path with
  | Some (Tex _) =>
      (<[ folder +:+ stem (basename_from EmptyString path) +:+ ".pdf" := Binary "%PDF" ]> d,
       true)
  | _ => (d, false)
  end.

#[global] Instance host : Host := {|
  SESSION_RANGE := "A2:D9";
  CLIENT_RANGE := "F2:N9";
  CUTOFF_RANGE := "P2:P3";
  INVOICE_NUMBER_RANGE := "R2";
  empty_range_as_row := true;
  float_of_str := read_decimal;
  timedelta_days := whole_days;
  pdflatex := compile;
  smtp_ok := fun _ => true
|}.

Definition num (z : Z) : stored := Number (Int z) (PyStr.str z).

(** One row of cells starting at column [c]. *)
Fixpoint place (r c : nat) (xs : list stored) : list (nat * nat * stored) :=
  match xs with
  | [] => []
  | x :: xs' => (r, c, x) :: place r (S c) xs'
  end.

Definition session (r : nat) (name : string) (day : Z) (hours fee : float64) :=
  place r 1 [Text name; num day; Number (Float hours) ""; Number (Float fee) ""].

Definition client (r : nat) (name tab payer : string) :=
  place r 6 [Text name; Text "1"; Text "a"; Text "0"; Text "Math"; Text "50.00";
             Text tab; Text payer; Text "payer@example.org"].

(** Two children of one payer, both flagged for the welcome message, and
    a third client without sessions in the window. *)
Definition cells : list (nat * nat * stored) :=
  session 2 "Al Lee" 45001 (decimal 10 1) (decimal 5000 2)
  ++ session 3 "Al Lee" 45013 (decimal 15 1) (decimal 7500 2)
  ++ session 4 "Al Lee" 44990 (decimal 10 1) (decimal 5000 2)
  ++ session 5 "Bo Lee" 45002 (decimal 20 1) (decimal 10000 2)
  ++ client 2 "Al Lee" "0.00" "Pat Lee!"
  ++ client 3 "Bo Lee" "12.50" "Pat Lee!"
  ++ client 4 "Cy Poe" "-20.00" "John Doe"
  ++ [(2%nat, 16%nat, num 45000); (3%nat, 16%nat, num 45014);
      (2%nat, 18%nat, Text "0007")].

Definition sheet0 : Sheet :=
  {| title := "Winter"; grid := list_to_map cells |}.

Definition world0 : World := {| sheet := sheet0; files := []; outbox := []; disk := empty |}.

Definition nothing : Pulled :=
  {| all_sessions := []; all_clients := []; cutoff_dates := []; invoice_number := "" |}.

Definition pulled (sh : Sheet) : Pulled :=
  match pull_info sh with
  | Ok p => p
  | Raise _ => nothing
  end.

(** What a run reads from [sheet0]. *)
Definition pulled0 : Pulled := Eval vm_compute in pulled sheet0.

(** What a run reads once "Cy Poe" has been invoiced. *)
Definition pulled1 : Pulled :=
  Eval vm_compute in pulled (sheet (fst (main ["Cy Poe"] world0))).

Definition cy_poe : Client :=
  {| c_name := "Cy Poe"; c_seq := 1; c_field_a := "a"; c_field_b := PyFloat.pzero;
     c_subjects := "Math"; c_hourly_rate := decimal 5000 2;
     c_running_tab := decimal (-2000) 2; c_payer_name := "John Doe";
     c_payer_email := "payer@example.org" |}.

(** A session of so many hours for such a fee. *)
Definition billed (hours fee : float64) : Session :=
  {| s_client := CStr "Al Lee"; s_date := 0; s_hours := hours; s_fee := fee |}.

(** A client with such a running tab. *)
Definition owing (tab : float64) : Client :=
  {| c_name := "Al Lee"; c_seq := 1; c_field_a := ""; c_field_b := PyFloat.pzero;
     c_subjects := "Math"; c_hourly_rate := PyFloat.pzero;
     c_running_tab := tab; c_payer_name := "Pat Lee";
     c_payer_email := "payer@example.org" |}.

End Demo.

(** ** Amounts in quarters *)

(** The binary64 nearest to [q / 4]. *)
Definition quarter (q : Z) : float64 :=
  binary_normalize PyFloat.prec PyFloat.emax q (-2) false.

(** The integer [q] with [x = q / 4] exactly, when there is one. *)
Definition quarters_of (x : float64) : option Z :=
  match x with
  | S754_zero _ => Some 0
  | S754_finite s m e =>
      if -2 <=? e then Some (cond_Zopp s (Z.pos m * 2 ^ (e + 2)))
      else if Z.pos m mod 2 ^ (-2 - e) =? 0
      then Some (cond_Zopp s (Z.pos m / 2 ^ (-2 - e)))
      else None
  | _ => None
  end.

Definition Zsum (qs : list Z) : Z := List.fold_right Z.add 0 qs.

(** The integer [n] with [x = n * 2^e] exactly, when there is one. *)
Definition units_of (e : Z) (x : float64) : option Z :=
  match x with
  | S754_zero _ => Some 0
  | S754_finite s m ex =>
      if e <=? ex then Some (cond_Zopp s (Z.pos m * 2 ^ (ex - e)))
      else if Z.pos m mod 2 ^ (e - ex) =? 0
      then Some (cond_Zopp s (Z.pos m / 2 ^ (e - ex)))
      else None
  | _ => None
  end.

(** [c] followed by [k] zero bits. *)
Definition shl (c : positive) (k : nat) : positive := Nat.iter k xO c.

(** A mantissa with nothing shifted out of it. *)
Definition exact (m : Z) : shr_record := {| shr_m := m; shr_r := false; shr_s := false |}.

(** The number of binary digits of a non-zero integer. *)
Definition dig (q : Z) : Z := Z.pos (digits2_pos (Z.to_pos (Z.abs q))).

(** ** The names to process (invoice.py and sketch.py, [__main__]) *)

Section Discovery.
Context `{Host}.

(** [cutoff_dates[0] <= parse_date(row[1]) < cutoff_dates[1]] on a raw row. *)
Definition row_in_window (cutoffs : list datetime) (row : list cell) : result bool :=
  let? lo := index cutoffs 0 in
  let? r1 := index row 1 in
  let? d := parse_date r1 in
  if lo <=? d then
    let? hi := index cutoffs 1 in
    Ok (d <? hi)
  else Ok false.

(** The loop over [all_sessions]: the arguments of [names.add], in order.
    The set holds each of them once, and [list(names)] enumerates the set
    in an order the language leaves open. *)
Fixpoint discover_from (cutoffs : list datetime) (rows : list (list cell))
  : result (list cell) :=
  match rows with
  | [] => Ok []
  | row :: rest =>
      let? b := row_in_window cutoffs row in
      if b then
        let? r0 := index row 0 in
        let? names := discover_from cutoffs rest in
        Ok (r0 :: names)
      else discover_from cutoffs rest
  end.

(** The branch of [__main__] taken without command-line names. *)
Definition discover (sh : Sheet) : result (list cell) :=
  let? cutoff_rows := sheet_get_unformatted sh CUTOFF_RANGE in
  let? cutoffs := rmap (fun row => let? r0 := index row 0 in parse_date r0) cutoff_rows in
  let? sessions := sheet_get_unformatted sh SESSION_RANGE in
  discover_from cutoffs sessions.

End Discovery.

(** ** The earlier pipeline (sketch.py) *)

Module Sketch.
Section Run.
Context `{Host}.

(** [fill_content]: one text, the one invoice.py keeps for payers without
    the marker. *)
Definition fill_content (payer : string) (cutoffs : list datetime)
  : result (string * (datetime * datetime)) :=
  let greeting := PyStr.first_word payer in
  let? lo := index cutoffs 0 in
  let? hi := index cutoffs 1 in
  Ok (greeting, (lo, hi)).

(** [send_invoice_email] *)
Definition send_invoice_email (name payer email pdf_path : string)
    (cutoffs : list datetime) : M unit :=
  let! '(greeting, period) := lift (fill_content payer cutoffs) in
  let! pdf := read_file pdf_path in
  send_message {| e_to := email;
                  e_subject := name +:+ " Tutoring Invoice";
                  e_variant := Standard;
                  e_greeting := greeting;
                  e_student := EmptyString;
                  e_period := period;
                  e_attachment := pdf_path;
                  e_attached := pdf |}.

(** [create_and_send_invoice] *)
Definition create_and_send_invoice (name : string) : M unit :=
  let! sh := the_sheet in
  let! p := lift (pull_info sh) in
  let! mine := lift (client_sessions name (all_sessions p)) in
  let! current := lift (current_sessions (cutoff_dates p) mine) in
  let! past := lift (past_sessions (cutoff_dates p) mine) in
  let! client_data := lift (find_client name (all_clients p)) in
  let! initials := lift (extract_initials name) in
  let filename := "INV-" +:+ invoice_number p +:+ "_" +:+ initials +:+ ".tex" in
  let latex_content := get_latex_template client_data (invoice_number p) past current in
  let tex_path := "invoices/" +:+ filename in
  let! _ := write_file tex_path latex_content in
  let! _ := run_pdflatex "invoices/" tex_path in
  let pdf_path := replace_from 0 ".tex" ".pdf" tex_path in
  let! _ := send_invoice_email name (c_payer_name client_data)
              (c_payer_email client_data) pdf_path (cutoff_dates p) in
  update_invoice_number p.

End Run.
End Sketch.

(** ** Shorthands for the statements about the sheet *)

(** The sheet with the text [v] in the cell [rc]. *)
Definition set_cell (sh : Sheet) (rc : nat * nat) (v : string) : Sheet :=
  {| title := title sh; grid := <[ rc := Text v ]> (grid sh) |}.

(** The world with another sheet. *)
Definition with_sheet (w : World) (sh : Sheet) : World :=
  {| sheet := sh; files := files w; outbox := outbox w; disk := disk w |}.

(** The world once the file [f] is written and [pdflatex] has left the
    disk [d]. *)
Definition written (w : World) (f : string * Invoice) (d : Disk) : World :=
  {| sheet := sheet w; files := f :: files w; outbox := outbox w; disk := d |}.

(** The world once the message [msg] is sent as well. *)
Definition sent (w : World) (f : string * Invoice) (msg : Email) (d : Disk) : World :=
  {| sheet := sheet w; files := f :: files w; outbox := msg :: outbox w; disk := d |}.

Section PostSend.
Context `{Host}.

(** Lines 98-108 of invoice.py: the two sheet updates that end a run. *)
Definition post_send (p : Pulled) (client_data : Client) : M unit :=
  bind (update_payer p client_data) (fun _ => update_invoice_number p).

End PostSend.

(** [row[0] == name] on a raw row that has a first cell. *)
Definition row_is (name : string) (row : list cell) : bool :=
  match row with
  | r0 :: _ => cell_is r0 name
  | [] => false
  end.

(** ** Character classes of a whole string *)

Fixpoint all_digits (s : string) : bool :=
  match s with
  | EmptyString => true
  | String c s' => PyStr.isdigit c && all_digits s'
  end.

Fixpoint all_space (s : string) : bool :=
  match s with
  | EmptyString => true
  | String c s' => PyStr.isspace c && all_space s'
  end.

Fixpoint has_lower (s : string) : bool :=
  match s with
  | EmptyString => false
  | String c s' => PyStr.islower c || has_lower s'
  end.

Fixpoint has_dot (s : string) : bool :=
  match s with
  | EmptyString => false
  | String c s' => Ascii.eqb c "." || has_dot s'
  end.

Fixpoint has_blank (s : string) : bool :=
  match s with
  | EmptyString => false
  | String c s' => Ascii.eqb c " " || has_blank s'
  end.

(** Text whose characters are all in the ASCII range. *)
Fixpoint is_ascii (s : string) : bool :=
  match s with
  | EmptyString => true
  | String c s' => (PyStr.code c <? 128)%N && is_ascii s'
  end.

(** ** The tokens of a text, in the words of the specification *)

(** [Tokens isspace s ts]: [ts] are, in order, the whitespace-delimited
    tokens of [s], that is, its maximal runs of characters that are not
    whitespace. A token is not empty, holds no whitespace, and is followed
    by a whitespace character or by the end of the text. *)
Inductive Tokens {char : Type} (isspace : char -> bool)
  : list char -> list (list char) -> Prop :=
  | Tokens_end : Tokens isspace [] []
  | Tokens_blank (c : char) (s : list char) (ts : list (list char)) :
      isspace c = true -> Tokens isspace s ts -> Tokens isspace (c :: s) ts
  | Tokens_word (t s : list char) (ts : list (list char)) :
      t <> [] ->
      Forall (fun c => isspace c = false) t ->
      match s with [] => True | c :: _ => isspace c = true end ->
      Tokens isspace s ts ->
      Tokens isspace (t ++ s)%list (t :: ts).

(** The first character of a token, uppercased. *)
Definition initial {char : Type} (toupper : char -> list char) (token : list char)
  : list char :=
  match token with
  | c :: _ => toupper c
  | [] => []
  end.

(** * Properties *)

(** ** Results and comprehensions *)

Lemma rfilter_total {A} (p : A -> result bool) (q : A -> bool) (xs : list A) :
  (forall x, In x xs -> p x = Ok (q x)) ->
  rfilter p xs = Ok (List.filter q xs).
Proof.
  induction xs as [|x xs IH]; intros Hp; simpl.
  - reflexivity.
  - rewrite (Hp x) by (left; reflexivity). simpl.
    rewrite IH by (intros y Hy; apply Hp; right; exact Hy). simpl.
    destruct (q x); reflexivity.
Qed.

Lemma rmap_total {A B} (f : A -> result B) (g : A -> B) (xs : list A) :
  (forall x, In x xs -> f x = Ok (g x)) ->
  rmap f xs = Ok (List.map g xs).
Proof.
  induction xs as [|x xs IH]; intros Hf; simpl.
  - reflexivity.
  - rewrite (Hf x) by (left; reflexivity). simpl.
    rewrite IH by (intros y Hy; apply Hf; right; exact Hy). reflexivity.
Qed.

(** ** Strings *)

Module PyStrFacts.
Import PyStr.

Lemma upper_app (a b : string) : upper (a +:+ b) = upper a +:+ upper b.
Proof. induction a as [|c a IH]; simpl; [reflexivity | now rewrite IH]. Qed.

Lemma upper_join (parts : list string) :
  upper (join parts) = join (List.map upper parts).
Proof.
  induction parts as [|p ps IH]; simpl; [reflexivity|].
  now rewrite upper_app, IH.
Qed.

Lemma app_nonempty (tok : string) (c : ascii) : tok +:+ String c EmptyString <> EmptyString.
Proof. destruct tok; discriminate. Qed.

(** No token of [split] is empty. *)
Lemma split_from_nonempty (s tok : string) :
  Forall (fun t => t <> EmptyString) (split_from tok s).
Proof.
  revert tok; induction s as [|c s IH]; intros tok; simpl.
  - destruct tok; constructor; [discriminate | constructor].
  - destruct (isspace c).
    + destruct tok; [apply IH | constructor; [discriminate | apply IH]].
    + apply IH.
Qed.

Fixpoint has_space (s : string) : bool :=
  match s with
  | EmptyString => false
  | String c s' => isspace c || has_space s'
  end.

Lemma has_space_app (a b : string) :
  has_space (a +:+ b) = has_space a || has_space b.
Proof. induction a as [|c a IH]; simpl; [reflexivity|]. now rewrite IH, orb_assoc. Qed.

(** No token of [split] contains whitespace. *)
Lemma split_from_no_space (s tok : string) :
  has_space tok = false ->
  Forall (fun t => has_space t = false) (split_from tok s).
Proof.
  revert tok; induction s as [|c s IH]; intros tok Htok; simpl.
  - destruct tok; constructor; [exact Htok | constructor].
  - destruct (isspace c) eqn:Hc.
    + destruct tok; [now apply IH | constructor; [exact Htok | now apply IH]].
    + apply IH. rewrite has_space_app, Htok. simpl. now rewrite Hc.
Qed.

Lemma app_empty (tok : string) : tok +:+ EmptyString = tok.
Proof. induction tok as [|x tok IH]; simpl; [reflexivity | now rewrite IH]. Qed.

Lemma app_snoc (tok t : string) (c : ascii) :
  (tok +:+ String c EmptyString) +:+ t = tok +:+ String c t.
Proof. induction tok as [|x tok IH]; simpl; [reflexivity | now rewrite IH]. Qed.

(** A run of non-whitespace characters is one token. *)
Lemma split_from_word (t tok : string) :
  has_space t = false -> tok +:+ t <> EmptyString ->
  split_from tok t = [tok +:+ t].
Proof.
  revert tok; induction t as [|c t IH]; intros tok Ht Hne; simpl in *.
  - rewrite app_empty in *. destruct tok; [congruence | reflexivity].
  - apply orb_false_iff in Ht as [Hc Ht]. rewrite Hc.
    rewrite IH; [now rewrite app_snoc | exact Ht | rewrite app_snoc; exact Hne].
Qed.

(** Whitespace ends the token being read; what follows is split on its
    own. *)
Lemma split_from_app (a b tok : string) (c : ascii) :
  isspace c = true ->
  split_from tok (a +:+ String c b) = (split_from tok a ++ split b)%list.
Proof.
  intros Hc. revert tok; induction a as [|x a IH]; intros tok; simpl.
  - rewrite Hc. destruct tok; reflexivity.
  - destruct (isspace x).
    + destruct tok; simpl; now rewrite IH.
    + apply IH.
Qed.

Definition head (t : string) : string :=
  match t with
  | String c _ => String c EmptyString
  | EmptyString => EmptyString
  end.

Lemma first_nonempty (t : string) : t <> EmptyString -> first t = Ok (head t).
Proof. destruct t; [congruence | reflexivity]. Qed.

End PyStrFacts.

(** The initials of ASCII text: the first character of each token of
    [split], uppercased, and the results concatenated. *)
Definition initial_of (token : string) : string :=
  match token with
  | String c _ => String (PyStr.upper_char c) EmptyString
  | EmptyString => EmptyString
  end.

Definition initials_spec (name : string) : string :=
  PyStr.join (List.map initial_of (PyStr.split name)).

(** [extract_initials] never raises and computes [initials_spec]. *)
Lemma extract_initials_total (name : string) :
  extract_initials name = Ok (initials_spec name).
Proof.
  unfold extract_initials, initials_spec.
  rewrite (rmap_total PyStr.first PyStrFacts.head).
  - simpl. rewrite PyStrFacts.upper_join, List.map_map. f_equal. f_equal.
    apply List.map_ext. intros [|c t]; reflexivity.
  - intros t Ht. apply PyStrFacts.first_nonempty.
    pose proof (PyStrFacts.split_from_nonempty name EmptyString) as Hall.
    rewrite List.Forall_forall in Hall. apply Hall. exact Ht.
Qed.

(** ** Tokens and initials over any alphabet *)

Module TextFacts.
Section Over.
Context {char : Type}.
Variable isspace : char -> bool.
Variable toupper : char -> list char.

Abbreviation split_from := (PyText.split_from isspace).
Abbreviation split := (PyText.split isspace).

(** What [split] returns is a decomposition into tokens. *)
Lemma split_from_tokens (s tok : list char) :
  Forall (fun c => isspace c = false) tok ->
  Tokens isspace (tok ++ s)%list (split_from tok s).
Proof.
  revert tok; induction s as [|c s IH]; intros tok Htok; cbn [PyText.split_from].
  - destruct tok as [|x tok]; [constructor|].
    apply Tokens_word; [discriminate | exact Htok | exact I | constructor].
  - destruct (isspace c) eqn:Hc.
    + assert (Hrest : Tokens isspace (c :: s) (split_from [] s))
        by (apply Tokens_blank; [exact Hc | apply (IH []); constructor]).
      destruct tok as [|x tok]; [exact Hrest|].
      apply Tokens_word; [discriminate | exact Htok | exact Hc | exact Hrest].
    + replace (tok ++ c :: s)%list with ((tok ++ [c]) ++ s)%list
        by (rewrite <- List.app_assoc; reflexivity).
      apply IH. apply Forall_app. split; [exact Htok|].
      constructor; [exact Hc | constructor].
Qed.

(** A run of characters that are not whitespace, followed by whitespace or
    by the end of the text, is read as one token. *)
Lemma split_from_run (t s tok : list char) :
  Forall (fun c => isspace c = false) t ->
  match s with [] => True | c :: _ => isspace c = true end ->
  (tok ++ t)%list <> [] ->
  split_from tok (t ++ s)%list = (tok ++ t)%list :: split_from [] s.
Proof.
  revert tok; induction t as [|a t IH]; intros tok Ht Hs Hne.
  - rewrite List.app_nil_r in *. cbn [app].
    destruct s as [|c s]; cbn [PyText.split_from].
    + destruct tok; [congruence | reflexivity].
    + rewrite Hs. destruct tok; [congruence | reflexivity].
  - inversion Ht as [|? ? Ha Ht']; subst.
    cbn [app PyText.split_from]. rewrite Ha.
    rewrite (IH (tok ++ [a])%list Ht' Hs).
    + now rewrite <- List.app_assoc.
    + rewrite <- List.app_assoc. exact Hne.
Qed.

(** The decomposition into tokens is the one [split] returns. *)
Lemma tokens_split (s : list char) (ts : list (list char)) :
  Tokens isspace s ts -> ts = split s.
Proof.
  unfold PyText.split.
  induction 1 as [|c s ts Hc _ IH|t s ts Hne Ht Hs _ IH].
  - reflexivity.
  - cbn [PyText.split_from]. now rewrite Hc.
  - rewrite (split_from_run t s [] Ht Hs) by exact Hne. cbn [app]. now f_equal.
Qed.

Lemma tokens_nonempty (s : list char) (ts : list (list char)) :
  Tokens isspace s ts -> Forall (fun t => t <> []) ts.
Proof. induction 1; auto. Qed.

(** The initials of a list of non-empty tokens. *)
Lemma initials_of_tokens (ts : list (list char)) :
  Forall (fun t => t <> []) ts ->
  (let? firsts := rmap PyText.first ts in
   Ok (PyText.upper toupper (PyText.join firsts)))
  = Ok (List.concat (List.map (initial toupper) ts)).
Proof.
  induction 1 as [|t ts Ht _ IH]; [reflexivity|].
  destruct t as [|c t]; [congruence|].
  cbn [rmap PyText.first rbind List.map List.concat initial].
  destruct (rmap PyText.first ts) as [firsts|e]; [|discriminate].
  cbn [rbind] in *. injection IH as IH. f_equal.
  unfold PyText.upper, PyText.join in *. cbn [List.concat app List.flat_map].
  now rewrite IH.
Qed.

Lemma extract_initials_tokens (name : list char) :
  PyText.extract_initials isspace toupper name
  = Ok (List.concat (List.map (initial toupper) (split name))).
Proof.
  unfold PyText.extract_initials. apply initials_of_tokens.
  apply (tokens_nonempty name). apply (split_from_tokens name []). constructor.
Qed.

End Over.

(** [PyStr] is [PyText] on ASCII text. *)
Lemma split_from_ascii (s tok : string) :
  List.map list_ascii_of_string (PyStr.split_from tok s)
  = PyText.split_from PyStr.isspace (list_ascii_of_string tok) (list_ascii_of_string s).
Proof.
  assert (Hsnoc : forall (a : string) (c : ascii),
            list_ascii_of_string (a +:+ String c EmptyString)
            = (list_ascii_of_string a ++ [c])%list).
  { intros a c. induction a as [|x a IH]; cbn; [reflexivity | now rewrite IH]. }
  revert tok; induction s as [|c s IH]; intros tok;
    cbn [PyStr.split_from PyText.split_from list_ascii_of_string].
  - destruct tok; reflexivity.
  - destruct (PyStr.isspace c).
    + destruct tok as [|x tok]; cbn [List.map list_ascii_of_string]; now rewrite IH.
    + now rewrite IH, Hsnoc.
Qed.

Lemma initials_ascii (ts : list string) :
  list_ascii_of_string (PyStr.join (List.map initial_of ts))
  = List.concat (List.map (initial ascii_toupper) (List.map list_ascii_of_string ts)).
Proof.
  induction ts as [|t ts IH]; [reflexivity|].
  cbn [List.map PyStr.join List.concat]. rewrite <- IH.
  destruct t as [|c t]; reflexivity.
Qed.

Lemma extract_initials_ascii (name : string) :
  PyText.extract_initials PyStr.isspace ascii_toupper (list_ascii_of_string name)
  = rbind (extract_initials name) (fun s => Ok (list_ascii_of_string s)).
Proof.
  rewrite extract_initials_tokens, extract_initials_total. cbn [rbind].
  unfold initials_spec, PyText.split, PyStr.split.
  rewrite initials_ascii, split_from_ascii. reflexivity.
Qed.

End TextFacts.

(** C9. Over any alphabet and whatever the Unicode tables say, the name
    has exactly one decomposition into whitespace-delimited tokens, and
    [extract_initials] returns (and never raises) the concatenation, in
    order, of the uppercase mappings of the first characters of these
    tokens. On ASCII text this is what the script's [extract_initials]
    computes; the name "Jane Q. Public" yields "JQP", and so does the same
    name in lowercase. *)
Theorem extract_initials_spec :
  (forall (char : Type) (isspace : char -> bool) (toupper : char -> list char)
          (name : list char),
     exists tokens,
       Tokens isspace name tokens
       /\ (forall ts, Tokens isspace name ts -> ts = tokens)
       /\ PyText.extract_initials isspace toupper name
          = Ok (List.concat (List.map (initial toupper) tokens)))
  /\ (forall name : string,
        rbind (extract_initials name) (fun s => Ok (list_ascii_of_string s))
        = PyText.extract_initials PyStr.isspace ascii_toupper (list_ascii_of_string name))
  /\ extract_initials "Jane Q. Public" = Ok "JQP"
  /\ extract_initials "jane q. public" = Ok "JQP".
Proof.
  split; [|split; [|split; reflexivity]].
  - intros char isspace toupper name.
    exists (PyText.split isspace name). split; [|split].
    + apply (TextFacts.split_from_tokens isspace name []). constructor.
    + apply TextFacts.tokens_split.
    + apply TextFacts.extract_initials_tokens.
  - intros name. symmetry. apply TextFacts.extract_initials_ascii.
Qed.

(** ** Selector *)

(** C1. For every cutoff window [[lo, hi)] and every list of sessions, the
    selection of the current sessions never raises and keeps, in order,
    exactly the sessions whose date [d] satisfies [lo <= d < hi]; a session
    dated [lo] is kept and a session dated [hi] is not. *)
Theorem current_sessions_half_open (lo hi : datetime) (more : list datetime)
    (sessions : list Session) :
  exists kept,
    current_sessions (lo :: hi :: more) sessions = Ok kept
    /\ kept = List.filter (fun s => (lo <=? s_date s) && (s_date s <? hi)) sessions
    /\ (forall s, In s kept <-> In s sessions /\ lo <= s_date s < hi)
    /\ (forall s, In s sessions -> s_date s = hi -> ~ In s kept)
    /\ (forall s, In s sessions -> s_date s = lo -> lo < hi -> In s kept).
Proof.
  exists (List.filter (fun s => (lo <=? s_date s) && (s_date s <? hi)) sessions). split.
  - unfold current_sessions. apply rfilter_total.
    intros s _. unfold in_window. simpl.
    destruct (lo <=? s_date s); reflexivity.
  - split; [reflexivity|].
    assert (Hin : forall s,
      In s (List.filter (fun s => (lo <=? s_date s) && (s_date s <? hi)) sessions)
      <-> In s sessions /\ lo <= s_date s < hi).
    { intros s. rewrite List.filter_In, andb_true_iff, Z.leb_le, Z.ltb_lt. tauto. }
    split; [exact Hin|]. split.
    + intros s _ Hd Hk. apply Hin in Hk. lia.
    + intros s Hs Hd Hlt. apply Hin. split; [exact Hs | lia].
Qed.

(** ** Billing calculator *)

(** C10. For every client record, invoice number and session lists, the
    fields computed by [get_latex_template] of sketch.py are those computed
    by [get_invoice_template] of invoice.py on the current sessions: the
    past sessions enter no count, no total and no row. *)
Theorem sketch_computes_the_same_fields (client_data : Client) (number : string)
    (past current : list Session) :
  let a := get_invoice_template client_data number current in
  let b := get_latex_template client_data number past current in
  sessionCount b = sessionCount a
  /\ totalHours b = totalHours a
  /\ sessionTotal b = sessionTotal a
  /\ totalAmount b = totalAmount a
  /\ sessionRows b = sessionRows a
  /\ currentTab b = currentTab a.
Proof. simpl. repeat split. Qed.

(** ** The monad of a run *)

Lemma rbind_ok_inv {A B} (r : result A) (k : A -> result B) (b : B) :
  rbind r k = Ok b -> exists a, r = Ok a /\ k a = Ok b.
Proof. destruct r as [a|e]; simpl; [eauto | discriminate]. Qed.

Lemma bind_ok_inv {A B} (m : M A) (k : A -> M B) (w w' : World) (b : B) :
  bind m k w = (w', Ok b) ->
  exists a w1, m w = (w1, Ok a) /\ k a w1 = (w', Ok b).
Proof.
  unfold bind. destruct (m w) as [w1 [a|e]]; [eauto | discriminate].
Qed.

Lemma lift_ok_inv {A} (r : result A) (w w' : World) (a : A) :
  lift r w = (w', Ok a) -> r = Ok a /\ w' = w.
Proof. unfold lift. intros [= -> ->]. split; reflexivity. Qed.

Lemma for_each_app {A} (xs ys : list A) (body : A -> M unit) (w : World) :
  for_each (xs ++ ys)%list body w
  = match for_each xs body w with
    | (w1, Ok _) => for_each ys body w1
    | (w1, Raise e) => (w1, Raise e)
    end.
Proof.
  revert w; induction xs as [|x xs IH]; intros w; simpl.
  - reflexivity.
  - unfold bind. destruct (body x w) as [w1 [[]|e]]; [apply IH | reflexivity].
Qed.

(** A computation that touches nothing but the sheet. *)
Definition sheet_only {A} (m : M A) : Prop :=
  forall w w' r, m w = (w', r) -> files w' = files w /\ outbox w' = outbox w.

Lemma sheet_only_ret {A} (a : A) : sheet_only (ret a).
Proof. intros w w' r [= <- _]. split; reflexivity. Qed.

Lemma sheet_only_lift {A} (x : result A) : sheet_only (lift x).
Proof. intros w w' r [= <- _]. split; reflexivity. Qed.

Lemma sheet_only_bind {A B} (m : M A) (k : A -> M B) :
  sheet_only m -> (forall a, sheet_only (k a)) -> sheet_only (bind m k).
Proof.
  intros Hm Hk w w' r. unfold bind.
  destruct (m w) as [w1 [a|e]] eqn:E; intros Hr.
  - destruct (Hm _ _ _ E) as [F1 O1]. destruct (Hk a _ _ _ Hr) as [F2 O2].
    split; congruence.
  - injection Hr as <- _. exact (Hm _ _ _ E).
Qed.

Lemma sheet_only_update_acell (label value : string) :
  sheet_only (update_acell label value).
Proof.
  intros w w' r. unfold update_acell.
  destruct (sheet_update_acell (sheet w) label value); intros [= <- _];
    split; reflexivity.
Qed.

Section PipelineFacts.
Context `{Host}.

Lemma sheet_only_clear_marker (rows : list Client) (payer : string) (i : nat) :
  sheet_only (clear_marker i rows payer).
Proof.
  revert i; induction rows as [|row rows IH]; intros i; simpl.
  - apply sheet_only_ret.
  - destruct (String.eqb (c_payer_name row) payer).
    + apply sheet_only_bind; [apply sheet_only_lift|].
      intros label. apply sheet_only_update_acell.
    + apply IH.
Qed.

Lemma sheet_only_update_payer (p : Pulled) (client_data : Client) :
  sheet_only (update_payer p client_data).
Proof.
  unfold update_payer. apply sheet_only_bind; [apply sheet_only_lift|].
  intros mark. destruct (Ascii.eqb mark "!").
  - apply sheet_only_clear_marker.
  - apply sheet_only_ret.
Qed.

Lemma sheet_only_update_invoice_number (p : Pulled) :
  sheet_only (update_invoice_number p).
Proof.
  unfold update_invoice_number. apply sheet_only_bind; [apply sheet_only_lift|].
  intros n. apply sheet_only_bind; [apply sheet_only_lift|].
  intros text. apply sheet_only_update_acell.
Qed.

(** What [pull_info] found in the counter cell. *)
Lemma pull_info_invoice_number (sh : Sheet) (p : Pulled) :
  pull_info sh = Ok p ->
  exists v, acell_value sh INVOICE_NUMBER_RANGE = Ok (Some v)
            /\ invoice_number p = PyStr.zfill 4 v.
Proof.
  unfold pull_info. intros Hp.
  do 5 (apply rbind_ok_inv in Hp as (? & _ & Hp)).
  apply rbind_ok_inv in Hp as ([v|] & Hv & Hp); [|discriminate].
  injection Hp as <-. exists v. split; [exact Hv | reflexivity].
Qed.

(** The steps of a run of [create_and_send_invoice] that succeeds. *)
Lemma create_and_send_invoice_ok_inv (name : string) (w w' : World) :
  create_and_send_invoice name w = (w', Ok tt) ->
  exists p current client_data w1 w2,
    pull_info (sheet w) = Ok p
    /\ select name p = Ok (current, client_data)
    /\ sheet w1 = sheet w
    /\ update_payer p client_data w1 = (w2, Ok tt)
    /\ update_invoice_number p w2 = (w', Ok tt).
Proof.
  unfold create_and_send_invoice. intros Hrun.
  apply bind_ok_inv in Hrun as (sh & w0 & Hsh & Hrun).
  injection Hsh as <- <-.
  apply bind_ok_inv in Hrun as (p & w0 & Hp & Hrun).
  apply lift_ok_inv in Hp as [Hp ->].
  apply bind_ok_inv in Hrun as ([current client_data] & w0 & Hsel & Hrun).
  apply lift_ok_inv in Hsel as [Hsel ->].
  apply bind_ok_inv in Hrun as (initials & w0 & Hini & Hrun).
  apply lift_ok_inv in Hini as [Hini ->].
  apply bind_ok_inv in Hrun as ([] & wf & Hwf & Hrun).
  injection Hwf as <-.
  apply bind_ok_inv in Hrun as ([] & wl & Hwl & Hrun).
  unfold run_pdflatex in Hwl. cbn [disk] in Hwl.
  destruct (pdflatex _ _ _) as [d [|]]; [|discriminate]. injection Hwl as <-.
  apply bind_ok_inv in Hrun as ([] & w1 & Hsend & Hrun).
  apply bind_ok_inv in Hrun as ([] & w2 & Hpay & Hrun).
  exists p, current, client_data, w1, w2.
  repeat split; try assumption.
  unfold send_invoice_email in Hsend.
  apply bind_ok_inv in Hsend as ([[[v g] s] per] & w0 & Hfill & Hsend).
  apply lift_ok_inv in Hfill as [_ ->].
  apply bind_ok_inv in Hsend as (pdf & w0 & Hread & Hsend).
  unfold read_file in Hread. cbn [disk] in Hread.
  destruct (_ !! _); [|discriminate]. injection Hread as <- _.
  unfold send_message in Hsend.
  destruct (smtp_ok _); [|discriminate]. injection Hsend as <-. reflexivity.
Qed.

End PipelineFacts.

(** ** What a run changes *)

Lemma update_acell_cases (label v : string) (w : World) :
  (exists rc, A1.a1_to_rowcol label = Ok rc
              /\ update_acell label v w = (with_sheet w (set_cell (sheet w) rc v), Ok tt))
  \/ (exists e, update_acell label v w = (w, Raise e)).
Proof.
  unfold update_acell, sheet_update_acell.
  destruct (A1.a1_to_rowcol label) as [rc|e]; simpl; eauto.
Qed.

Lemma to_str_ok (z : Z) (text : string) :
  PyStr.to_str z = Ok text ->
  text = PyStr.str z
  /\ (String.length (PyStr.str (Z.abs z)) <= PyStr.max_str_digits)%nat.
Proof.
  unfold PyStr.to_str.
  destruct (PyStr.max_str_digits <? String.length (PyStr.str (Z.abs z)))%nat eqn:E;
    [discriminate|].
  intros [= <-]. apply Nat.ltb_ge in E. split; [reflexivity | exact E].
Qed.

Section RunFacts.
Context `{Host}.

Lemma clear_marker_cases (rows : list Client) (payer : string) (i0 : nat) (w : World) :
  (exists e, clear_marker i0 rows payer w = (w, Raise e))
  \/ clear_marker i0 rows payer w = (w, Ok tt)
  \/ (exists i label rc,
        payer_label i = Ok label /\ A1.a1_to_rowcol label = Ok rc
        /\ clear_marker i0 rows payer w
           = (with_sheet w (set_cell (sheet w) rc (PyStr.drop_last payer)), Ok tt)).
Proof.
  revert i0; induction rows as [|row rows IH]; intros i0; cbn [clear_marker].
  - right. left. reflexivity.
  - destruct (String.eqb (c_payer_name row) payer); [|apply IH].
    unfold bind, lift. destruct (payer_label i0) as [label|e] eqn:Hl; [|eauto].
    destruct (update_acell_cases label (PyStr.drop_last payer) w) as [(rc & Hrc & ->)|(e & ->)].
    + right. right. exists i0, label, rc. auto.
    + eauto.
Qed.

Lemma update_payer_cases (p : Pulled) (client_data : Client) (w : World) :
  (exists e, update_payer p client_data w = (w, Raise e))
  \/ update_payer p client_data w = (w, Ok tt)
  \/ (exists i label rc,
        payer_label i = Ok label /\ A1.a1_to_rowcol label = Ok rc
        /\ update_payer p client_data w
           = (with_sheet w (set_cell (sheet w) rc (PyStr.drop_last (c_payer_name client_data))),
              Ok tt)).
Proof.
  unfold update_payer, bind, lift.
  destruct (PyStr.last (c_payer_name client_data)) as [mark|e]; [|eauto].
  destruct (Ascii.eqb mark "!"); [apply clear_marker_cases|].
  right. left. reflexivity.
Qed.

Lemma update_invoice_number_cases (p : Pulled) (w : World) :
  (exists e, update_invoice_number p w = (w, Raise e))
  \/ (exists n rc,
        PyStr.int (invoice_number p) = Ok n
        /\ PyStr.to_str (n + 1) = Ok (PyStr.str (n + 1))
        /\ A1.a1_to_rowcol INVOICE_NUMBER_RANGE = Ok rc
        /\ update_invoice_number p w
           = (with_sheet w (set_cell (sheet w) rc (PyStr.str (n + 1))), Ok tt)).
Proof.
  unfold update_invoice_number, bind, lift.
  destruct (PyStr.int (invoice_number p)) as [n|e]; [|eauto].
  destruct (PyStr.to_str (n + 1)) as [text|e] eqn:Htext; [|eauto].
  destruct (to_str_ok _ _ Htext) as [-> _].
  destruct (update_acell_cases INVOICE_NUMBER_RANGE (PyStr.str (n + 1)) w)
    as [(rc & Hrc & ->)|(e & ->)]; [|eauto].
  right. exists n, rc. auto.
Qed.

(** A run stops before the file is written, or between the file and the
    message, or sends one message and goes on to the two sheet updates. *)
Lemma run_cases (name : string) (w : World) :
  (exists e, create_and_send_invoice name w = (w, Raise e))
  \/ (exists e f d, create_and_send_invoice name w = (written w f d, Raise e))
  \/ (exists p current client_data path msg d,
        pull_info (sheet w) = Ok p
        /\ select name p = Ok (current, client_data)
        /\ e_to msg = c_payer_email client_data
        /\ path = ("invoices/" +:+ title (sheet w) +:+ "/")
                  +:+ ("INV-" +:+ invoice_number p +:+ "_" +:+ initials_spec name +:+ ".tex")
        /\ e_subject msg = name +:+ " Tutoring Invoice"
        /\ e_attachment msg = replace_from 0 ".tex" ".pdf" path
        /\ fill_content name (c_payer_name client_data) (cutoff_dates p)
           = Ok (e_variant msg, e_greeting msg, e_student msg, e_period msg)
        /\ d !! e_attachment msg = Some (e_attached msg)
        /\ create_and_send_invoice name w
           = post_send p client_data
               (sent w (path, get_invoice_template client_data (invoice_number p) current)
                     msg d)).
Proof.
  unfold create_and_send_invoice, post_send, bind, the_sheet, lift, write_file,
    run_pdflatex, send_invoice_email, read_file, send_message, bind, lift.
  cbv beta iota.
  destruct (pull_info (sheet w)) as [p|e] eqn:Hp; [|eauto].
  destruct (select name p) as [[current client_data]|e] eqn:Hsel; [|eauto].
  rewrite (extract_initials_total name).
  cbn [sheet files outbox disk].
  destruct (pdflatex _ _ _) as [d [|]]; [|right; left; unfold written; eauto].
  destruct (fill_content name (c_payer_name client_data) (cutoff_dates p))
    as [[[[v g] s] per]|e] eqn:Hfill; [|right; left; unfold written; eauto].
  cbn [sheet files outbox disk].
  destruct (d !! _) as [pdf|] eqn:Hpdf; [|right; left; unfold written; eauto].
  cbn [sheet files outbox disk].
  destruct (smtp_ok _); [|right; left; unfold written; eauto].
  right. right.
  exists p, current, client_data,
    (("invoices/" +:+ title (sheet w) +:+ "/")
     +:+ ("INV-" +:+ invoice_number p +:+ "_" +:+ initials_spec name +:+ ".tex")),
    {| e_to := c_payer_email client_data;
       e_subject := name +:+ " Tutoring Invoice";
       e_variant := v; e_greeting := g; e_student := s; e_period := per;
       e_attachment :=
         replace_from 0 ".tex" ".pdf"
           (("invoices/" +:+ title (sheet w) +:+ "/")
            +:+ ("INV-" +:+ invoice_number p +:+ "_" +:+ initials_spec name +:+ ".tex"));
       e_attached := pdf |}, d.
  repeat split; try reflexivity; try assumption.
Qed.

(** A run whose reads, tools and transport succeed goes on to the two sheet
    updates with one file written and one message sent. *)
Lemma run_sends (name : string) (w : World) (p : Pulled) (current : list Session)
    (client_data : Client) (d : Disk) (pdf : file) (v : variant) (g s : string)
    (per : datetime * datetime) :
  let folder := "invoices/" +:+ title (sheet w) +:+ "/" in
  let path := folder +:+ ("INV-" +:+ invoice_number p +:+ "_" +:+ initials_spec name +:+ ".tex") in
  let doc := get_invoice_template client_data (invoice_number p) current in
  let msg := {| e_to := c_payer_email client_data;
                e_subject := name +:+ " Tutoring Invoice";
                e_variant := v; e_greeting := g; e_student := s; e_period := per;
                e_attachment := replace_from 0 ".tex" ".pdf" path;
                e_attached := pdf |} in
  pull_info (sheet w) = Ok p ->
  select name p = Ok (current, client_data) ->
  pdflatex folder path (<[ path := Tex doc ]> (disk w)) = (d, true) ->
  fill_content name (c_payer_name client_data) (cutoff_dates p) = Ok (v, g, s, per) ->
  d !! replace_from 0 ".tex" ".pdf" path = Some pdf ->
  smtp_ok msg = true ->
  create_and_send_invoice name w = post_send p client_data (sent w (path, doc) msg d).
Proof.
  intros folder path doc msg Hp Hsel Htex Hfill Hpdf Hsmtp.
  unfold create_and_send_invoice, post_send, bind, the_sheet, lift, write_file,
    run_pdflatex, send_invoice_email, read_file, send_message, bind, lift.
  cbv beta iota.
  rewrite Hp, Hsel, (extract_initials_total name).
  cbn [sheet files outbox disk].
  fold folder. fold path. fold doc. rewrite Htex, Hfill.
  cbn [sheet files outbox disk]. rewrite Hpdf.
  fold msg. rewrite Hsmtp. reflexivity.
Qed.

Lemma post_send_cases (p : Pulled) (client_data : Client) (w : World) :
  exists w1 r,
    post_send p client_data w = (w1, r)
    /\ files w1 = files w /\ outbox w1 = outbox w
    /\ title (sheet w1) = title (sheet w)
    /\ forall rc, grid (sheet w1) !! rc <> grid (sheet w) !! rc ->
         A1.a1_to_rowcol INVOICE_NUMBER_RANGE = Ok rc
         \/ exists i label, payer_label i = Ok label /\ A1.a1_to_rowcol label = Ok rc.
Proof.
  unfold post_send, bind.
  destruct (update_payer_cases p client_data w)
    as [(e & ->)|[->|(i & label & rc & Hl & Hrc & ->)]].
  - exists w, (Raise e). repeat split; congruence.
  - destruct (update_invoice_number_cases p w) as [(e & ->)|(n & rc & _ & _ & Hrc & ->)].
    + exists w, (Raise e). repeat split; congruence.
    + eexists _, _. split; [reflexivity|]. repeat split.
      intros rc'. cbn. destruct (decide (rc = rc')) as [<-|Hne]; [now left|].
      rewrite lookup_insert_ne by exact Hne. congruence.
  - set (w1 := with_sheet w _).
    destruct (update_invoice_number_cases p w1) as [(e & ->)|(n & rc2 & _ & _ & Hrc2 & ->)].
    + exists w1, (Raise e). split; [reflexivity|]. repeat split.
      intros rc'. cbn. destruct (decide (rc = rc')) as [<-|Hne]; [right; eauto|].
      rewrite lookup_insert_ne by exact Hne. congruence.
    + eexists _, _. split; [reflexivity|]. repeat split.
      intros rc'. cbn.
      destruct (decide (rc2 = rc')) as [<-|Hne2]; [now left|].
      rewrite lookup_insert_ne by exact Hne2.
      destruct (decide (rc = rc')) as [<-|Hne]; [right; eauto|].
      rewrite lookup_insert_ne by exact Hne. congruence.
Qed.

End RunFacts.

Section RunTheorems.
Context `{Host}.

(** A run that succeeds has read a counter that parses and leaves the next
    number in the counter cell. *)
Lemma run_ok_counter (name : string) (w w' : World) :
  create_and_send_invoice name w = (w', Ok tt) ->
  exists p n rc,
    pull_info (sheet w) = Ok p
    /\ PyStr.int (invoice_number p) = Ok n
    /\ PyStr.to_str (n + 1) = Ok (PyStr.str (n + 1))
    /\ A1.a1_to_rowcol INVOICE_NUMBER_RANGE = Ok rc
    /\ grid (sheet w') !! rc = Some (Text (PyStr.str (n + 1))).
Proof.
  intros Hrun.
  destruct (run_cases name w)
    as [(e & E)|[(e & f & d & E)
                |(p & cur & cd & path & msg & d & Hp & _ & _ & _ & _ & _ & _ & _ & E)]];
    rewrite E in Hrun; try discriminate.
  unfold post_send, bind in Hrun.
  destruct (update_payer p cd _) as [w2 [[]|e]]; [|discriminate].
  destruct (update_invoice_number_cases p w2) as [(e & E2)|(n & rc & Hn & Hs & Hrc & E2)];
    rewrite E2 in Hrun; [discriminate|].
  injection Hrun as <-. exists p, n, rc. repeat split; try assumption.
  cbn. apply lookup_insert_eq.
Qed.

End RunTheorems.

(** ** The invoice counter *)

(** C4, as the code has it. For every counter text [v] in the sheet, when a
    run of [create_and_send_invoice] succeeds, the text padded to four
    characters reads as an integer [n] and the counter cell holds afterwards
    the plain decimal text of [n + 1], with no padding. *)
Theorem counter_written_unpadded `{Host} (name : string) (w w' : World) (v : string) :
  acell_value (sheet w) INVOICE_NUMBER_RANGE = Ok (Some v) ->
  create_and_send_invoice name w = (w', Ok tt) ->
  exists n,
    PyStr.int (PyStr.zfill 4 v) = Ok n
    /\ acell_value (sheet w') INVOICE_NUMBER_RANGE = Ok (Some (PyStr.str (n + 1))).
Proof.
  intros Hv Hrun.
  apply create_and_send_invoice_ok_inv in Hrun
    as (p & current & client_data & w1 & w2 & Hp & _ & _ & _ & Hnum).
  apply pull_info_invoice_number in Hp as (v' & Hv' & Hinv).
  rewrite Hv in Hv'. injection Hv' as <-.
  unfold update_invoice_number in Hnum.
  apply bind_ok_inv in Hnum as (n & w0 & Hn & Hup).
  apply lift_ok_inv in Hn as [Hn ->].
  apply bind_ok_inv in Hup as (text & w0 & Htext & Hup).
  apply lift_ok_inv in Htext as [Htext ->].
  unfold PyStr.to_str in Htext.
  destruct (_ <? _)%nat; [discriminate|]. injection Htext as <-.
  exists n. split; [now rewrite <- Hinv|].
  unfold update_acell in Hup.
  destruct (sheet_update_acell (sheet w2) INVOICE_NUMBER_RANGE (PyStr.str (n + 1)))
    as [sh|e] eqn:Hsh; [|discriminate].
  injection Hup as <-. simpl.
  unfold sheet_update_acell in Hsh.
  apply rbind_ok_inv in Hsh as (rc & Hrc & Hsh). injection Hsh as <-.
  unfold acell_value. rewrite Hrc. simpl.
  now rewrite lookup_insert_eq.
Qed.

Lemma counter_written_unpadded_witness :
  exists n,
    PyStr.int (PyStr.zfill 4 "0007") = Ok n
    /\ acell_value (sheet (fst (create_and_send_invoice "Cy Poe" Demo.world0))) "R2"
       = Ok (Some (PyStr.str (n + 1))).
Proof.
  apply (counter_written_unpadded (H := Demo.host) "Cy Poe" Demo.world0
           (fst (create_and_send_invoice "Cy Poe" Demo.world0)) "0007").
  - vm_compute. reflexivity.
  - vm_compute. reflexivity.
Defined.

(** C4, counterexample. With "0007" in the counter cell, a successful run
    leaves "8" there, not "0008". *)
Lemma counter_0007_becomes_8 :
  acell_value Demo.sheet0 "R2" = Ok (Some "0007")
  /\ snd (create_and_send_invoice "Cy Poe" Demo.world0) = Ok tt
  /\ acell_value (sheet (fst (create_and_send_invoice "Cy Poe" Demo.world0))) "R2"
     = Ok (Some "8")
  /\ acell_value (sheet (fst (create_and_send_invoice "Cy Poe" Demo.world0))) "R2"
     <> Ok (Some "0008").
Proof.
  vm_compute. repeat split; discriminate.
Qed.

(** ** A client without a record *)

Section MissingClient.
Context `{Host}.

Lemma find_client_missing (name : string) (clients : list Client) :
  (forall c, In c clients -> c_name c <> name) ->
  find_client name clients = Raise StopIteration.
Proof.
  induction clients as [|c clients IH]; intros Hno; simpl.
  - reflexivity.
  - destruct (String.eqb_spec (c_name c) name) as [E|_].
    + exfalso. apply (Hno c); [left; reflexivity | exact E].
    + apply IH. intros c' Hc'. apply Hno. right. exact Hc'.
Qed.

(** The run of a client without a record stops at line 64, before
    anything is written or sent. *)
Lemma create_and_send_invoice_missing (name : string) (w : World) (p : Pulled)
    (mine current : list Session) :
  pull_info (sheet w) = Ok p ->
  client_sessions name (all_sessions p) = Ok mine ->
  current_sessions (cutoff_dates p) mine = Ok current ->
  (forall c, In c (all_clients p) -> c_name c <> name) ->
  create_and_send_invoice name w = (w, Raise StopIteration).
Proof.
  intros Hp Hmine Hcur Hno.
  unfold create_and_send_invoice, bind, the_sheet, lift.
  rewrite Hp. unfold select. rewrite Hmine. simpl. rewrite Hcur. simpl.
  rewrite (find_client_missing _ _ Hno). reflexivity.
Qed.

End MissingClient.

(** C5, as the code has it. For every batch of names in which some name has
    no client record, once the names before it have been processed the run
    of that name raises [StopIteration] (which carries no name) without
    writing or sending anything, and the loop ends there with that
    exception: no later name of the batch is processed. *)
Theorem missing_client_halts_batch `{Host} (before after : list string)
    (name : string) (w w1 : World) (p : Pulled) (mine current : list Session) :
  main before w = (w1, Ok tt) ->
  pull_info (sheet w1) = Ok p ->
  client_sessions name (all_sessions p) = Ok mine ->
  current_sessions (cutoff_dates p) mine = Ok current ->
  (forall c, In c (all_clients p) -> c_name c <> name) ->
  main (before ++ name :: after)%list w = (w1, Raise StopIteration).
Proof.
  intros Hbefore Hp Hmine Hcur Hno.
  unfold main in *. rewrite for_each_app, Hbefore. simpl. unfold bind.
  now rewrite (create_and_send_invoice_missing name w1 p mine current).
Qed.

(** C5, counterexample. With no record for "Ghost", the batch "Ghost",
    "Al Lee" ends with [StopIteration] and nothing is written or sent for
    "Al Lee", who has a record and is invoiced when asked for alone. *)
Lemma ghost_aborts_batch :
  main ["Ghost"; "Al Lee"] Demo.world0 = (Demo.world0, Raise StopIteration)
  /\ outbox (fst (main ["Ghost"; "Al Lee"] Demo.world0)) = []
  /\ snd (main ["Al Lee"] Demo.world0) = Ok tt
  /\ length (outbox (fst (main ["Al Lee"] Demo.world0))) = 1%nat.
Proof. vm_compute. repeat split. Qed.

Lemma missing_client_halts_batch_witness :
  main (["Cy Poe"] ++ "Ghost" :: ["Al Lee"])%list Demo.world0
  = (fst (main ["Cy Poe"] Demo.world0), Raise StopIteration).
Proof.
  apply (missing_client_halts_batch ["Cy Poe"] ["Al Lee"] "Ghost" Demo.world0
           (fst (main ["Cy Poe"] Demo.world0)) Demo.pulled1 [] []).
  - vm_compute. reflexivity.
  - vm_compute. reflexivity.
  - vm_compute. reflexivity.
  - reflexivity.
  - simpl. intros c [<-|[<-|[<-|[]]]]; discriminate.
Defined.

(** ** A client without sessions in the window *)

(** [0 + tab] is [tab], up to the sign of a zero. *)
Lemma add_zero_tab (tab : float64) :
  PyFloat.add (PyFloat.of_Z 0) tab = tab
  \/ (tab = PyFloat.nzero /\ PyFloat.add (PyFloat.of_Z 0) tab = PyFloat.pzero).
Proof.
  destruct tab as [[|]| | |]; simpl; auto.
Qed.

Lemma last_nonempty (s : string) :
  s <> EmptyString -> exists c, PyStr.last s = Ok c.
Proof.
  induction s as [|c s IH]; intros Hne; [congruence|].
  destruct s as [|c' s']; [exists c; reflexivity|].
  destruct IH as [x Hx]; [discriminate|]. exists x. exact Hx.
Qed.

(** C6. For every client with a record, a non-empty payer name and no
    session in the cutoff window, when the sheet is readable, [pdflatex]
    succeeds on the document and leaves a file where the script looks for
    the PDF, and the transport accepts the message,
    [create_and_send_invoice] writes a document and sends it to the payer
    instead of skipping the client; on that document the session count, the
    total hours and the session total are 0 and the total due is the
    running tab (as a number; the tab -0.0 gives 0.0). *)
Theorem zero_sessions_still_invoiced `{Host} (name : string) (w : World) (p : Pulled)
    (mine : list Session) (client_data : Client) (d : Disk) (pdf : file) :
  let folder := "invoices/" +:+ title (sheet w) +:+ "/" in
  let tex_path :=
    folder +:+ ("INV-" +:+ invoice_number p +:+ "_" +:+ initials_spec name +:+ ".tex") in
  let doc := get_invoice_template client_data (invoice_number p) [] in
  pull_info (sheet w) = Ok p ->
  client_sessions name (all_sessions p) = Ok mine ->
  current_sessions (cutoff_dates p) mine = Ok [] ->
  find_client name (all_clients p) = Ok client_data ->
  (2 <= length (cutoff_dates p))%nat ->
  c_payer_name client_data <> EmptyString ->
  pdflatex folder tex_path (<[ tex_path := Tex doc ]> (disk w)) = (d, true) ->
  d !! replace_from 0 ".tex" ".pdf" tex_path = Some pdf ->
  (forall msg, smtp_ok msg = true) ->
  exists w' r inv msg,
    create_and_send_invoice name w = (w', r)
    /\ files w' = (tex_path, inv) :: files w
    /\ outbox w' = msg :: outbox w
    /\ sessionCount inv = 0%nat
    /\ totalHours inv = Int 0
    /\ sessionTotal inv = Int 0
    /\ (totalAmount inv = Float (c_running_tab client_data)
        \/ (c_running_tab client_data = PyFloat.nzero
            /\ totalAmount inv = Float PyFloat.pzero))
    /\ clientName inv = c_name client_data
    /\ e_to msg = c_payer_email client_data
    /\ e_attached msg = pdf.
Proof.
  intros folder tex_path doc Hp Hmine Hcur Hfind Hlen Hpayer Htex Hpdf Hsmtp.
  assert (Hsel : select name p = Ok ([], client_data)).
  { unfold select. rewrite Hmine. cbn [rbind]. rewrite Hcur. cbn [rbind].
    rewrite Hfind. reflexivity. }
  assert (Hcut : exists lo hi more, cutoff_dates p = lo :: hi :: more).
  { destruct (cutoff_dates p) as [|lo [|hi more]]; simpl in Hlen; try lia; eauto. }
  destruct Hcut as (lo & hi & more & Hcut).
  assert (Hfill : exists v g s, fill_content name (c_payer_name client_data)
                    (cutoff_dates p) = Ok (v, g, s, (lo, hi))).
  { unfold fill_content. rewrite Hcut.
    destruct (last_nonempty _ Hpayer) as [mark ->]. cbn [rbind].
    destruct (Ascii.eqb mark "!"); simpl; eauto. }
  destruct Hfill as (v & g & s & Hfill).
  pose (msg := {| e_to := c_payer_email client_data;
                  e_subject := name +:+ " Tutoring Invoice";
                  e_variant := v; e_greeting := g; e_student := s;
                  e_period := (lo, hi);
                  e_attachment := replace_from 0 ".tex" ".pdf" tex_path;
                  e_attached := pdf |}).
  pose proof (run_sends name w p [] client_data d pdf v g s (lo, hi)
                Hp Hsel Htex Hfill Hpdf (Hsmtp _)) as Hrun.
  fold folder tex_path doc msg in Hrun.
  destruct (post_send_cases p client_data (sent w (tex_path, doc) msg d))
    as (w' & r & Hpost & Hf & Ho & _ & _).
  exists w', r, doc, msg.
  rewrite Hrun, Hpost, Hf, Ho.
  repeat split.
  change (totalAmount doc)
    with (Float (PyFloat.add (PyFloat.of_Z 0) (c_running_tab client_data))).
  destruct (add_zero_tab (c_running_tab client_data)) as [E|[E1 E2]].
  - left. now rewrite E.
  - right. split; [exact E1 | now rewrite E2].
Qed.

Lemma zero_sessions_still_invoiced_witness :
  exists w' r inv msg,
    create_and_send_invoice "Cy Poe" Demo.world0 = (w', r)
    /\ files w' = ("invoices/Winter/INV-0007_CP.tex", inv) :: files Demo.world0
    /\ outbox w' = msg :: outbox Demo.world0
    /\ sessionCount inv = 0%nat
    /\ totalHours inv = Int 0
    /\ sessionTotal inv = Int 0
    /\ (totalAmount inv = Float (Demo.decimal (-2000) 2)
        \/ (Demo.decimal (-2000) 2 = PyFloat.nzero
            /\ totalAmount inv = Float PyFloat.pzero))
    /\ clientName inv = "Cy Poe"
    /\ e_to msg = "payer@example.org"
    /\ e_attached msg = Binary "%PDF".
Proof.
  apply (zero_sessions_still_invoiced "Cy Poe" Demo.world0 Demo.pulled0 [] Demo.cy_poe
           (fst (Demo.compile "invoices/Winter/" "invoices/Winter/INV-0007_CP.tex"
                   (<[ "invoices/Winter/INV-0007_CP.tex"
                       := Tex (get_invoice_template Demo.cy_poe "0007" []) ]> empty)))
           (Binary "%PDF")).
  - vm_compute. reflexivity.
  - vm_compute. reflexivity.
  - reflexivity.
  - vm_compute. reflexivity.
  - simpl. lia.
  - discriminate.
  - vm_compute. reflexivity.
  - vm_compute. reflexivity.
  - reflexivity.
Defined.

(** ** The payer marker *)

(** A marked name without its last character is the name. *)
Lemma drop_last_marker (n : string) :
  PyStr.drop_last (n +:+ "!") = n /\ PyStr.last (n +:+ "!") = Ok "!"%char.
Proof.
  induction n as [|c n [IH1 IH2]]; [split; reflexivity|].
  simpl. destruct (n +:+ "!") eqn:E.
  - destruct n; discriminate.
  - split; [now rewrite IH1 | exact IH2].
Qed.

(** The message is only composed for a non-empty payer name: line 126 has
    already read its last character when line 99 does. *)
Lemma fill_content_payer_nonempty `{Host} (name payer : string) (cutoffs : list datetime)
    (x : variant * string * string * (datetime * datetime)) :
  fill_content name payer cutoffs = Ok x -> payer <> EmptyString.
Proof. intros Hx ->. discriminate. Qed.

(** C7. The clearing step is reached only in a run that has sent its
    message, and such a run has read the last character of the payer name
    on line 126. For every client whose run gets that far and whose payer
    name does not end with '!' (a name from which the marker was cleared is
    one), the clearing step leaves the whole world, hence the stored payer
    name, unchanged and does not raise; running it twice is running it
    once. *)
Theorem clearing_absent_marker_is_noop `{Host} (name : string) (w w1 : World)
    (p : Pulled) (current : list Session) (client_data : Client) :
  pull_info (sheet w) = Ok p ->
  select name p = Ok (current, client_data) ->
  outbox (fst (create_and_send_invoice name w)) <> outbox w ->
  PyStr.last (c_payer_name client_data) <> Ok "!"%char ->
  update_payer p client_data w1 = (w1, Ok tt)
  /\ bind (update_payer p client_data) (fun _ => update_payer p client_data) w1
     = update_payer p client_data w1.
Proof.
  intros Hp Hsel Hsent Hmark.
  assert (Hne : c_payer_name client_data <> EmptyString).
  { destruct (run_cases name w)
      as [(e & E)|[(e & f & d & E)
                  |(p' & cur & cd & path & msg & d & Hp' & Hsel' & _ & _ & _ & _ & Hfill & _ & E)]].
    - rewrite E in Hsent. now contradiction Hsent.
    - rewrite E in Hsent. now contradiction Hsent.
    - rewrite Hp in Hp'. injection Hp' as <-.
      rewrite Hsel in Hsel'. injection Hsel' as <- <-.
      exact (fill_content_payer_nonempty _ _ _ _ Hfill). }
  assert (Hstep : forall w0, update_payer p client_data w0 = (w0, Ok tt)).
  { intros w0. unfold update_payer, bind, lift.
    destruct (last_nonempty _ Hne) as [c Hc]. rewrite Hc.
    destruct (Ascii.eqb_spec c "!") as [->|_]; [congruence | reflexivity]. }
  split; [apply Hstep|].
  unfold bind. now rewrite !Hstep.
Qed.

Lemma clearing_absent_marker_is_noop_witness :
  let sent := fst (send_invoice_email "Cy Poe" "John Doe" "payer@example.org"
                     "invoices/Winter/INV-0007_CP.pdf" (cutoff_dates Demo.pulled0)
                     (written Demo.world0
                        ("invoices/Winter/INV-0007_CP.tex",
                         get_invoice_template Demo.cy_poe "0007" [])
                        (fst (Demo.compile "invoices/Winter/"
                                "invoices/Winter/INV-0007_CP.tex"
                                (<[ "invoices/Winter/INV-0007_CP.tex"
                                    := Tex (get_invoice_template Demo.cy_poe "0007" []) ]>
                                   empty))))) in
  update_payer Demo.pulled0 Demo.cy_poe sent = (sent, Ok tt)
  /\ bind (update_payer Demo.pulled0 Demo.cy_poe)
          (fun _ => update_payer Demo.pulled0 Demo.cy_poe) sent
     = update_payer Demo.pulled0 Demo.cy_poe sent.
Proof.
  intros sent.
  apply (clearing_absent_marker_is_noop "Cy Poe" Demo.world0 sent Demo.pulled0 []
           Demo.cy_poe).
  - vm_compute. reflexivity.
  - vm_compute. reflexivity.
  - vm_compute. discriminate.
  - discriminate.
Defined.

(** C8, at the failing input. "Al Lee" (sheet row 2) and "Bo Lee" (sheet
    row 3) have the same payer, "Pat Lee!". Invoicing "Bo Lee" selects the
    welcome message and succeeds, and then removes the marker from the
    payer cell of "Al Lee", who was not processed, while the payer cell of
    "Bo Lee" keeps its marker. *)
Theorem marker_cleared_on_another_row :
  let before := Demo.sheet0 in
  let run := create_and_send_invoice "Bo Lee" Demo.world0 in
  let after := sheet (fst run) in
  grid before !! (2%nat, 6%nat) = Some (Text "Al Lee")
  /\ grid before !! (3%nat, 6%nat) = Some (Text "Bo Lee")
  /\ grid before !! (2%nat, 13%nat) = Some (Text "Pat Lee!")
  /\ grid before !! (3%nat, 13%nat) = Some (Text "Pat Lee!")
  /\ snd run = Ok tt
  /\ List.map e_variant (outbox (fst run)) = [Welcome]
  /\ grid after !! (2%nat, 13%nat) = Some (Text "Pat Lee")
  /\ grid after !! (3%nat, 13%nat) = Some (Text "Pat Lee!").
Proof. vm_compute. repeat split. Qed.

(** * Further properties *)

From Stdlib Require Import DecimalPos DecimalNat.

(** ** Exact sums of quarters *)

Lemma shl_Z c k : Zpos (shl c k) = Zpos c * 2 ^ Z.of_nat k.
Proof.
  induction k as [|k IH].
  - simpl. lia.
  - unfold shl in *. rewrite Nat.iter_succ, Pos2Z.inj_xO, IH.
    rewrite Nat2Z.inj_succ, Z.pow_succ_r by lia. ring.
Qed.

Lemma shl_digits c k :
  Zpos (digits2_pos (shl c k)) = Zpos (digits2_pos c) + Z.of_nat k.
Proof.
  induction k as [|k IH].
  - simpl. lia.
  - unfold shl in *. rewrite Nat.iter_succ. simpl digits2_pos.
    rewrite Pos2Z.inj_succ, IH. lia.
Qed.

Lemma shl_shl c j k : shl (shl c j) k = shl c (j + k).
Proof.
  unfold shl. rewrite Nat.add_comm. symmetry. apply Nat.iter_add.
Qed.

Lemma pos_iter_shl c p : Pos.iter xO c p = shl c (Pos.to_nat p).
Proof.
  unfold shl. rewrite Pos2Nat.inj_iter.
  induction (Pos.to_nat p); simpl; congruence.
Qed.

Lemma iter_pos_nat {A} (f : A -> A) p (x : A) :
  SpecFloat.iter_pos f p x = Nat.iter (Pos.to_nat p) f x.
Proof.
  revert x; induction p as [p IH|p IH|]; intros x; cbn [SpecFloat.iter_pos].
  - rewrite !IH, Pos2Nat.inj_xI.
    replace (S (2 * Pos.to_nat p))%nat with (Pos.to_nat p + (Pos.to_nat p + 1))%nat by lia.
    rewrite !Nat.iter_add. simpl. reflexivity.
  - rewrite !IH, Pos2Nat.inj_xO.
    replace (2 * Pos.to_nat p)%nat with (Pos.to_nat p + Pos.to_nat p)%nat by lia.
    now rewrite Nat.iter_add.
  - reflexivity.
Qed.


Lemma shr_iter c k j :
  Nat.iter k shr_1 (exact (Zpos (shl c (k + j)))) = exact (Zpos (shl c j)).
Proof.
  revert j; induction k as [|k IH]; intros j.
  - reflexivity.
  - rewrite Nat.iter_succ.
    replace (S k + j)%nat with (k + S j)%nat by lia.
    rewrite IH. unfold shl. rewrite Nat.iter_succ. reflexivity.
Qed.

Lemma fexp_normal x : -1074 <= x - 53 -> fexp 53 1024 x = x - 53.
Proof. intros Hx. unfold fexp, emin. lia. Qed.

Lemma shr_fexp_53 m e :
  Zpos (digits2_pos m) = 53 -> -1074 <= e <= 971 ->
  shr_fexp 53 1024 (Zpos m) e loc_Exact = (exact (Zpos m), e).
Proof.
  intros Hd He. unfold shr_fexp. cbn [Zdigits2]. rewrite Hd, fexp_normal by lia.
  replace (53 + e - 53 - e) with 0 by lia. reflexivity.
Qed.

(** The second half of [binary_round_aux] on an exact mantissa of 53
    digits. *)
Lemma round_tail s m e :
  Zpos (digits2_pos m) = 53 -> -1074 <= e <= 971 ->
  (let '(mrs, e2) :=
     shr_fexp 53 1024 (round_nearest_even (shr_m (exact (Zpos m)))
                         (loc_of_shr_record (exact (Zpos m)))) e loc_Exact in
   match shr_m mrs with
   | 0 => S754_zero s
   | Zpos m' => if e2 <=? 1024 - 53 then S754_finite s m' e2 else S754_infinity s
   | Zneg _ => S754_nan
   end) = S754_finite s m e.
Proof.
  intros Hd He. cbn [exact shr_m loc_of_shr_record round_nearest_even].
  rewrite shr_fexp_53 by assumption. cbn [exact shr_m].
  replace (e <=? 1024 - 53) with true by (symmetry; apply Z.leb_le; lia).
  reflexivity.
Qed.

(** Rounding a mantissa of 53 digits in the normal range does nothing. *)
Lemma binary_round_aux_53 s m e :
  Zpos (digits2_pos m) = 53 -> -1074 <= e <= 971 ->
  binary_round_aux 53 1024 s (Zpos m) e loc_Exact = S754_finite s m e.
Proof.
  intros Hd He. unfold binary_round_aux.
  rewrite shr_fexp_53 by assumption. now apply round_tail.
Qed.

Lemma binary_round_canon s c k e :
  let d := Zpos (digits2_pos c) in
  d <= 53 ->
  -1074 <= d + (e + Z.of_nat k) - 53 <= 971 ->
  binary_round 53 1024 s (shl c k) e
  = S754_finite s (shl c (Z.to_nat (53 - d))) (d + (e + Z.of_nat k) - 53).
Proof.
  intros d Hd Hr. unfold binary_round.
  rewrite shl_digits. fold d.
  rewrite fexp_normal by lia.
  set (e' := d + Z.of_nat k + e - 53).
  replace (d + (e + Z.of_nat k) - 53) with e' by (unfold e'; lia).
  unfold shl_align.
  destruct (e' - e) as [|n|n] eqn:Hn.
  - (* the mantissa has 53 digits already *)
    assert (Hk : Z.to_nat (53 - d) = k) by (unfold e' in Hn; lia).
    rewrite Hk. replace e with e' by lia.
    apply binary_round_aux_53; [rewrite shl_digits; fold d; lia | lia].
  - (* more than 53 digits: the low zeros are shifted out *)
    unfold binary_round_aux.
    assert (Hshr : shr_fexp 53 1024 (Zpos (shl c k)) e loc_Exact
                   = (exact (Zpos (shl c (Z.to_nat (53 - d)))), e')).
    { unfold shr_fexp. cbn [Zdigits2]. rewrite shl_digits. fold d.
      rewrite fexp_normal by lia. fold e'. rewrite Hn.
      unfold shr. rewrite iter_pos_nat. cbn [shr_record_of_loc].
      fold (exact (Zpos (shl c k))).
      replace k with (Pos.to_nat n + Z.to_nat (53 - d))%nat at 1 by (unfold e' in Hn; lia).
      rewrite shr_iter. f_equal. lia. }
    rewrite Hshr.
    apply round_tail; [rewrite shl_digits; fold d; lia | lia].
  - (* fewer than 53 digits: the mantissa is shifted left *)
    rewrite pos_iter_shl, shl_shl.
    replace (k + Pos.to_nat n)%nat with (Z.to_nat (53 - d)) by (unfold e' in Hn; lia).
    apply binary_round_aux_53; [rewrite shl_digits; fold d; lia | lia].
Qed.

Lemma binary_round_canon0 s c e :
  Zpos (digits2_pos c) <= 53 ->
  -1074 <= Zpos (digits2_pos c) + e - 53 <= 971 ->
  binary_round 53 1024 s c e
  = S754_finite s (shl c (Z.to_nat (53 - Zpos (digits2_pos c))))
      (Zpos (digits2_pos c) + e - 53).
Proof.
  intros Hd Hr.
  pose proof (binary_round_canon s c 0 e Hd) as H.
  change (shl c 0) with c in H. change (Z.of_nat 0) with 0 in H.
  rewrite Z.add_0_r in H. apply H. exact Hr.
Qed.

Lemma digits_size (c : positive) : digits2_pos c = Pos.size c.
Proof. induction c as [p IH|p IH|]; cbn [digits2_pos Pos.size]; [now rewrite IH | now rewrite IH | reflexivity]. Qed.

Lemma digits_bound (c : positive) :
  Zpos c < 2 ^ 53 -> Zpos (digits2_pos c) <= 53.
Proof.
  intros Hc. rewrite digits_size.
  destruct (Z.le_gt_cases (Zpos (Pos.size c)) 53) as [Hle|Hgt]; [exact Hle|exfalso].
  pose proof (Pos.size_le c) as Hs.
  assert (H2 : 2 ^ 54 <= 2 ^ Zpos (Pos.size c)) by (apply Z.pow_le_mono_r; lia).
  apply Pos2Z.pos_le_pos in Hs. rewrite Pos2Z.inj_pow in Hs.
  change (Z.pos c~0) with (2 * Z.pos c) in Hs.
  remember (2 ^ Zpos (Pos.size c)) as P.
  remember (2 ^ 53) as Q. remember (2 ^ 54) as R.
  assert (R = 2 * Q) by (subst; reflexivity).
  lia.
Qed.

(** The binary64 value of a multiple [c * 2^K] of a power of two, given at
    exponent [-2 - K], is the value of [c / 4]. *)
Lemma binary_normalize_scaled (c K : Z) :
  0 <= K -> Z.abs c < 2 ^ 53 ->
  binary_normalize 53 1024 (c * 2 ^ K) (-2 - K) false = quarter c.
Proof.
  intros HK Hc. unfold quarter, PyFloat.prec, PyFloat.emax, binary_normalize.
  assert (Hpos : forall p s, Zpos p < 2 ^ 53 ->
    binary_round 53 1024 s (shl p (Z.to_nat K)) (-2 - K) = binary_round 53 1024 s p (-2)).
  { intros p s Hp. pose proof (digits_bound p Hp) as Hd.
    rewrite binary_round_canon; [|exact Hd|rewrite Z2Nat.id by lia; lia].
    rewrite binary_round_canon0; [|exact Hd|lia].
    f_equal. rewrite Z2Nat.id by lia. lia. }
  destruct c as [|p|p].
  - reflexivity.
  - replace (Zpos p * 2 ^ K) with (Zpos (shl p (Z.to_nat K)))
      by (rewrite shl_Z, Z2Nat.id by lia; reflexivity).
    apply Hpos. exact Hc.
  - replace (Zneg p * 2 ^ K) with (Zneg (shl p (Z.to_nat K))).
    + apply Hpos. exact Hc.
    + rewrite <- !Pos2Z.opp_pos, shl_Z, Z2Nat.id by lia. ring.
Qed.


Lemma dig_range (q : Z) : q <> 0 -> Z.abs q < 2 ^ 53 -> 1 <= dig q <= 53.
Proof.
  intros Hq Hb. unfold dig. split; [lia|].
  apply digits_bound. rewrite Z2Pos.id; lia.
Qed.

(** The shape of [quarter q] for [q <> 0]. *)
Lemma quarter_finite (q : Z) :
  q <> 0 -> Z.abs q < 2 ^ 53 ->
  quarter q
  = S754_finite (q <? 0) (shl (Z.to_pos (Z.abs q)) (Z.to_nat (53 - dig q))) (dig q - 55).
Proof.
  intros Hq Hb. pose proof (dig_range q Hq Hb) as Hd.
  unfold quarter, PyFloat.prec, PyFloat.emax, binary_normalize.
  destruct q as [|p|p]; [congruence| |].
  - unfold dig in *. change (Z.to_pos (Z.abs (Zpos p))) with p in *.
    rewrite binary_round_canon0; [|lia|lia].
    f_equal. lia.
  - unfold dig in *. change (Z.to_pos (Z.abs (Zneg p))) with p in *.
    rewrite binary_round_canon0; [|lia|lia].
    f_equal. lia.
Qed.

Lemma shl_align_fst (m : positive) (ex ez : Z) :
  ez <= ex -> fst (shl_align m ex ez) = shl m (Z.to_nat (ex - ez)).
Proof.
  intros Hle. unfold shl_align.
  destruct (ez - ex) as [|n|n] eqn:Hn.
  - replace (ex - ez) with 0 by lia. reflexivity.
  - lia.
  - cbn [fst]. rewrite pos_iter_shl. f_equal. lia.
Qed.

(** The aligned mantissa of [quarter q], signed, at a common exponent
    [ez]. *)
Lemma aligned_quarter (q ez : Z) :
  q <> 0 -> Z.abs q < 2 ^ 53 -> ez <= dig q - 55 ->
  cond_Zopp (q <? 0)
    (Zpos (fst (shl_align (shl (Z.to_pos (Z.abs q)) (Z.to_nat (53 - dig q))) (dig q - 55) ez)))
  = q * 2 ^ (-2 - ez).
Proof.
  intros Hq Hb Hez. pose proof (dig_range q Hq Hb) as Hd.
  rewrite shl_align_fst by exact Hez.
  rewrite shl_shl, shl_Z, Z2Pos.id by lia.
  replace (Z.of_nat (Z.to_nat (53 - dig q) + Z.to_nat (dig q - 55 - ez))) with (-2 - ez) by lia.
  generalize (2 ^ (-2 - ez)). intros P.
  destruct (q <? 0) eqn:Hs; cbn [cond_Zopp].
  - apply Z.ltb_lt in Hs. rewrite Z.abs_neq by lia. ring.
  - apply Z.ltb_ge in Hs. rewrite Z.abs_eq by lia. ring.
Qed.

Lemma quarter_0 : quarter 0 = S754_zero false.
Proof. reflexivity. Qed.

(** Addition of quarters is exact. *)
Lemma add_quarter (a b : Z) :
  Z.abs a < 2 ^ 53 -> Z.abs b < 2 ^ 53 -> Z.abs (a + b) < 2 ^ 53 ->
  SFadd 53 1024 (quarter a) (quarter b) = quarter (a + b).
Proof.
  intros Ha Hb Hab.
  destruct (Z.eq_dec a 0) as [->|Ha0]; destruct (Z.eq_dec b 0) as [->|Hb0].
  - reflexivity.
  - rewrite Z.add_0_l, (quarter_finite b Hb0 Hb). reflexivity.
  - rewrite Z.add_0_r, (quarter_finite a Ha0 Ha). reflexivity.
  - pose proof (dig_range a Ha0 Ha). pose proof (dig_range b Hb0 Hb).
    rewrite (quarter_finite a Ha0 Ha), (quarter_finite b Hb0 Hb). cbn [SFadd].
    set (ez := Z.min (dig a - 55) (dig b - 55)).
    rewrite (aligned_quarter a ez Ha0 Ha) by (unfold ez; lia).
    rewrite (aligned_quarter b ez Hb0 Hb) by (unfold ez; lia).
    rewrite <- Z.mul_add_distr_r.
    pose proof (binary_normalize_scaled (a + b) (-2 - ez)) as Hn.
    replace (-2 - (-2 - ez)) with ez in Hn by lia.
    apply Hn; [unfold ez; lia | exact Hab].
Qed.

(** Subtraction of quarters is exact. *)
Lemma sub_quarter (a b : Z) :
  Z.abs a < 2 ^ 53 -> Z.abs b < 2 ^ 53 -> Z.abs (a - b) < 2 ^ 53 ->
  SFsub 53 1024 (quarter a) (quarter b) = quarter (a - b).
Proof.
  intros Ha Hb Hab.
  destruct (Z.eq_dec a 0) as [->|Ha0]; destruct (Z.eq_dec b 0) as [->|Hb0].
  - reflexivity.
  - assert (Hnb : - b <> 0) by lia.
    assert (Hbb : Z.abs (- b) < 2 ^ 53) by (rewrite Z.abs_opp; exact Hb).
    change (0 - b) with (- b).
    rewrite (quarter_finite b Hb0 Hb), (quarter_finite (- b) Hnb Hbb).
    unfold dig. rewrite Z.abs_opp. cbn [quarter SFsub binary_normalize].
    f_equal. destruct b; try congruence; reflexivity.
  - rewrite Z.sub_0_r, (quarter_finite a Ha0 Ha). reflexivity.
  - pose proof (dig_range a Ha0 Ha). pose proof (dig_range b Hb0 Hb).
    rewrite (quarter_finite a Ha0 Ha), (quarter_finite b Hb0 Hb). cbn [SFsub].
    set (ez := Z.min (dig a - 55) (dig b - 55)).
    rewrite (aligned_quarter a ez Ha0 Ha) by (unfold ez; lia).
    rewrite (aligned_quarter b ez Hb0 Hb) by (unfold ez; lia).
    rewrite <- Z.mul_sub_distr_r.
    pose proof (binary_normalize_scaled (a - b) (-2 - ez)) as Hn.
    replace (-2 - (-2 - ez)) with ez in Hn by lia.
    apply Hn; [unfold ez; lia | exact Hab].
Qed.

Lemma quarters_of_quarter (q : Z) :
  Z.abs q < 2 ^ 53 -> quarters_of (quarter q) = Some q.
Proof.
  intros Hb. destruct (Z.eq_dec q 0) as [->|Hq]; [reflexivity|].
  pose proof (dig_range q Hq Hb) as Hd.
  rewrite (quarter_finite q Hq Hb). unfold quarters_of.
  assert (Hm : Z.pos (shl (Z.to_pos (Z.abs q)) (Z.to_nat (53 - dig q)))
               = Z.abs q * 2 ^ (53 - dig q))
    by (rewrite shl_Z, Z2Pos.id, Z2Nat.id by lia; reflexivity).
  assert (Hsign : cond_Zopp (q <? 0) (Z.abs q) = q).
  { destruct (q <? 0) eqn:Hs; cbn [cond_Zopp].
    - apply Z.ltb_lt in Hs. lia.
    - apply Z.ltb_ge in Hs. lia. }
  rewrite Hm.
  destruct (-2 <=? dig q - 55) eqn:He.
  - apply Z.leb_le in He. replace (dig q) with 53 by lia.
    change (2 ^ (53 - 53)) with 1. change (2 ^ (53 - 55 + 2)) with 1.
    rewrite !Z.mul_1_r. now rewrite Hsign.
  - apply Z.leb_gt in He.
    replace (-2 - (dig q - 55)) with (53 - dig q) by lia.
    assert (Hp : 0 < 2 ^ (53 - dig q)) by (apply Z.pow_pos_nonneg; lia).
    rewrite Z.mod_mul by lia. cbn [Z.eqb].
    rewrite Z.div_mul by lia. now rewrite Hsign.
Qed.

Lemma Zsum_cons (q : Z) (qs : list Z) : Zsum (q :: qs) = q + Zsum qs.
Proof. reflexivity. Qed.

Lemma Zsum_abs_nonneg (qs : list Z) : 0 <= Zsum (List.map Z.abs qs).
Proof.
  induction qs as [|q qs IH]; [cbn; lia|].
  change (List.map Z.abs (q :: qs)) with (Z.abs q :: List.map Z.abs qs).
  rewrite Zsum_cons. lia.
Qed.

Lemma Zsum_abs_bound (qs : list Z) : Z.abs (Zsum qs) <= Zsum (List.map Z.abs qs).
Proof.
  induction qs as [|q qs IH]; [cbn; lia|].
  change (List.map Z.abs (q :: qs)) with (Z.abs q :: List.map Z.abs qs).
  rewrite !Zsum_cons. lia.
Qed.

(** The float loop of [sum] on quarters: the compensation stays zero and
    the running sum is exact. *)
Lemma neumaier_quarters (qs : list Z) (a : Z) :
  Z.abs a + Zsum (List.map Z.abs qs) < 2 ^ 53 ->
  PyFloat.neumaier (quarter a) PyFloat.pzero (List.map quarter qs)
  = quarter (a + Zsum qs).
Proof.
  revert a; induction qs as [|q qs IH]; intros a Hb.
  - cbn [List.map PyFloat.neumaier Zsum List.fold_right]. now rewrite Z.add_0_r.
  - change (List.map Z.abs (q :: qs)) with (Z.abs q :: List.map Z.abs qs) in Hb.
    change (List.map quarter (q :: qs)) with (quarter q :: List.map quarter qs).
    rewrite Zsum_cons in *.
    pose proof (Zsum_abs_nonneg qs) as Hn.
    cbn [PyFloat.neumaier]. unfold PyFloat.add, PyFloat.sub, PyFloat.prec, PyFloat.emax.
    rewrite (add_quarter a q) by lia.
    assert (Hc1 : SFadd 53 1024 PyFloat.pzero
                    (SFadd 53 1024 (SFsub 53 1024 (quarter a) (quarter (a + q))) (quarter q))
                  = PyFloat.pzero).
    { rewrite sub_quarter by lia. replace (a - (a + q)) with (- q) by lia.
      rewrite add_quarter by lia. replace (- q + q) with 0 by lia. reflexivity. }
    assert (Hc2 : SFadd 53 1024 PyFloat.pzero
                    (SFadd 53 1024 (SFsub 53 1024 (quarter q) (quarter (a + q))) (quarter a))
                  = PyFloat.pzero).
    { rewrite sub_quarter by lia. replace (q - (a + q)) with (- a) by lia.
      rewrite add_quarter by lia. replace (- a + a) with 0 by lia. reflexivity. }
    rewrite Hc1, Hc2.
    destruct (PyFloat.leb _ _).
    + rewrite IH by lia. f_equal. lia.
    + rewrite IH by lia. f_equal. lia.
Qed.

(** [sum] of quarters is the quarter of the integer sum. *)
Lemma py_sum_quarters (qs : list Z) :
  Zsum (List.map Z.abs qs) < 2 ^ 53 ->
  as_float (py_sum (List.map quarter qs)) = quarter (Zsum qs).
Proof.
  intros Hb. destruct qs as [|q qs]; [reflexivity|].
  change (List.map Z.abs (q :: qs)) with (Z.abs q :: List.map Z.abs qs) in Hb.
  change (List.map quarter (q :: qs)) with (quarter q :: List.map quarter qs).
  rewrite Zsum_cons in *. cbn [py_sum as_float].
  pose proof (Zsum_abs_nonneg qs) as Hn.
  change (PyFloat.of_Z 0) with (quarter 0).
  unfold PyFloat.add, PyFloat.prec, PyFloat.emax.
  rewrite (add_quarter 0 q) by (cbn [Z.abs]; lia).
  rewrite Z.add_0_l. apply neumaier_quarters. lia.
Qed.

Lemma Zsum_abs_length (qs : list Z) (B : Z) :
  Forall (fun q => Z.abs q <= B) qs ->
  Zsum (List.map Z.abs qs) <= Z.of_nat (length qs) * B.
Proof.
  induction 1 as [|q qs Hq _ IH]; [cbn; lia|].
  change (List.map Z.abs (q :: qs)) with (Z.abs q :: List.map Z.abs qs).
  rewrite Zsum_cons. cbn [length]. lia.
Qed.

(** ** The totals of the invoice *)

(** C2, as the code has it. The session total is Python's float [sum] of
    the fees and the total due is its binary64 sum with the running tab.
    When the fees and the tab are multiples of 0.25, the tab of either
    sign, and their magnitudes add up to less than 2^53 quarters, nothing
    is rounded: the session total is the sum of the fees and the total due
    is the session total plus the tab, exactly. *)
Theorem total_due_is_session_total_plus_tab (client_data : Client) (number : string)
    (selected : list Session) (fees : list Z) (tab : Z) :
  List.map s_fee selected = List.map quarter fees ->
  c_running_tab client_data = quarter tab ->
  Zsum (List.map Z.abs fees) + Z.abs tab < 2 ^ 53 ->
  let inv := get_invoice_template client_data number selected in
  quarters_of (as_float (sessionTotal inv)) = Some (Zsum fees)
  /\ quarters_of (as_float (totalAmount inv)) = Some (Zsum fees + tab)
  /\ totalAmount inv = Float (quarter (Zsum fees + tab)).
Proof.
  intros Hf Ht Hb inv.
  pose proof (Zsum_abs_bound fees) as Af.
  pose proof (Zsum_abs_nonneg fees) as Nf.
  assert (E53 : 2 ^ 53 = 9007199254740992) by reflexivity.
  rewrite E53 in Hb.
  assert (Tf : as_float (sessionTotal inv) = quarter (Zsum fees)).
  { unfold inv. cbn [get_invoice_template sessionTotal]. rewrite Hf.
    apply py_sum_quarters. rewrite E53. lia. }
  assert (Td : totalAmount inv = Float (quarter (Zsum fees + tab))).
  { assert (E : totalAmount inv
                = Float (PyFloat.add (as_float (sessionTotal inv))
                           (c_running_tab client_data))).
    { unfold inv. cbn [get_invoice_template totalAmount sessionTotal].
      destruct (py_sum (List.map s_fee selected)); reflexivity. }
    rewrite E, Tf, Ht. unfold PyFloat.add, PyFloat.prec, PyFloat.emax.
    f_equal. apply add_quarter; rewrite E53; lia. }
  rewrite Tf, Td. cbn [as_float].
  repeat split; apply quarters_of_quarter; rewrite E53; lia.
Qed.

Lemma total_due_is_session_total_plus_tab_witness :
  let inv := get_invoice_template (Demo.owing (quarter (-500))) "0007"
               [Demo.billed (quarter 4) (quarter 200);
                Demo.billed (quarter 6) (quarter 300)] in
  quarters_of (as_float (sessionTotal inv)) = Some (Zsum [200; 300])
  /\ quarters_of (as_float (totalAmount inv)) = Some (Zsum [200; 300] + -500)
  /\ totalAmount inv = Float (quarter (Zsum [200; 300] + -500)).
Proof.
  apply (total_due_is_session_total_plus_tab (Demo.owing (quarter (-500))) "0007"
           [Demo.billed (quarter 4) (quarter 200); Demo.billed (quarter 6) (quarter 300)]
           [200; 300] (-500)).
  - reflexivity.
  - reflexivity.
  - vm_compute. reflexivity.
Defined.

(** C2, counterexample. Fees of 0.10 and 0.20 against a credit of 0.30:
    the session total is 0.30000000000000004, the tab is the binary64
    nearest to -0.30, and the total due is 2^-54 instead of 0. *)
Lemma credit_does_not_cancel :
  let tab := Demo.decimal (-30) 2 in
  let inv := get_invoice_template (Demo.owing tab) "0007"
               [Demo.billed (quarter 1) (Demo.decimal 10 2);
                Demo.billed (quarter 1) (Demo.decimal 20 2)] in
  Demo.read_decimal "-0.30" = Ok tab
  /\ sessionTotal inv = Float (S754_finite false 5404319552844596 (-54))
  /\ tab = S754_finite true 5404319552844595 (-54)
  /\ totalAmount inv = Float (S754_finite false 4503599627370496 (-106))
  /\ quarters_of (as_float (totalAmount inv)) = None
  /\ totalAmount inv <> Float PyFloat.pzero.
Proof. vm_compute. repeat split; try reflexivity; discriminate. Qed.

(** C3, as the code has it. For up to 1000 selected sessions whose hours
    are multiples of 0.25 (of magnitude at most 2^40), the total hours are
    the exact sum; the session total is the exact sum when the fees are
    multiples of 0.25 as well. The sums are functions of the sessions, so
    repeated runs agree. *)
Theorem sums_of_quarter_amounts_are_exact (client_data : Client) (number : string)
    (selected : list Session) (hours : list Z) :
  (length selected <= 1000)%nat ->
  List.map s_hours selected = List.map quarter hours ->
  Forall (fun q => Z.abs q <= 2 ^ 42) hours ->
  let inv := get_invoice_template client_data number selected in
  quarters_of (as_float (totalHours inv)) = Some (Zsum hours)
  /\ (forall fees : list Z,
        List.map s_fee selected = List.map quarter fees ->
        Forall (fun q => Z.abs q <= 2 ^ 42) fees ->
        quarters_of (as_float (sessionTotal inv)) = Some (Zsum fees)).
Proof.
  intros Hlen Hh Bh inv.
  assert (E42 : 2 ^ 42 = 4398046511104) by reflexivity.
  assert (E53 : 2 ^ 53 = 9007199254740992) by reflexivity.
  assert (Hsum : forall (field : Session -> float64) (qs : list Z),
            List.map field selected = List.map quarter qs ->
            Forall (fun q => Z.abs q <= 2 ^ 42) qs ->
            quarters_of (as_float (py_sum (List.map field selected))) = Some (Zsum qs)).
  { intros field qs Hq Bq.
    assert (Lq : length qs = length selected)
      by (rewrite <- (List.length_map quarter qs), <- Hq; apply List.length_map).
    pose proof (Zsum_abs_length qs _ Bq) as Sq.
    pose proof (Zsum_abs_bound qs) as Aq.
    rewrite E42 in Sq.
    rewrite Hq, py_sum_quarters by (rewrite E53; lia).
    apply quarters_of_quarter. rewrite E53. lia. }
  split.
  - exact (Hsum s_hours hours Hh Bh).
  - intros fees Hf Bf. exact (Hsum s_fee fees Hf Bf).
Qed.

Lemma sums_of_quarter_amounts_are_exact_witness :
  let selected := [Demo.billed (quarter 4) (quarter 200);
                   Demo.billed (quarter 6) (quarter 300)] in
  let inv := get_invoice_template (Demo.owing (quarter 0)) "0007" selected in
  quarters_of (as_float (totalHours inv)) = Some (Zsum [4; 6])
  /\ (forall fees : list Z,
        List.map s_fee selected = List.map quarter fees ->
        Forall (fun q => Z.abs q <= 2 ^ 42) fees ->
        quarters_of (as_float (sessionTotal inv)) = Some (Zsum fees)).
Proof.
  apply (sums_of_quarter_amounts_are_exact (Demo.owing (quarter 0)) "0007"
           [Demo.billed (quarter 4) (quarter 200); Demo.billed (quarter 6) (quarter 300)]
           [4; 6]).
  - simpl. lia.
  - reflexivity.
  - repeat constructor; vm_compute; discriminate.
Defined.

(** C3, counterexample. Two sessions of 0.25 hours with fees of 0.10 and
    0.20: the total hours are exact, the session total is
    0.30000000000000004, which is neither the binary64 nearest to 0.30
    nor the sum of the two binary64 fees (counted in units of 2^-56). *)
Lemma two_decimal_fees_are_rounded :
  let selected := [Demo.billed (quarter 1) (Demo.decimal 10 2);
                   Demo.billed (quarter 1) (Demo.decimal 20 2)] in
  let inv := get_invoice_template (Demo.owing (quarter 0)) "0007" selected in
  quarters_of (as_float (totalHours inv)) = Some 2
  /\ sessionTotal inv = Float (S754_finite false 5404319552844596 (-54))
  /\ Demo.decimal 30 2 = S754_finite false 5404319552844595 (-54)
  /\ sessionTotal inv <> Float (Demo.decimal 30 2)
  /\ units_of (-56) (Demo.decimal 10 2) = Some 7205759403792794
  /\ units_of (-56) (Demo.decimal 20 2) = Some 14411518807585588
  /\ units_of (-56) (as_float (sessionTotal inv)) = Some 21617278211378384
  /\ 21617278211378384 <> 7205759403792794 + 14411518807585588.
Proof. vm_compute. repeat split; try reflexivity; discriminate. Qed.

(** X1. When the hours and fees of at most 1000 selected sessions and the
    running tab are multiples of 0.25 of magnitude at most 2^40, the total
    hours, the session total and the total due of the invoice are the exact
    sums: no bit is lost in the float additions. *)
Theorem quarter_amounts_are_summed_exactly (client_data : Client) (number : string)
    (selected : list Session) (hours fees : list Z) (tab : Z) :
  (length selected <= 1000)%nat ->
  List.map s_hours selected = List.map quarter hours ->
  List.map s_fee selected = List.map quarter fees ->
  c_running_tab client_data = quarter tab ->
  Forall (fun q => Z.abs q <= 2 ^ 42) hours ->
  Forall (fun q => Z.abs q <= 2 ^ 42) fees ->
  Z.abs tab <= 2 ^ 42 ->
  let inv := get_invoice_template client_data number selected in
  quarters_of (as_float (totalHours inv)) = Some (Zsum hours)
  /\ quarters_of (as_float (sessionTotal inv)) = Some (Zsum fees)
  /\ quarters_of (as_float (totalAmount inv)) = Some (Zsum fees + tab).
Proof.
  intros Hlen Hh Hf Ht Bh Bf Bt inv.
  assert (Lh : length hours = length selected)
    by (rewrite <- (List.length_map quarter hours), <- Hh; apply List.length_map).
  assert (Lf : length fees = length selected)
    by (rewrite <- (List.length_map quarter fees), <- Hf; apply List.length_map).
  pose proof (Zsum_abs_length hours _ Bh) as Sh.
  pose proof (Zsum_abs_length fees _ Bf) as Sf.
  pose proof (Zsum_abs_bound hours) as Ah.
  pose proof (Zsum_abs_bound fees) as Af.
  assert (E42 : 2 ^ 42 = 4398046511104) by reflexivity.
  assert (E53 : 2 ^ 53 = 9007199254740992) by reflexivity.
  rewrite E42 in *.
  assert (Th : as_float (totalHours inv) = quarter (Zsum hours)).
  { unfold inv. cbn [get_invoice_template totalHours]. rewrite Hh.
    apply py_sum_quarters. rewrite E53. lia. }
  assert (Tf : as_float (sessionTotal inv) = quarter (Zsum fees)).
  { unfold inv. cbn [get_invoice_template sessionTotal]. rewrite Hf.
    apply py_sum_quarters. rewrite E53. lia. }
  assert (Td : as_float (totalAmount inv) = quarter (Zsum fees + tab)).
  { assert (E : as_float (totalAmount inv)
                = PyFloat.add (as_float (sessionTotal inv)) (c_running_tab client_data)).
    { unfold inv. cbn [get_invoice_template totalAmount sessionTotal].
      destruct (py_sum (List.map s_fee selected)); reflexivity. }
    rewrite E, Tf, Ht. unfold PyFloat.add, PyFloat.prec, PyFloat.emax.
    apply add_quarter; rewrite E53; lia. }
  rewrite Th, Tf, Td.
  repeat split; apply quarters_of_quarter; rewrite E53; lia.
Qed.

Lemma quarter_amounts_are_summed_exactly_witness :
  let selected :=
    [ {| s_client := CStr "Al Lee"; s_date := 0; s_hours := quarter 4; s_fee := quarter 200 |};
      {| s_client := CStr "Al Lee"; s_date := 1; s_hours := quarter 6; s_fee := quarter 300 |} ] in
  let inv := get_invoice_template
               {| c_name := "Al Lee"; c_seq := 1; c_field_a := ""; c_field_b := quarter 0;
                  c_subjects := "Math"; c_hourly_rate := quarter 200;
                  c_running_tab := quarter (-80); c_payer_name := "Pat Lee";
                  c_payer_email := "payer@example.org" |} "0007" selected in
  quarters_of (as_float (totalHours inv)) = Some (Zsum [4; 6])
  /\ quarters_of (as_float (sessionTotal inv)) = Some (Zsum [200; 300])
  /\ quarters_of (as_float (totalAmount inv)) = Some (Zsum [200; 300] + -80).
Proof.
  intros selected.
  apply (quarter_amounts_are_summed_exactly _ "0007" selected [4; 6] [200; 300] (-80)).
  - simpl. lia.
  - reflexivity.
  - reflexivity.
  - reflexivity.
  - repeat constructor; vm_compute; discriminate.
  - repeat constructor; vm_compute; discriminate.
  - vm_compute. discriminate.
Defined.

(** ** Decimal text *)

Module DecimalFacts.
Import PyStr.

Lemma length_zeros (n : nat) : String.length (zeros n) = n.
Proof. induction n as [|n IH]; simpl; congruence. Qed.

Lemma length_app (a b : string) :
  String.length (a +:+ b) = (String.length a + String.length b)%nat.
Proof. induction a as [|c a IH]; simpl; congruence. Qed.

Lemma all_digits_zeros (n : nat) : all_digits (zeros n) = true.
Proof. induction n as [|n IH]; simpl; [reflexivity | exact IH]. Qed.

Lemma all_digits_app (a b : string) :
  all_digits (a +:+ b) = all_digits a && all_digits b.
Proof. induction a as [|c a IH]; simpl; [reflexivity | now rewrite IH, andb_assoc]. Qed.

Lemma all_digits_uint (d : Decimal.uint) :
  all_digits (NilEmpty.string_of_uint d) = true.
Proof. induction d; simpl; auto. Qed.

Lemma digit_not_space (c : ascii) : isdigit c = true -> isspace_c c = false.
Proof.
  destruct c as [[|] [|] [|] [|] [|] [|] [|] [|]]; vm_compute; congruence.
Qed.

Lemma digit_not_sign (c : ascii) :
  isdigit c = true -> Ascii.eqb c "+" = false /\ Ascii.eqb c "-" = false /\ Ascii.eqb c "_" = false.
Proof.
  intros H. repeat split; apply Ascii.eqb_neq; intros ->; discriminate.
Qed.

(** Stripping leaves a non-empty string of digits alone. *)
Lemma rstrip_digits (s : string) : all_digits s = true -> rstrip s = s.
Proof.
  induction s as [|c s IH]; simpl; [reflexivity|].
  intros H. apply andb_true_iff in H as [Hc Hs].
  rewrite (IH Hs). destruct s; [now rewrite (digit_not_space c Hc) | reflexivity].
Qed.

Lemma digits_of_digits (s : string) (prev : bool) :
  all_digits s = true -> s <> EmptyString -> digits_of prev s = Some s.
Proof.
  revert prev; induction s as [|c s IH]; intros prev H Hne; [congruence|].
  simpl in H. apply andb_true_iff in H as [Hc Hs].
  cbn [digits_of]. rewrite Hc.
  destruct s as [|c' s']; [reflexivity|].
  now rewrite (IH true Hs).
Qed.

Lemma uint_of_zeros (n : nat) (s : string) (u : Decimal.uint) :
  NilEmpty.uint_of_string s = Some u ->
  exists u', NilEmpty.uint_of_string (zeros n +:+ s) = Some u' /\ Z.of_uint u' = Z.of_uint u.
Proof.
  intros Hs. induction n as [|n (u' & Hu' & Hz)]; simpl.
  - eauto.
  - rewrite Hu'. simpl. exists (Decimal.D0 u'). split; [reflexivity | exact Hz].
Qed.

(** A non-empty string of digits, padded with zeros, reads as the same
    number when the digit limit allows. *)
Lemma nat_literal_padded (n : nat) (d : Decimal.uint) :
  d <> Decimal.Nil ->
  (n + String.length (NilEmpty.string_of_uint d) <= max_str_digits)%nat ->
  nat_literal (zeros n +:+ NilEmpty.string_of_uint d) = Some (Z.of_uint d).
Proof.
  intros Hd Hlen. unfold nat_literal.
  rewrite digits_of_digits.
  - rewrite length_app, length_zeros.
    destruct (Nat.ltb_spec max_str_digits (n + String.length (NilEmpty.string_of_uint d)))
      as [Hlt|_]; [lia|].
    destruct (uint_of_zeros n _ d (NilEmpty.usu d)) as (u' & -> & ->). reflexivity.
  - now rewrite all_digits_app, all_digits_zeros, all_digits_uint.
  - destruct d; try congruence; destruct n; discriminate.
Qed.

Lemma int_digits (s : string) (z : Z) :
  all_digits s = true -> s <> EmptyString ->
  nat_literal s = Some z -> int s = Ok z /\ int (String "-" s) = Ok (- z).
Proof.
  intros Hd Hne Hz.
  assert (Hl : lstrip s = s).
  { destruct s as [|c s]; [reflexivity|]. simpl in *.
    apply andb_true_iff in Hd as [Hc _]. now rewrite (digit_not_space c Hc). }
  split.
  - unfold int, strip. rewrite Hl, (rstrip_digits s Hd).
    destruct s as [|c s]; [congruence|].
    simpl in Hd. apply andb_true_iff in Hd as [Hc _].
    destruct (digit_not_sign c Hc) as (-> & -> & _). now rewrite Hz.
  - unfold int, strip. cbn [lstrip]. change (isspace_c "-") with false. cbv iota.
    cbn [rstrip]. rewrite (rstrip_digits s Hd).
    destruct s as [|c s]; [congruence|]. cbn [Ascii.eqb Bool.eqb]. cbv iota.
    now rewrite Hz.
Qed.

Lemma str_pos (p : positive) :
  str (Z.pos p) = NilEmpty.string_of_uint (Pos.to_uint p).
Proof.
  unfold str. cbn [Z.to_int NilZero.string_of_int NilZero.string_of_uint].
  pose proof (DecimalPos.Unsigned.to_uint_nonnil p).
  destruct (Pos.to_uint p); try reflexivity. congruence.
Qed.

Lemma str_neg (p : positive) :
  str (Z.neg p) = String "-" (NilEmpty.string_of_uint (Pos.to_uint p)).
Proof.
  unfold str. cbn [Z.to_int NilZero.string_of_int NilZero.string_of_uint].
  pose proof (DecimalPos.Unsigned.to_uint_nonnil p).
  destruct (Pos.to_uint p); try reflexivity. congruence.
Qed.

Lemma of_uint_to_uint (p : positive) : Z.of_uint (Pos.to_uint p) = Z.pos p.
Proof. unfold Z.of_uint. now rewrite DecimalPos.Unsigned.of_to. Qed.

Lemma uint_string_nonempty (d : Decimal.uint) :
  d <> Decimal.Nil -> NilEmpty.string_of_uint d <> EmptyString.
Proof. destruct d; try congruence; discriminate. Qed.

Lemma str_nonneg (z : Z) :
  0 <= z ->
  exists d, d <> Decimal.Nil /\ str z = NilEmpty.string_of_uint d /\ Z.of_uint d = z.
Proof.
  intros Hz. destruct z as [|p|p]; [| |lia].
  - exists (Decimal.D0 Decimal.Nil). repeat split. discriminate.
  - exists (Pos.to_uint p). split; [apply DecimalPos.Unsigned.to_uint_nonnil|].
    split; [apply str_pos | apply of_uint_to_uint].
Qed.

Lemma zfill_digits (w : nat) (s : string) :
  all_digits s = true -> zfill w s = zeros (w - String.length s) +:+ s.
Proof.
  intros Hd. unfold zfill. destruct s as [|c s].
  - now rewrite PyStrFacts.app_empty.
  - simpl in Hd. apply andb_true_iff in Hd as [Hc _].
    destruct (digit_not_sign c Hc) as (-> & -> & _). reflexivity.
Qed.

(** The decimal text of an integer, padded by [zfill], reads back as the
    integer when neither the text nor the padding goes beyond the digit
    limit. *)
Lemma int_zfill_str (w : nat) (z : Z) :
  (w <= max_str_digits)%nat ->
  (String.length (str (Z.abs z)) <= max_str_digits)%nat ->
  int (zfill w (str z)) = Ok z.
Proof.
  intros Hw Hlen.
  destruct (Z.neg_nonneg_cases z) as [Hneg|Hnn].
  - destruct z as [|p|p]; try lia. rewrite str_neg.
    change (Z.abs (Z.neg p)) with (Z.pos p) in Hlen. rewrite str_pos in Hlen.
    set (ds := NilEmpty.string_of_uint (Pos.to_uint p)) in *.
    assert (Ez : zfill w (String "-" ds)
                 = String "-" (zeros (w - String.length (String "-" ds)) +:+ ds))
      by reflexivity.
    rewrite Ez.
    pose proof (nat_literal_padded (w - String.length (String "-" ds)) (Pos.to_uint p)
                  (DecimalPos.Unsigned.to_uint_nonnil p)) as Hlit.
    fold ds in Hlit. rewrite of_uint_to_uint in Hlit.
    specialize (Hlit ltac:(cbn [String.length]; lia)).
    apply (int_digits _ (Z.pos p)) in Hlit as [_ Hm]; [exact Hm| |].
    + unfold ds. now rewrite all_digits_app, all_digits_zeros, all_digits_uint.
    + unfold ds. pose proof (uint_string_nonempty _ (DecimalPos.Unsigned.to_uint_nonnil p)).
      destruct (NilEmpty.string_of_uint (Pos.to_uint p)); [congruence|].
      destruct (w - _)%nat; discriminate.
  - rewrite Z.abs_eq in Hlen by exact Hnn.
    destruct (str_nonneg z Hnn) as (d & Hd & E & <-). rewrite E in *.
    rewrite zfill_digits by apply all_digits_uint.
    pose proof (nat_literal_padded (w - String.length (NilEmpty.string_of_uint d)) d Hd
                  ltac:(lia)) as Hlit.
    apply (int_digits _ (Z.of_uint d)) in Hlit as [Hp _]; [exact Hp| |].
    + now rewrite all_digits_app, all_digits_zeros, all_digits_uint.
    + pose proof (uint_string_nonempty _ Hd).
      destruct (NilEmpty.string_of_uint d); [congruence|].
      destruct (w - _)%nat; discriminate.
Qed.

End DecimalFacts.

(** X2. [zfill] never shortens: the padded text has the width asked for or
    its own length, whichever is larger, and a text at least that wide is
    returned as it is, so a counter beyond four digits is not cut. *)
Theorem zfill_pads_never_cuts (width : nat) (s : string) :
  String.length (PyStr.zfill width s) = Nat.max width (String.length s)
  /\ ((width <= String.length s)%nat -> PyStr.zfill width s = s).
Proof.
  unfold PyStr.zfill. destruct s as [|c s].
  - split; [rewrite DecimalFacts.length_zeros; simpl; lia|].
    simpl. intros Hw. replace width with 0%nat by lia. reflexivity.
  - split.
    + destruct (Ascii.eqb c "+" || Ascii.eqb c "-")%bool; simpl;
        rewrite DecimalFacts.length_app, DecimalFacts.length_zeros; simpl; lia.
    + intros Hw. replace (width - String.length (String c s))%nat with 0%nat by lia.
      destruct (Ascii.eqb c "+" || Ascii.eqb c "-")%bool; reflexivity.
Qed.


(** X3. A batch that succeeds advances the invoice counter by the number of
    names processed: when the counter read [n] before the batch, it reads
    [n] plus the length of the batch after it. *)
Theorem batch_advances_counter `{Host} (names : list string) (w w' : World)
    (v : string) (n : Z) :
  main names w = (w', Ok tt) ->
  acell_value (sheet w) INVOICE_NUMBER_RANGE = Ok (Some v) ->
  PyStr.int (PyStr.zfill 4 v) = Ok n ->
  exists v',
    acell_value (sheet w') INVOICE_NUMBER_RANGE = Ok (Some v')
    /\ PyStr.int (PyStr.zfill 4 v') = Ok (n + Z.of_nat (length names)).
Proof.
  revert w v n; induction names as [|name names IH]; intros w v n Hrun Hv Hn.
  - injection Hrun as <-. exists v. split; [exact Hv|].
    rewrite Hn. f_equal. cbn [length]. lia.
  - unfold main in Hrun. cbn [for_each] in Hrun.
    apply bind_ok_inv in Hrun as ([] & w1 & Hone & Hrest).
    apply run_ok_counter in Hone as (p & n0 & rc & Hp & Hn0 & Hs & Hrc & Hcell).
    apply pull_info_invoice_number in Hp as (v0 & Hv0 & Hinv).
    rewrite Hv in Hv0. injection Hv0 as <-.
    rewrite Hinv, Hn in Hn0. injection Hn0 as <-.
    destruct (IH w1 (PyStr.str (n + 1)) (n + 1) Hrest) as (v' & Hv' & Hn').
    + unfold acell_value. rewrite Hrc. cbn [rbind]. now rewrite Hcell.
    + apply DecimalFacts.int_zfill_str; [unfold PyStr.max_str_digits; lia|].
      apply (to_str_ok _ _ Hs).
    + exists v'. split; [exact Hv'|]. rewrite Hn'. f_equal. cbn [length]. lia.
Qed.

Lemma batch_advances_counter_witness :
  exists v',
    acell_value (sheet (fst (main ["Cy Poe"; "Al Lee"] Demo.world0))) INVOICE_NUMBER_RANGE
    = Ok (Some v')
    /\ PyStr.int (PyStr.zfill 4 v') = Ok (7 + Z.of_nat (length ["Cy Poe"; "Al Lee"])).
Proof.
  apply (batch_advances_counter ["Cy Poe"; "Al Lee"] Demo.world0
           (fst (main ["Cy Poe"; "Al Lee"] Demo.world0)) "0007" 7).
  - vm_compute. reflexivity.
  - vm_compute. reflexivity.
  - reflexivity.
Defined.

(** X4. Whatever a run of [create_and_send_invoice] does and however it
    ends, the sheet keeps its title and every cell other than the counter
    cell and a cell addressed by the payer arithmetic of line 103 keeps its
    value; the files and the outbox only grow, by one entry at most. *)
Theorem run_changes_at_most_two_cells `{Host} (name : string) (w : World) :
  let w' := fst (create_and_send_invoice name w) in
  title (sheet w') = title (sheet w)
  /\ (forall rc, grid (sheet w') !! rc <> grid (sheet w) !! rc ->
        A1.a1_to_rowcol INVOICE_NUMBER_RANGE = Ok rc
        \/ exists i label, payer_label i = Ok label /\ A1.a1_to_rowcol label = Ok rc)
  /\ (files w' = files w \/ exists f, files w' = f :: files w)
  /\ (outbox w' = outbox w \/ exists msg, outbox w' = msg :: outbox w).
Proof.
  destruct (run_cases name w)
    as [(e & E)|[(e & f & d & E)
                |(p & cur & cd & path & msg & d & _ & _ & _ & _ & _ & _ & _ & _ & E)]];
    rewrite E; cbn [fst].
  - repeat split; auto. congruence.
  - cbn. repeat split; eauto. congruence.
  - set (w1 := sent w _ _ _).
    destruct (post_send_cases p cd w1) as (w2 & r & -> & Hf & Ho & Ht & Hg).
    cbn [fst]. rewrite Hf, Ho, Ht. repeat split; eauto.
Qed.

(** X5. No cell of the sheet is written before the message has been sent:
    a run that sends nothing leaves the sheet as it was and does not
    succeed; a run that sends a message sends it to the payer address of
    the first client row with the requested name. *)
Theorem sheet_changes_only_after_mail `{Host} (name : string) (w : World) :
  let w' := fst (create_and_send_invoice name w) in
  let r := snd (create_and_send_invoice name w) in
  (outbox w' = outbox w /\ sheet w' = sheet w /\ exists e, r = Raise e)
  \/ (exists msg p current client_data,
        outbox w' = msg :: outbox w
        /\ pull_info (sheet w) = Ok p
        /\ select name p = Ok (current, client_data)
        /\ find_client name (all_clients p) = Ok client_data
        /\ e_to msg = c_payer_email client_data).
Proof.
  destruct (run_cases name w)
    as [(e & E)|[(e & f & d & E)
                |(p & cur & cd & path & msg & d & Hp & Hsel & Hto & _ & _ & _ & _ & _ & E)]];
    rewrite E; cbn [fst snd].
  - left. eauto.
  - left. cbn. eauto.
  - right. set (w1 := sent w _ _ _).
    destruct (post_send_cases p cd w1) as (w2 & r & -> & Hf & Ho & Ht & Hg).
    cbn [fst]. exists msg, p, cur, cd. rewrite Ho. repeat split; try assumption.
    unfold select in Hsel.
    apply rbind_ok_inv in Hsel as (mine & _ & Hsel).
    apply rbind_ok_inv in Hsel as (cur' & _ & Hsel).
    apply rbind_ok_inv in Hsel as (cd' & Hfind & Hsel).
    injection Hsel as _ <-. exact Hfind.
Qed.

(** ** Which payer cell is cleared *)

Section Clearing.
Context `{Host}.

Lemma clear_marker_first (rows : list Client) (payer : string) (i i0 : nat)
    (w : World) (label : string) (rc : nat * nat) :
  (exists row, nth_error rows i = Some row /\ c_payer_name row = payer) ->
  (forall j row, (j < i)%nat -> nth_error rows j = Some row -> c_payer_name row <> payer) ->
  payer_label (i0 + i) = Ok label ->
  A1.a1_to_rowcol label = Ok rc ->
  clear_marker i0 rows payer w
  = (with_sheet w (set_cell (sheet w) rc (PyStr.drop_last payer)), Ok tt).
Proof.
  revert i i0; induction rows as [|row rows IH]; intros i i0 (r & Hr & Hp) Hbefore Hl Hrc.
  - destruct i; discriminate.
  - cbn [clear_marker]. destruct i as [|i].
    + injection Hr as ->. rewrite Hp, String.eqb_refl.
      rewrite Nat.add_0_r in Hl. unfold bind, lift. rewrite Hl.
      unfold update_acell, sheet_update_acell. rewrite Hrc. reflexivity.
    + destruct (String.eqb_spec (c_payer_name row) payer) as [E|_].
      * exfalso. apply (Hbefore 0%nat row); [lia | reflexivity | exact E].
      * apply (IH i (S i0)).
        -- exists r. split; assumption.
        -- intros j row' Hj Hrow'. apply (Hbefore (S j) row'); [lia | exact Hrow'].
        -- now rewrite Nat.add_succ_comm.
        -- exact Hrc.
Qed.

End Clearing.

(** X6. When the payer name ends with '!', the clearing step writes the
    name without its last character into the payer cell addressed for the
    first client row that has this payer name, succeeds, and leaves every
    other cell as it was. *)
Theorem marker_cleared_in_first_row_of_payer `{Host} (p : Pulled) (client_data : Client)
    (w : World) (i : nat) (label : string) (rc : nat * nat) :
  PyStr.last (c_payer_name client_data) = Ok "!"%char ->
  (exists row, nth_error (all_clients p) i = Some row
               /\ c_payer_name row = c_payer_name client_data) ->
  (forall j row, (j < i)%nat -> nth_error (all_clients p) j = Some row ->
                 c_payer_name row <> c_payer_name client_data) ->
  payer_label i = Ok label ->
  A1.a1_to_rowcol label = Ok rc ->
  let w' := fst (update_payer p client_data w) in
  snd (update_payer p client_data w) = Ok tt
  /\ grid (sheet w') !! rc = Some (Text (PyStr.drop_last (c_payer_name client_data)))
  /\ (forall rc', rc' <> rc -> grid (sheet w') !! rc' = grid (sheet w) !! rc')
  /\ files w' = files w /\ outbox w' = outbox w.
Proof.
  intros Hmark Hrow Hbefore Hl Hrc.
  unfold update_payer, bind, lift. rewrite Hmark. cbn [Ascii.eqb Bool.eqb]. cbv iota.
  rewrite (clear_marker_first _ _ i 0 w label rc Hrow Hbefore Hl Hrc).
  cbn. repeat split.
  - apply lookup_insert_eq.
  - intros rc' Hne. apply lookup_insert_ne. congruence.
Qed.

Lemma marker_cleared_in_first_row_of_payer_witness :
  let al := {| c_name := "Al Lee"; c_seq := 1; c_field_a := "a"; c_field_b := PyFloat.pzero;
               c_subjects := "Math"; c_hourly_rate := Demo.decimal 5000 2;
               c_running_tab := PyFloat.pzero; c_payer_name := "Pat Lee!";
               c_payer_email := "payer@example.org" |} in
  let w' := fst (update_payer Demo.pulled0 al Demo.world0) in
  snd (update_payer Demo.pulled0 al Demo.world0) = Ok tt
  /\ grid (sheet w') !! (2%nat, 13%nat) = Some (Text (PyStr.drop_last "Pat Lee!"))
  /\ (forall rc', rc' <> (2%nat, 13%nat) ->
        grid (sheet w') !! rc' = grid (sheet Demo.world0) !! rc')
  /\ files w' = files Demo.world0 /\ outbox w' = outbox Demo.world0.
Proof.
  intros al.
  apply (marker_cleared_in_first_row_of_payer Demo.pulled0 al Demo.world0 0 "M2" (2%nat, 13%nat)).
  - reflexivity.
  - eexists. split; reflexivity.
  - intros j row Hj. lia.
  - reflexivity.
  - reflexivity.
Defined.

(** ** The address arithmetic of line 103 *)

Module AddressFacts.
Import PyStr.

Lemma nzhead_not_D0 (d x : Decimal.uint) : Decimal.nzhead d <> Decimal.D0 x.
Proof. induction d; cbn [Decimal.nzhead]; try discriminate; exact IHd. Qed.

Lemma unorm_to_uint (p : positive) : Decimal.unorm (Pos.to_uint p) = Pos.to_uint p.
Proof.
  rewrite <- (DecimalPos.Unsigned.to_of (Pos.to_uint p)).
  now rewrite DecimalPos.Unsigned.of_to.
Qed.

(** The decimal text of a positive number starts with a digit other than
    0. *)
Lemma to_uint_head (p : positive) :
  exists c s, NilEmpty.string_of_uint (Pos.to_uint p) = String c s
              /\ Ascii.eqb c "0" = false /\ isdigit c = true.
Proof.
  pose proof (unorm_to_uint p) as Hn.
  pose proof (DecimalPos.Unsigned.to_uint_nonnil p) as Hnil.
  destruct (Pos.to_uint p) as [|d|d|d|d|d|d|d|d|d|d] eqn:E;
    try congruence;
    try (cbn [NilEmpty.string_of_uint]; eexists _, _; repeat split; reflexivity).
  exfalso. unfold Decimal.unorm in Hn. cbn [Decimal.nzhead] in Hn.
  destruct (Decimal.nzhead d) eqn:Hd.
  - injection Hn as <-.
    apply (DecimalPos.Unsigned.to_uint_nonzero p). exact E.
  - apply (nzhead_not_D0 d d). congruence.
  - discriminate. - discriminate. - discriminate. - discriminate. - discriminate.
  - discriminate. - discriminate. - discriminate. - discriminate.
Qed.

Lemma digit_not_alpha (c : ascii) : isdigit c = true -> A1.isalpha c = false.
Proof. destruct c as [[|] [|] [|] [|] [|] [|] [|] [|]]; vm_compute; congruence. Qed.

Lemma letters_digit (c : ascii) (s : string) :
  isdigit c = true -> A1.letters (String c s) = (EmptyString, String c s).
Proof. intros Hc. cbn [A1.letters]. now rewrite (digit_not_alpha c Hc). Qed.

Lemma digits_all (s : string) :
  all_digits s = true -> A1.digits s = (s, EmptyString).
Proof.
  induction s as [|c s IH]; [reflexivity|]. cbn [all_digits A1.digits].
  intros Hd. apply andb_true_iff in Hd as [Hc Hs]. now rewrite Hc, (IH Hs).
Qed.

Lemma digits_colon (s : string) :
  A1.digits (String ":" s) = (EmptyString, String ":" s).
Proof. reflexivity. Qed.

Lemma of_lu_nat_N (l : Decimal.uint) :
  N.of_nat (DecimalNat.Unsigned.of_lu l) = DecimalPos.Unsigned.of_lu l.
Proof.
  induction l; cbn [DecimalNat.Unsigned.of_lu DecimalPos.Unsigned.of_lu];
    rewrite <- ?IHl; try reflexivity; lia.
Qed.

Lemma nat_of_uint_Z (d : Decimal.uint) : Z.of_nat (Nat.of_uint d) = Z.of_uint d.
Proof.
  unfold Z.of_uint.
  rewrite DecimalPos.Unsigned.of_uint_alt, DecimalNat.Unsigned.of_uint_alt.
  rewrite <- of_lu_nat_N. now rewrite nat_N_Z.
Qed.

(** The row part of a label: the decimal text of a positive number reads
    as that number. *)
Lemma row_number_str (p : positive) :
  A1.row_number (str (Z.pos p)) = Some (Pos.to_nat p).
Proof.
  rewrite DecimalFacts.str_pos.
  destruct (to_uint_head p) as (c & s & E & Hc & _).
  unfold A1.row_number. rewrite E, Hc, <- E, NilEmpty.usu.
  f_equal. apply Nat2Z.inj. rewrite nat_of_uint_Z, DecimalFacts.of_uint_to_uint. lia.
Qed.

(** A label made of one letter and the text of a positive number. *)
Lemma parse_letter_number (c : ascii) (p : positive) :
  A1.isalpha c = true ->
  A1.parse (String c (str (Z.pos p)))
  = Some (Pos.to_nat p, N.to_nat (code (upper_char c) - 64), EmptyString).
Proof.
  intros Hc. unfold A1.parse. cbn [A1.letters]. rewrite Hc.
  pose proof (row_number_str p) as Hrow.
  rewrite DecimalFacts.str_pos in *.
  destruct (to_uint_head p) as (c1 & s1 & E & _ & Hd).
  rewrite E at 1. rewrite (letters_digit c1 s1 Hd), <- E.
  rewrite digits_all by apply DecimalFacts.all_digits_uint.
  rewrite Hrow. cbn [A1.column]. reflexivity.
Qed.

Lemma column_shift (c : ascii) :
  ((65 <=? code c) && (code c <=? 83))%N = true ->
  A1.isalpha c = true
  /\ upper_char c = c
  /\ A1.isalpha (shift_char c 7) = true
  /\ N.to_nat (code (upper_char (shift_char c 7)) - 64) = (N.to_nat (code c - 64) + 7)%nat.
Proof.
  destruct c as [[|] [|] [|] [|] [|] [|] [|] [|]]; vm_compute; intros Hc;
    try discriminate; repeat split.
Qed.

Lemma digit_value (d : ascii) :
  ((49 <=? code d) && (code d <=? 57))%N = true ->
  isdigit d = true
  /\ exists p, int (String d EmptyString) = Ok (Z.pos p)
               /\ A1.row_number (String d EmptyString) = Some (Pos.to_nat p).
Proof.
  destruct d as [[|] [|] [|] [|] [|] [|] [|] [|]]; vm_compute; intros Hd;
    try discriminate; (split; [reflexivity|]); eexists; split; reflexivity.
Qed.

End AddressFacts.

(** X7. When CLIENT_RANGE starts with one capital letter from A to S, one
    digit from 1 to 9 and a colon, the label built for index [i] addresses
    the cell [i] rows below the first row of the range and seven columns to
    the right of its first column: the cell that [all_clients[i][7]] was
    read from. *)
Theorem payer_label_is_row_and_column `{Host} (c d : ascii) (rest : string) (i : nat) :
  CLIENT_RANGE = String c (String d (String ":" rest)) ->
  ((65 <=? PyStr.code c) && (PyStr.code c <=? 83))%N = true ->
  ((49 <=? PyStr.code d) && (PyStr.code d <=? 57))%N = true ->
  exists label r0 c0,
    A1.parse CLIENT_RANGE = Some (r0, c0, String ":" rest)
    /\ payer_label i = Ok label
    /\ A1.a1_to_rowcol label = Ok ((r0 + i)%nat, (c0 + 7)%nat).
Proof.
  intros Hrange Hc Hd.
  destruct (AddressFacts.column_shift c Hc) as (Ha & Hu & Hs & Hcol).
  destruct (AddressFacts.digit_value d Hd) as (Hdig & p & Hint & Hrow).
  assert (Hpos : Z.of_nat i + Z.pos p = Z.pos (Pos.of_nat (i + Pos.to_nat p))) by lia.
  exists (String (PyStr.shift_char c 7) (PyStr.str (Z.of_nat i + Z.pos p))),
         (Pos.to_nat p), (N.to_nat (PyStr.code c - 64)).
  split; [|split].
  - rewrite Hrange. unfold A1.parse.
    assert (Hl : A1.letters (String c (String d (String ":" rest)))
                 = (String c EmptyString, String d (String ":" rest))).
    { cbn [A1.letters]. now rewrite Ha, (AddressFacts.digit_not_alpha d Hdig). }
    assert (Hg : A1.digits (String d (String ":" rest))
                 = (String d EmptyString, String ":" rest)).
    { change (A1.digits (String d (String ":" rest)))
        with (if PyStr.isdigit d
              then let '(x, r) := A1.digits (String ":" rest) in (String d x, r)
              else (EmptyString, String d (String ":" rest))).
      now rewrite Hdig, AddressFacts.digits_colon. }
    rewrite Hl, Hg, Hrow. cbn [A1.column]. rewrite Hu. reflexivity.
  - unfold payer_label. rewrite Hrange. cbn [String.get rbind]. rewrite Hint. reflexivity.
  - unfold A1.a1_to_rowcol. rewrite Hpos.
    rewrite (AddressFacts.parse_letter_number _ _ Hs), Hcol.
    do 3 f_equal. lia.
Qed.

Lemma payer_label_is_row_and_column_witness :
  exists label r0 c0,
    A1.parse CLIENT_RANGE = Some (r0, c0, String ":" "N9")
    /\ payer_label 1 = Ok label
    /\ A1.a1_to_rowcol label = Ok ((r0 + 1)%nat, (c0 + 7)%nat).
Proof.
  apply (payer_label_is_row_and_column (H := Demo.host) "F" "2" "N9" 1).
  - reflexivity.
  - reflexivity.
  - reflexivity.
Defined.

(** ** Selection *)

(** X8. When no row of the session range is empty, the sessions of a client
    are the parsed rows whose first cell is the client's name, in order:
    rows of other clients are not parsed, so a malformed row of another
    client cannot make this client's run fail. Every session returned
    carries the client's name. *)
Theorem client_sessions_reads_own_rows `{Host} (name : string) (rows : list (list cell)) :
  Forall (fun row => row <> []) rows ->
  client_sessions name rows = rmap parse_session (List.filter (row_is name) rows)
  /\ (forall sessions, client_sessions name rows = Ok sessions ->
        Forall (fun s => s_client s = CStr name) sessions).
Proof.
  intros Hne. split.
  - induction Hne as [|row rows Hrow _ IH]; [reflexivity|].
    destruct row as [|r0 row]; [congruence|].
    cbn [client_sessions List.filter row_is index nth_error rbind].
    destruct (cell_is r0 name); [|exact IH].
    cbn [rmap]. now rewrite IH.
  - clear Hne. induction rows as [|row rows IH]; intros sessions Hs.
    + injection Hs as <-. constructor.
    + cbn [client_sessions] in Hs.
      apply rbind_ok_inv in Hs as (r0 & Hr0 & Hs).
      destruct (cell_is r0 name) eqn:Hc; [|now apply IH].
      apply rbind_ok_inv in Hs as (s & Hparse & Hs).
      apply rbind_ok_inv in Hs as (ss & Hss & Hs). injection Hs as <-.
      constructor; [|now apply IH].
      unfold parse_session in Hparse.
      apply rbind_ok_inv in Hparse as (r0' & Hr0' & Hparse).
      rewrite Hr0 in Hr0'. injection Hr0' as <-.
      do 6 (apply rbind_ok_inv in Hparse as (? & _ & Hparse)).
      injection Hparse as <-. cbn [s_client].
      destruct r0 as [s0|n0]; [|discriminate].
      cbn [cell_is] in Hc. apply String.eqb_eq in Hc. now subst.
Qed.

Lemma client_sessions_reads_own_rows_witness :
  client_sessions "Bo Lee" (all_sessions Demo.pulled0)
  = rmap parse_session (List.filter (row_is "Bo Lee") (all_sessions Demo.pulled0))
  /\ (forall sessions, client_sessions "Bo Lee" (all_sessions Demo.pulled0) = Ok sessions ->
        Forall (fun s => s_client s = CStr "Bo Lee") sessions).
Proof.
  apply (client_sessions_reads_own_rows "Bo Lee" (all_sessions Demo.pulled0)).
  repeat constructor; discriminate.
Defined.

(** X9. [find_client] returns the first client row with the requested
    name, and raises [StopIteration], never anything else, exactly when no
    row has that name. *)
Theorem find_client_first_match (name : string) (clients : list Client) :
  (forall c, find_client name clients = Ok c <->
     exists before after,
       clients = (before ++ c :: after)%list
       /\ c_name c = name
       /\ Forall (fun x => c_name x <> name) before)
  /\ (find_client name clients = Raise StopIteration <->
        Forall (fun x => c_name x <> name) clients)
  /\ (forall e, find_client name clients = Raise e -> e = StopIteration).
Proof.
  induction clients as [|x clients (IHok & IHstop & IHexn)].
  - repeat split.
    + discriminate.
    + intros (before & after & E & _). destruct before; discriminate.
    + constructor.
    + intros e [= <-]. reflexivity.
  - cbn [find_client]. destruct (String.eqb_spec (c_name x) name) as [Ex|Nx].
    + repeat split.
      * intros [= <-]. exists [], clients. repeat split; [exact Ex | constructor].
      * intros (before & after & E & Hc & Hb).
        destruct before as [|b before]; cbn in E.
        -- now injection E as ->.
        -- injection E as -> _. inversion Hb. congruence.
      * discriminate.
      * intros Hall. inversion Hall. congruence.
      * discriminate.
    + repeat split.
      * intros Hc. apply IHok in Hc as (before & after & -> & Hc & Hb).
        exists (x :: before), after. repeat split; [exact Hc | now constructor].
      * intros (before & after & E & Hc & Hb).
        destruct before as [|b before]; cbn in E.
        -- injection E as -> _. congruence.
        -- injection E as -> ->. inversion Hb. apply IHok. eauto.
      * intros Hs. constructor; [exact Nx | now apply IHstop].
      * intros Hall. inversion Hall. now apply IHstop.
      * exact IHexn.
Qed.

(** X10. With at least two cutoff dates, the past sessions of sketch.py
    are the sessions dated before the window start, no session is both past
    and current, and when the window start is not after its end every
    session that is neither is dated on or after the window end. *)
Theorem past_and_current_partition (lo hi : datetime) (more : list datetime)
    (sessions : list Session) :
  past_sessions (lo :: hi :: more) sessions
  = Ok (List.filter (fun s => s_date s <? lo) sessions)
  /\ (forall s past current,
        past_sessions (lo :: hi :: more) sessions = Ok past ->
        current_sessions (lo :: hi :: more) sessions = Ok current ->
        (In s past -> ~ In s current)
        /\ (lo <= hi -> In s sessions -> In s past \/ In s current \/ hi <= s_date s)).
Proof.
  assert (Hpast : past_sessions (lo :: hi :: more) sessions
                  = Ok (List.filter (fun s => s_date s <? lo) sessions))
    by (apply rfilter_total; intros s _; reflexivity).
  assert (Hcur : current_sessions (lo :: hi :: more) sessions
                 = Ok (List.filter (fun s => (lo <=? s_date s) && (s_date s <? hi)) sessions)).
  { apply rfilter_total. intros s _. unfold in_window. cbn [index nth_error rbind].
    destruct (lo <=? s_date s); reflexivity. }
  split; [exact Hpast|].
  intros s past current Hp Hc. rewrite Hpast in Hp. rewrite Hcur in Hc.
  injection Hp as <-. injection Hc as <-.
  rewrite !List.filter_In, andb_true_iff, Z.leb_le, !Z.ltb_lt. split.
  - intros [_ Hs] [_ [Hl _]]. lia.
  - intros Hle Hin. destruct (Z.lt_ge_cases (s_date s) lo); [now left; split|].
    destruct (Z.lt_ge_cases (s_date s) hi); [right; left; split; [exact Hin | lia] | right; right; lia].
Qed.

(** ** The names found without command-line arguments *)

Section DiscoveryFacts.
Context `{Host}.

(** The window test of [__main__] on a raw row is the window test of the
    run on the parsed row. *)
Lemma parse_session_window (cutoffs : list datetime) (row : list cell) (s : Session) :
  parse_session row = Ok s -> row_in_window cutoffs row = in_window cutoffs s.
Proof.
  unfold parse_session. intros Hs.
  apply rbind_ok_inv in Hs as (r0 & _ & Hs).
  apply rbind_ok_inv in Hs as (r1 & Hr1 & Hs).
  apply rbind_ok_inv in Hs as (d & Hd & Hs).
  do 4 (apply rbind_ok_inv in Hs as (? & _ & Hs)).
  injection Hs as <-. unfold row_in_window, in_window. cbn [s_date].
  destruct (index cutoffs 0) as [lo|e]; [|reflexivity].
  cbn [rbind]. rewrite Hr1. cbn [rbind]. rewrite Hd. reflexivity.
Qed.

Lemma discover_from_iff (cutoffs : list datetime) (name : string) (rows : list (list cell)) :
  forall names mine current,
    discover_from cutoffs rows = Ok names ->
    client_sessions name rows = Ok mine ->
    current_sessions cutoffs mine = Ok current ->
    (In (CStr name) names <-> current <> []).
Proof.
  induction rows as [|row rows IH]; intros names mine current Hn Hm Hc.
  - injection Hn as <-. injection Hm as <-. injection Hc as <-.
    split; [intros [] | congruence].
  - cbn [discover_from] in Hn. cbn [client_sessions] in Hm.
    apply rbind_ok_inv in Hn as (b & Hb & Hn).
    apply rbind_ok_inv in Hm as (r0 & Hr0 & Hm).
    destruct (cell_is r0 name) eqn:Hcell.
    + apply rbind_ok_inv in Hm as (s & Hs & Hm).
      apply rbind_ok_inv in Hm as (ss & Hss & Hm). injection Hm as <-.
      unfold current_sessions in Hc. cbn [rfilter] in Hc.
      apply rbind_ok_inv in Hc as (b' & Hb' & Hc).
      apply rbind_ok_inv in Hc as (cur' & Hcur' & Hc). injection Hc as <-.
      rewrite (parse_session_window cutoffs row s Hs), Hb' in Hb. injection Hb as <-.
      destruct r0 as [s0|n0]; [|discriminate].
      cbn [cell_is] in Hcell. apply String.eqb_eq in Hcell. subst s0.
      destruct b'.
      * apply rbind_ok_inv in Hn as (r0' & Hr0' & Hn).
        rewrite Hr0 in Hr0'. injection Hr0' as <-.
        apply rbind_ok_inv in Hn as (names' & _ & Hn). injection Hn as <-.
        split; [congruence | intros _; left; reflexivity].
      * apply (IH names ss cur' Hn Hss Hcur').
    + assert (Hne : r0 <> CStr name).
      { intros ->. cbn [cell_is] in Hcell. now rewrite String.eqb_refl in Hcell. }
      destruct b.
      * apply rbind_ok_inv in Hn as (r0' & Hr0' & Hn).
        rewrite Hr0 in Hr0'. injection Hr0' as <-.
        apply rbind_ok_inv in Hn as (names' & Hnames' & Hn). injection Hn as <-.
        rewrite <- (IH names' mine current Hnames' Hm Hc).
        split; [intros [E|Hin]; [congruence | exact Hin] | intros Hin; right; exact Hin].
      * apply (IH names mine current Hn Hm Hc).
Qed.

Lemma pull_info_parts (sh : Sheet) (p : Pulled) :
  pull_info sh = Ok p ->
  sheet_get_unformatted sh SESSION_RANGE = Ok (all_sessions p)
  /\ exists cutoff_rows,
       sheet_get_unformatted sh CUTOFF_RANGE = Ok cutoff_rows
       /\ rmap (fun row => let? r0 := index row 0 in parse_date r0) cutoff_rows
          = Ok (cutoff_dates p).
Proof.
  unfold pull_info. intros Hp.
  apply rbind_ok_inv in Hp as (sessions & Hs & Hp).
  do 2 (apply rbind_ok_inv in Hp as (? & _ & Hp)).
  apply rbind_ok_inv in Hp as (cutoff_rows & Hrows & Hp).
  apply rbind_ok_inv in Hp as (cutoffs & Hcut & Hp).
  apply rbind_ok_inv in Hp as ([v|] & _ & Hp); [|discriminate].
  injection Hp as <-. cbn [all_sessions cutoff_dates]. eauto.
Qed.

End DiscoveryFacts.

(** X11. A name is found by the loop of [__main__] exactly when the run for
    that name selects at least one session: a client without a session in
    the window is never processed unless named on the command line. *)
Theorem discovered_iff_has_current_sessions `{Host} (sh : Sheet) (p : Pulled)
    (names : list cell) (name : string) (mine current : list Session) :
  discover sh = Ok names ->
  pull_info sh = Ok p ->
  client_sessions name (all_sessions p) = Ok mine ->
  current_sessions (cutoff_dates p) mine = Ok current ->
  (In (CStr name) names <-> current <> []).
Proof.
  intros Hd Hp Hm Hc.
  destruct (pull_info_parts sh p Hp) as (Hs & cutoff_rows & Hrows & Hcut).
  unfold discover in Hd. rewrite Hrows in Hd. cbn [rbind] in Hd.
  rewrite Hcut in Hd. cbn [rbind] in Hd. rewrite Hs in Hd. cbn [rbind] in Hd.
  exact (discover_from_iff _ name _ names mine current Hd Hm Hc).
Qed.

Lemma discovered_iff_has_current_sessions_witness :
  In (CStr "Cy Poe") [CStr "Al Lee"; CStr "Al Lee"; CStr "Bo Lee"] <-> @nil Session <> [].
Proof.
  apply (discovered_iff_has_current_sessions Demo.sheet0 Demo.pulled0
           [CStr "Al Lee"; CStr "Al Lee"; CStr "Bo Lee"] "Cy Poe" [] []).
  - vm_compute. reflexivity.
  - vm_compute. reflexivity.
  - vm_compute. reflexivity.
  - reflexivity.
Defined.

(** ** The earlier pipeline *)

(** X12. A run of sketch.py's [create_and_send_invoice] never writes a
    payer cell: whatever it does and however it ends, the sheet keeps its
    title and every cell other than the counter cell keeps its value, and a
    message it sends is the standard one, marker or not. *)
Theorem sketch_run_changes_only_the_counter `{Host} (name : string) (w : World) :
  let w' := fst (Sketch.create_and_send_invoice name w) in
  title (sheet w') = title (sheet w)
  /\ (forall rc, grid (sheet w') !! rc <> grid (sheet w) !! rc ->
        A1.a1_to_rowcol INVOICE_NUMBER_RANGE = Ok rc)
  /\ (outbox w' = outbox w
      \/ exists msg, outbox w' = msg :: outbox w /\ e_variant msg = Standard).
Proof.
  unfold Sketch.create_and_send_invoice, bind, the_sheet, lift, write_file,
    run_pdflatex, Sketch.send_invoice_email, read_file, send_message, bind, lift.
  cbv beta iota.
  destruct (pull_info (sheet w)) as [p|e]; [|cbn; repeat split; auto; congruence].
  destruct (client_sessions name (all_sessions p)) as [mine|e];
    [|cbn; repeat split; auto; congruence].
  destruct (current_sessions (cutoff_dates p) mine) as [current|e];
    [|cbn; repeat split; auto; congruence].
  destruct (past_sessions (cutoff_dates p) mine) as [past|e];
    [|cbn; repeat split; auto; congruence].
  destruct (find_client name (all_clients p)) as [client_data|e];
    [|cbn; repeat split; auto; congruence].
  destruct (extract_initials name) as [initials|e];
    [|cbn; repeat split; auto; congruence].
  cbn [sheet files outbox disk].
  destruct (pdflatex _ _ _) as [d [|]]; [|cbn; repeat split; auto; congruence].
  destruct (Sketch.fill_content (c_payer_name client_data) (cutoff_dates p))
    as [[greeting period]|e]; [|cbn; repeat split; auto; congruence].
  cbn [sheet files outbox disk].
  destruct (d !! _) as [pdf|]; [|cbn; repeat split; auto; congruence].
  cbn [sheet files outbox disk].
  destruct (smtp_ok _); [|cbn; repeat split; auto; congruence].
  match goal with |- context [update_invoice_number p ?w1] =>
    destruct (update_invoice_number_cases p w1) as [(e & ->)|(n & rc & _ & _ & Hrc & ->)]
  end.
  - cbn. repeat split; [congruence | right; eauto].
  - cbn. repeat split; [|right; eauto].
    intros rc'. destruct (decide (rc = rc')) as [<-|Hne]; [auto|].
    rewrite lookup_insert_ne by exact Hne. congruence.
Qed.

(** ** Initials *)

Module InitialsFacts.
Import PyStr PyStrFacts.

Lemma upper_char_clean (c : ascii) :
  isspace c = false ->
  isspace (upper_char c) = false /\ islower (upper_char c) = false.
Proof. destruct c as [[|] [|] [|] [|] [|] [|] [|] [|]]; vm_compute; intros; split; congruence. Qed.

Lemma join_initials (tokens : list string) :
  Forall (fun t => t <> EmptyString) tokens ->
  Forall (fun t => has_space t = false) tokens ->
  let s := join (List.map initial_of tokens) in
  String.length s = length tokens /\ has_space s = false /\ has_lower s = false.
Proof.
  intros Hne Hsp. induction tokens as [|t tokens IH]; [repeat split|].
  inversion Hne as [|? ? Ht Hne']; inversion Hsp as [|? ? Hs Hsp']; subst.
  destruct (IH Hne' Hsp') as (Hl & Hs' & Hlow).
  destruct t as [|c t]; [congruence|].
  cbn [has_space] in Hs. apply orb_false_iff in Hs as [Hc _].
  destruct (upper_char_clean c Hc) as [Hc1 Hc2].
  cbn [List.map join initial_of length]. cbn [append String.length has_space has_lower].
  rewrite Hc1, Hc2. cbn [orb]. repeat split; [now f_equal | exact Hs' | exact Hlow].
Qed.

Lemma split_from_nil (s tok : string) :
  split_from tok s = [] <-> tok = EmptyString /\ all_space s = true.
Proof.
  revert tok; induction s as [|c s IH]; intros tok; cbn [split_from all_space].
  - destruct tok; split; try discriminate; intuition congruence.
  - destruct (isspace c) eqn:Hc; cbn [andb].
    + destruct tok.
      * apply IH.
      * split; [discriminate | intros [? _]; discriminate].
    + rewrite IH. split; [intros [E _] | intros [_ E]; discriminate].
      exfalso. exact (app_nonempty tok c E).
Qed.

End InitialsFacts.

(** X13. The initials of a name written in ASCII have one character per
    whitespace-delimited token, contain no whitespace and no lowercase
    letter, and are empty exactly when the name has no character other than
    whitespace. (Beyond ASCII an uppercase mapping can be longer than one
    character.) *)
Theorem initials_are_clean (name : string) :
  is_ascii name = true ->
  exists s,
    extract_initials name = Ok s
    /\ String.length s = length (PyStr.split name)
    /\ PyStrFacts.has_space s = false
    /\ has_lower s = false
    /\ (s = EmptyString <-> all_space name = true).
Proof.
  intros _.
  exists (initials_spec name). split; [apply extract_initials_total|].
  pose proof (PyStrFacts.split_from_nonempty name EmptyString) as Hne.
  pose proof (PyStrFacts.split_from_no_space name EmptyString eq_refl) as Hsp.
  destruct (InitialsFacts.join_initials _ Hne Hsp) as (Hl & Hs & Hlow).
  fold (PyStr.split name) in *. fold (initials_spec name) in *.
  repeat split; try assumption.
  - intros E. rewrite E in Hl. cbn [String.length] in Hl.
    destruct (PyStr.split name) eqn:Hsplit; [|discriminate].
    now apply InitialsFacts.split_from_nil in Hsplit as [_ Hall].
  - intros Hall. unfold initials_spec, PyStr.split.
    assert (E : PyStr.split_from EmptyString name = [])
      by (apply InitialsFacts.split_from_nil; split; [reflexivity | exact Hall]).
    now rewrite E.
Qed.

Lemma initials_are_clean_witness :
  exists s,
    extract_initials "jane q. public" = Ok s
    /\ String.length s = length (PyStr.split "jane q. public")
    /\ PyStrFacts.has_space s = false
    /\ has_lower s = false
    /\ (s = EmptyString <-> all_space "jane q. public" = true).
Proof.
  apply (initials_are_clean "jane q. public"). reflexivity.
Defined.

(** ** Client rows *)

(** X14. [parse_client] succeeds only on a row of at least nine cells, and
    then the name, the free field, the subjects, the payer name and the
    payer address of the record are the cells 0, 2, 4, 7 and 8 of the row,
    unchanged; on a shorter row it raises. *)
Theorem parse_client_needs_nine_cells `{Host} (row : list string) :
  (forall c, parse_client row = Ok c ->
     (9 <= length row)%nat
     /\ nth_error row 0 = Some (c_name c)
     /\ nth_error row 2 = Some (c_field_a c)
     /\ nth_error row 4 = Some (c_subjects c)
     /\ nth_error row 7 = Some (c_payer_name c)
     /\ nth_error row 8 = Some (c_payer_email c))
  /\ ((length row < 9)%nat -> exists e, parse_client row = Raise e).
Proof.
  assert (Hidx : forall i (x : string), index row i = Ok x -> nth_error row i = Some x).
  { intros i x. unfold index. destruct (nth_error row i); [intros [= ->]; reflexivity | discriminate]. }
  assert (Hok : forall c, parse_client row = Ok c ->
     (9 <= length row)%nat
     /\ nth_error row 0 = Some (c_name c)
     /\ nth_error row 2 = Some (c_field_a c)
     /\ nth_error row 4 = Some (c_subjects c)
     /\ nth_error row 7 = Some (c_payer_name c)
     /\ nth_error row 8 = Some (c_payer_email c)).
  { intros c Hc. unfold parse_client in Hc.
    apply rbind_ok_inv in Hc as (r0 & H0 & Hc).
    apply rbind_ok_inv in Hc as (r1 & _ & Hc).
    apply rbind_ok_inv in Hc as (n & _ & Hc).
    apply rbind_ok_inv in Hc as (r2 & H2 & Hc).
    apply rbind_ok_inv in Hc as (r3 & _ & Hc).
    apply rbind_ok_inv in Hc as (b & _ & Hc).
    apply rbind_ok_inv in Hc as (r4 & H4 & Hc).
    apply rbind_ok_inv in Hc as (r5 & _ & Hc).
    apply rbind_ok_inv in Hc as (rate & _ & Hc).
    apply rbind_ok_inv in Hc as (r6 & _ & Hc).
    apply rbind_ok_inv in Hc as (tab & _ & Hc).
    apply rbind_ok_inv in Hc as (r7 & H7 & Hc).
    apply rbind_ok_inv in Hc as (r8 & H8 & Hc).
    injection Hc as <-. cbn [c_name c_field_a c_subjects c_payer_name c_payer_email].
    apply Hidx in H0, H2, H4, H7, H8.
    repeat split; try assumption.
    assert (Hlt : (8 < length row)%nat) by (apply List.nth_error_Some; congruence). lia. }
  split; [exact Hok|].
  intros Hlen. destruct (parse_client row) as [c|e] eqn:Hc; [|eauto].
  destruct (Hok c eq_refl) as [Hge _]. lia.
Qed.

Lemma parse_client_needs_nine_cells_witness :
  exists e, parse_client ["Al Lee"; "1"; "a"; "0"; "Math"; "50.00"; "0.00"; "Pat Lee!"] = Raise e.
Proof.
  apply (parse_client_needs_nine_cells (H := Demo.host)
           ["Al Lee"; "1"; "a"; "0"; "Math"; "50.00"; "0.00"; "Pat Lee!"]).
  simpl. lia.
Defined.

(** ** The path of the attachment *)

Lemma replace_no_dot (a : string) :
  has_dot a = false ->
  replace_from 0 ".tex" ".pdf" (a +:+ ".tex") = a +:+ ".pdf".
Proof.
  induction a as [|c a IH]; intros Hd; [reflexivity|].
  cbn [has_dot] in Hd. apply orb_false_iff in Hd as [Hc Ha].
  cbn [append replace_from String.prefix].
  destruct (Ascii.ascii_dec "." c) as [E|_]; [subst c; discriminate|].
  cbn [andb]. now rewrite (IH Ha).
Qed.

(** X15. When no dot occurs in the path before its extension, replacing
    ".tex" by ".pdf" changes the extension and nothing else; a ".tex"
    inside an earlier part of the path (the sheet title is one) is replaced
    as well. *)
Theorem pdf_path_swaps_extension (stem : string) :
  (has_dot stem = false ->
   replace_from 0 ".tex" ".pdf" (stem +:+ ".tex") = stem +:+ ".pdf")
  /\ replace_from 0 ".tex" ".pdf" ("invoices/a.tex/INV-0007_AL" +:+ ".tex")
     = "invoices/a.pdf/INV-0007_AL.pdf".
Proof. split; [apply replace_no_dot | reflexivity]. Qed.

Lemma pdf_path_swaps_extension_witness :
  replace_from 0 ".tex" ".pdf" ("invoices/Winter/INV-0007_AL" +:+ ".tex")
  = "invoices/Winter/INV-0007_AL" +:+ ".pdf".
Proof.
  apply (pdf_path_swaps_extension "invoices/Winter/INV-0007_AL"). reflexivity.
Defined.

(** ** What a successful run leaves behind *)

(** X16. What line 108 writes is what line 58 and [int] recover on the
    next run: when [str] accepts an integer, that is, when the integer has
    at most 4300 digits, the text is its decimal text and, padded by [zfill]
    to a width of at most 4300, it reads back as that integer. *)
Theorem counter_text_round_trip (width : nat) (z : Z) (text : string) :
  PyStr.to_str z = Ok text ->
  (width <= PyStr.max_str_digits)%nat ->
  text = PyStr.str z
  /\ (String.length (PyStr.str (Z.abs z)) <= PyStr.max_str_digits)%nat
  /\ PyStr.int (PyStr.zfill width text) = Ok z.
Proof.
  intros Htext Hw. destruct (to_str_ok _ _ Htext) as [-> Hlen].
  repeat split; [exact Hlen|].
  apply DecimalFacts.int_zfill_str; assumption.
Qed.

Lemma counter_text_round_trip_witness :
  "8" = PyStr.str 8
  /\ (String.length (PyStr.str (Z.abs 8)) <= PyStr.max_str_digits)%nat
  /\ PyStr.int (PyStr.zfill 4 "8") = Ok 8.
Proof.
  apply (counter_text_round_trip 4 8 "8").
  - reflexivity.
  - unfold PyStr.max_str_digits. lia.
Defined.

(** X17. A run that succeeds has written exactly one file and sent exactly
    one message: the file is the invoice of the first client row with the
    requested name over that client's sessions of the window, numbered with
    the counter as read, at [invoices/<title>/INV-<number>_<initials>.tex];
    the message goes to that client's payer address with the subject
    "<name> Tutoring Invoice". *)
Theorem successful_run_outputs `{Host} (name : string) (w w' : World) :
  create_and_send_invoice name w = (w', Ok tt) ->
  exists p current client_data msg,
    pull_info (sheet w) = Ok p
    /\ select name p = Ok (current, client_data)
    /\ files w'
       = (("invoices/" +:+ title (sheet w) +:+ "/")
          +:+ ("INV-" +:+ invoice_number p +:+ "_" +:+ initials_spec name +:+ ".tex"),
          get_invoice_template client_data (invoice_number p) current) :: files w
    /\ outbox w' = msg :: outbox w
    /\ e_to msg = c_payer_email client_data
    /\ e_subject msg = name +:+ " Tutoring Invoice".
Proof.
  intros Hrun.
  destruct (run_cases name w)
    as [(e & E)|[(e & f & d & E)
                |(p & cur & cd & path & msg & d & Hp & Hsel & Hto & Hpath & Hsub & _ & _ & _ & E)]];
    rewrite E in Hrun; try discriminate.
  set (w1 := sent w _ _ _) in Hrun.
  destruct (post_send_cases p cd w1) as (w2 & r & E2 & Hf & Ho & _ & _).
  rewrite E2 in Hrun. injection Hrun as <- _.
  exists p, cur, cd, msg. rewrite Hf, Ho, <- Hpath. repeat split; assumption.
Qed.

Lemma successful_run_outputs_witness :
  exists p current client_data msg,
    pull_info (sheet Demo.world0) = Ok p
    /\ select "Cy Poe" p = Ok (current, client_data)
    /\ files (fst (create_and_send_invoice "Cy Poe" Demo.world0))
       = (("invoices/" +:+ title (sheet Demo.world0) +:+ "/")
          +:+ ("INV-" +:+ invoice_number p +:+ "_" +:+ initials_spec "Cy Poe" +:+ ".tex"),
          get_invoice_template client_data (invoice_number p) current)
         :: files Demo.world0
    /\ outbox (fst (create_and_send_invoice "Cy Poe" Demo.world0)) = msg :: outbox Demo.world0
    /\ e_to msg = c_payer_email client_data
    /\ e_subject msg = "Cy Poe" +:+ " Tutoring Invoice".
Proof.
  apply (successful_run_outputs "Cy Poe" Demo.world0
           (fst (create_and_send_invoice "Cy Poe" Demo.world0))).
  vm_compute. reflexivity.
Defined.

(** X18. A batch that succeeds has written one file and sent one message
    for each name of the batch, repeated names included. *)
Theorem batch_sends_one_per_name `{Host} (names : list string) (w w' : World) :
  main names w = (w', Ok tt) ->
  length (outbox w') = (length names + length (outbox w))%nat
  /\ length (files w') = (length names + length (files w))%nat.
Proof.
  revert w; induction names as [|name names IH]; intros w Hrun.
  - injection Hrun as <-. split; reflexivity.
  - unfold main in Hrun. cbn [for_each] in Hrun.
    apply bind_ok_inv in Hrun as ([] & w1 & Hone & Hrest).
    destruct (IH w1 Hrest) as [Ho Hf].
    destruct (run_cases name w)
      as [(e & E)|[(e & f & d & E)
                  |(p & cur & cd & path & msg & d & _ & _ & _ & _ & _ & _ & _ & _ & E)]];
      rewrite E in Hone; try discriminate.
    set (w0 := sent w _ _ _) in Hone.
    destruct (post_send_cases p cd w0) as (w2 & r & E2 & Hf2 & Ho2 & _ & _).
    rewrite E2 in Hone. injection Hone as <- _.
    rewrite Ho, Hf, Ho2, Hf2. unfold w0, sent. cbn [length outbox files]. split; lia.
Qed.

Lemma batch_sends_one_per_name_witness :
  length (outbox (fst (main ["Cy Poe"; "Al Lee"] Demo.world0)))
  = (length ["Cy Poe"; "Al Lee"] + length (outbox Demo.world0))%nat
  /\ length (files (fst (main ["Cy Poe"; "Al Lee"] Demo.world0)))
     = (length ["Cy Poe"; "Al Lee"] + length (files Demo.world0))%nat.
Proof.
  apply (batch_sends_one_per_name ["Cy Poe"; "Al Lee"] Demo.world0
           (fst (main ["Cy Poe"; "Al Lee"] Demo.world0))).
  vm_compute. reflexivity.
Defined.

(** ** The message *)

Lemma first_word_no_blank (s : string) : has_blank (PyStr.first_word s) = false.
Proof.
  induction s as [|c s IH]; [reflexivity|].
  cbn [PyStr.first_word]. destruct (Ascii.eqb c " ") eqn:Hc; [reflexivity|].
  cbn [has_blank]. now rewrite Hc, IH.
Qed.

Lemma first_word_whole (s : string) : has_blank s = false -> PyStr.first_word s = s.
Proof.
  induction s as [|c s IH]; [reflexivity|].
  cbn [has_blank PyStr.first_word]. intros Hb.
  apply orb_false_iff in Hb as [Hc Hs]. now rewrite Hc, (IH Hs).
Qed.

(** X19. When the message can be composed, the payer name is not empty, the
    welcome text is chosen exactly when the payer name ends with '!', the
    greeting is the payer name up to its first space (so a one-word payer
    name is greeted with its marker), and the period quoted is the first
    two cutoff dates. *)
Theorem message_follows_the_marker `{Host} (name payer : string) (cutoffs : list datetime)
    (v : variant) (greeting student : string) (period : datetime * datetime) :
  fill_content name payer cutoffs = Ok (v, greeting, student, period) ->
  payer <> EmptyString
  /\ (v = Welcome <-> PyStr.last payer = Ok "!"%char)
  /\ greeting = PyStr.first_word payer
  /\ has_blank greeting = false
  /\ (has_blank payer = false -> greeting = payer)
  /\ (v = Welcome -> student = PyStr.first_word name)
  /\ nth_error cutoffs 0 = Some (fst period)
  /\ nth_error cutoffs 1 = Some (snd period).
Proof.
  unfold fill_content. intros Hf.
  apply rbind_ok_inv in Hf as (mark & Hmark & Hf).
  assert (Hne : payer <> EmptyString) by (intros ->; discriminate).
  assert (Hidx : forall i (x : datetime), index cutoffs i = Ok x -> nth_error cutoffs i = Some x).
  { intros i x. unfold index. destruct (nth_error cutoffs i); [intros [= ->]; reflexivity | discriminate]. }
  destruct (Ascii.eqb_spec mark "!") as [->|Hm].
  - apply rbind_ok_inv in Hf as (lo & Hlo & Hf).
    apply rbind_ok_inv in Hf as (hi & Hhi & Hf).
    injection Hf as <- <- <- <-.
    repeat split; auto using first_word_no_blank, first_word_whole.
  - apply rbind_ok_inv in Hf as (lo & Hlo & Hf).
    apply rbind_ok_inv in Hf as (hi & Hhi & Hf).
    injection Hf as <- <- <- <-.
    repeat split; auto using first_word_no_blank, first_word_whole; try discriminate.
    rewrite Hmark. intros [= E]. congruence.
Qed.

Lemma message_follows_the_marker_witness :
  "Pat!" <> EmptyString
  /\ (Welcome = Welcome <-> PyStr.last "Pat!" = Ok "!"%char)
  /\ "Pat!" = PyStr.first_word "Pat!"
  /\ has_blank "Pat!" = false
  /\ (has_blank "Pat!" = false -> "Pat!" = "Pat!")
  /\ (Welcome = Welcome -> "Bo" = PyStr.first_word "Bo Lee")
  /\ nth_error [0; 14] 0 = Some (fst (0, 14))
  /\ nth_error [0; 14] 1 = Some (snd (0, 14)).
Proof.
  apply (message_follows_the_marker (H := Demo.host) "Bo Lee" "Pat!" [0; 14]
           Welcome "Pat!" "Bo" (0, 14)).
  reflexivity.
Defined.

(** ** The two pipelines side by side *)

Lemma past_sessions_follow (cutoffs : list datetime) (mine current : list Session) :
  current_sessions cutoffs mine = Ok current ->
  exists past, past_sessions cutoffs mine = Ok past.
Proof.
  destruct mine as [|s mine]; [eexists; reflexivity|].
  destruct cutoffs as [|lo cutoffs]; [discriminate|].
  intros _. eexists. apply rfilter_total. intros x _. reflexivity.
Qed.

Lemma update_invoice_number_sheet `{Host} (p : Pulled) (w1 w2 : World) :
  sheet w1 = sheet w2 ->
  snd (update_invoice_number p w1) = snd (update_invoice_number p w2)
  /\ sheet (fst (update_invoice_number p w1)) = sheet (fst (update_invoice_number p w2)).
Proof.
  intros Hs. unfold update_invoice_number, bind, lift, update_acell.
  destruct (PyStr.int (invoice_number p)) as [n|e]; [|split; [reflexivity | exact Hs]].
  destruct (PyStr.to_str (n + 1)) as [text|e]; [|split; [reflexivity | exact Hs]].
  rewrite Hs.
  destruct (sheet_update_acell (sheet w2) INVOICE_NUMBER_RANGE text);
    split; try reflexivity; exact Hs.
Qed.

Lemma cons_neq {A} (x : A) (l : list A) : x :: l <> l.
Proof. intros E. apply (f_equal (@length A)) in E. cbn [length] in E. lia. Qed.

Section SketchFacts.
Context `{Host}.

(** A run of sketch.py stops before the file is written, or between the
    file and the message, or sends one standard message and goes on to the
    counter. *)
Lemma sketch_run_cases (name : string) (w : World) :
  (exists e, Sketch.create_and_send_invoice name w = (w, Raise e))
  \/ (exists e f d, Sketch.create_and_send_invoice name w = (written w f d, Raise e))
  \/ (exists p f msg d,
        pull_info (sheet w) = Ok p
        /\ e_variant msg = Standard
        /\ Sketch.create_and_send_invoice name w
           = update_invoice_number p (sent w f msg d)).
Proof.
  unfold Sketch.create_and_send_invoice, bind, the_sheet, lift, write_file,
    run_pdflatex, Sketch.send_invoice_email, read_file, send_message, bind, lift.
  cbv beta iota.
  destruct (pull_info (sheet w)) as [p|e]; [|eauto].
  destruct (client_sessions name (all_sessions p)) as [mine|e]; [|eauto].
  destruct (current_sessions (cutoff_dates p) mine) as [current|e]; [|eauto].
  destruct (past_sessions (cutoff_dates p) mine) as [past|e]; [|eauto].
  destruct (find_client name (all_clients p)) as [client_data|e]; [|eauto].
  destruct (extract_initials name) as [initials|e]; [|eauto].
  cbn [sheet files outbox disk].
  destruct (pdflatex _ _ _) as [d [|]]; [|right; left; unfold written; eauto].
  destruct (Sketch.fill_content (c_payer_name client_data) (cutoff_dates p))
    as [[greeting period]|e]; [|right; left; unfold written; eauto].
  cbn [sheet files outbox disk].
  destruct (d !! _) as [pdf|]; [|right; left; unfold written; eauto].
  cbn [sheet files outbox disk].
  destruct (smtp_ok _); [|right; left; unfold written; eauto].
  right. right. eexists p, _, _, d. split; [reflexivity|].
  split; [|unfold sent; reflexivity]. reflexivity.
Qed.

(** After the message, a payer name without the marker leaves only the
    counter to be written. *)
Lemma post_send_without_marker (p : Pulled) (client_data : Client) (w : World)
    (name : string) (cutoffs : list datetime)
    (x : variant * string * string * (datetime * datetime)) :
  fill_content name (c_payer_name client_data) cutoffs = Ok x ->
  PyStr.last (c_payer_name client_data) <> Ok "!"%char ->
  post_send p client_data w = update_invoice_number p w.
Proof.
  intros Hfill Hmark.
  pose proof (fill_content_payer_nonempty _ _ _ _ Hfill) as Hne.
  unfold post_send, update_payer, bind, lift.
  destruct (last_nonempty _ Hne) as [c Hc]. rewrite Hc.
  destruct (Ascii.eqb_spec c "!") as [->|_]; [congruence | reflexivity].
Qed.

End SketchFacts.

(** X20. For a client whose payer name does not end with '!', when the run
    of invoice.py and the run of sketch.py both send their message, they
    end with the same result and leave the same sheet: invoice.py adds to
    sketch.py only the treatment of the marker (and the per-sheet folder of
    the files, which decides where the PDF is looked for). When neither
    sends, both leave the sheet as it was. *)
Theorem sketch_agrees_without_marker `{Host} (name : string) (w : World) :
  (forall p current client_data,
     pull_info (sheet w) = Ok p ->
     select name p = Ok (current, client_data) ->
     PyStr.last (c_payer_name client_data) <> Ok "!"%char) ->
  let a := create_and_send_invoice name w in
  let b := Sketch.create_and_send_invoice name w in
  (outbox (fst a) <> outbox w -> outbox (fst b) <> outbox w ->
   snd b = snd a /\ sheet (fst b) = sheet (fst a))
  /\ (outbox (fst a) = outbox w -> outbox (fst b) = outbox w ->
      sheet (fst a) = sheet w /\ sheet (fst b) = sheet w).
Proof.
  intros Hpayer a b.
  assert (Ha : (outbox (fst a) = outbox w /\ sheet (fst a) = sheet w)
               \/ (exists p f msg d,
                     pull_info (sheet w) = Ok p
                     /\ a = update_invoice_number p (sent w f msg d)
                     /\ outbox (fst a) = msg :: outbox w)).
  { unfold a.
    destruct (run_cases name w)
      as [(e & E)|[(e & f & d & E)
                  |(p & cur & cd & path & msg & d & Hp & Hsel & _ & _ & _ & _ & Hfill & _ & E)]];
      rewrite E; [left; split; reflexivity | left; split; reflexivity |].
    right. rewrite (post_send_without_marker _ _ _ _ _ _ Hfill (Hpayer _ _ _ Hp Hsel)).
    exists p, (path, get_invoice_template cd (invoice_number p) cur), msg, d.
    repeat split; [exact Hp|].
    destruct (update_invoice_number p _) as [w' r] eqn:E'.
    destruct (sheet_only_update_invoice_number p _ _ _ E') as [_ Ho].
    exact Ho. }
  assert (Hb : (outbox (fst b) = outbox w /\ sheet (fst b) = sheet w)
               \/ (exists p f msg d,
                     pull_info (sheet w) = Ok p
                     /\ b = update_invoice_number p (sent w f msg d)
                     /\ outbox (fst b) = msg :: outbox w)).
  { unfold b.
    destruct (sketch_run_cases name w)
      as [(e & E)|[(e & f & d & E)|(p & f & msg & d & Hp & _ & E)]];
      rewrite E; [left; split; reflexivity | left; split; reflexivity |].
    right. exists p, f, msg, d. repeat split; [exact Hp|].
    destruct (update_invoice_number p _) as [w' r] eqn:E'.
    destruct (sheet_only_update_invoice_number p _ _ _ E') as [_ Ho].
    exact Ho. }
  split.
  - intros Na Nb.
    destruct Ha as [[Ea _]|(p & fa & ma & da & Hp & Ea & _)]; [congruence|].
    destruct Hb as [[Eb _]|(p' & fb & mb & db & Hp' & Eb & _)]; [congruence|].
    rewrite Hp in Hp'. injection Hp' as <-.
    rewrite Ea, Eb. apply update_invoice_number_sheet. reflexivity.
  - intros Oa Ob. split.
    + destruct Ha as [[_ Es]|(p & fa & ma & da & _ & _ & Eo)]; [exact Es|].
      rewrite Eo in Oa. now apply cons_neq in Oa.
    + destruct Hb as [[_ Es]|(p & fb & mb & db & _ & _ & Eo)]; [exact Es|].
      rewrite Eo in Ob. now apply cons_neq in Ob.
Qed.

Lemma sketch_agrees_without_marker_witness :
  let a := create_and_send_invoice "Cy Poe" Demo.world0 in
  let b := Sketch.create_and_send_invoice "Cy Poe" Demo.world0 in
  (outbox (fst a) <> outbox Demo.world0 -> outbox (fst b) <> outbox Demo.world0 ->
   snd b = snd a /\ sheet (fst b) = sheet (fst a))
  /\ (outbox (fst a) = outbox Demo.world0 -> outbox (fst b) = outbox Demo.world0 ->
      sheet (fst a) = sheet Demo.world0 /\ sheet (fst b) = sheet Demo.world0).
Proof.
  apply (sketch_agrees_without_marker "Cy Poe" Demo.world0).
  intros p current client_data Hp Hsel.
  assert (Ep : Ok p = Ok Demo.pulled0) by (rewrite <- Hp; vm_compute; reflexivity).
  injection Ep as ->.
  assert (Ec : Ok (current, client_data) = Ok (@nil Session, Demo.cy_poe))
    by (rewrite <- Hsel; vm_compute; reflexivity).
  injection Ec as -> ->. discriminate.
Defined.

(** ** A PDF that is not where the script looks for it *)

(** X21. When the document is written and compiled and the message is
    composed, but no file stands at the path obtained by replacing every
    ".tex" of the path of the document by ".pdf", the run ends with
    [FileNotFoundError]: the file is written, nothing is sent, and the
    sheet, counter included, is left as it was. A sheet title that
    contains ".tex" leads there, since [pdflatex] names its output after
    the input file and the output directory. *)
Theorem missing_pdf_stops_the_run `{Host} (name : string) (w : World) (p : Pulled)
    (current : list Session) (client_data : Client) (d : Disk)
    (x : variant * string * string * (datetime * datetime)) :
  let folder := "invoices/" +:+ title (sheet w) +:+ "/" in
  let tex_path :=
    folder +:+ ("INV-" +:+ invoice_number p +:+ "_" +:+ initials_spec name +:+ ".tex") in
  let doc := get_invoice_template client_data (invoice_number p) current in
  pull_info (sheet w) = Ok p ->
  select name p = Ok (current, client_data) ->
  pdflatex folder tex_path (<[ tex_path := Tex doc ]> (disk w)) = (d, true) ->
  fill_content name (c_payer_name client_data) (cutoff_dates p) = Ok x ->
  d !! replace_from 0 ".tex" ".pdf" tex_path = None ->
  let w' := fst (create_and_send_invoice name w) in
  snd (create_and_send_invoice name w) = Raise FileNotFoundError
  /\ files w' = (tex_path, doc) :: files w
  /\ outbox w' = outbox w
  /\ sheet w' = sheet w.
Proof.
  intros folder tex_path doc Hp Hsel Htex Hfill Hpdf.
  unfold create_and_send_invoice, bind, the_sheet, lift, write_file,
    run_pdflatex, send_invoice_email, read_file, send_message, bind, lift.
  cbv beta iota.
  rewrite Hp, Hsel, (extract_initials_total name).
  cbn [sheet files outbox disk].
  fold folder. fold tex_path. fold doc. rewrite Htex, Hfill.
  destruct x as [[[v g] s] per].
  cbn [sheet files outbox disk]. rewrite Hpdf.
  cbn [fst snd sheet files outbox]. repeat split.
Qed.

Lemma missing_pdf_stops_the_run_witness :
  let w := {| sheet := {| title := "a.tex"; grid := grid Demo.sheet0 |};
              files := []; outbox := []; disk := empty |} in
  let w' := fst (create_and_send_invoice "Cy Poe" w) in
  snd (create_and_send_invoice "Cy Poe" w) = Raise FileNotFoundError
  /\ files w' = ("invoices/a.tex/INV-0007_CP.tex",
                 get_invoice_template Demo.cy_poe "0007" []) :: files w
  /\ outbox w' = outbox w
  /\ sheet w' = sheet w.
Proof.
  intros w.
  apply (missing_pdf_stops_the_run "Cy Poe" w Demo.pulled0 [] Demo.cy_poe
           (fst (Demo.compile "invoices/a.tex/" "invoices/a.tex/INV-0007_CP.tex"
                   (<[ "invoices/a.tex/INV-0007_CP.tex"
                       := Tex (get_invoice_template Demo.cy_poe "0007" []) ]> empty)))
           (Standard, "John", "", (3888000000000000, 3889209600000000))).
  - vm_compute. reflexivity.
  - vm_compute. reflexivity.
  - vm_compute. reflexivity.
  - vm_compute. reflexivity.
  - vm_compute. reflexivity.
Defined.
